(** * Water-quality prediction scripts: a shallow embedding and its properties

    The embedding follows the five inference scripts of
    [backend/python-scripts]:

    - [predict_sensor_only.py]  (module [SensorOnly])
    - [predict_hybrid.py]       (module [Hybrid])
    - [predict_image_only.py]   (module [ImageOnly])
    - [predict.py]              (module [Fusion])
    - [predict_s3.py]           (module [S3])

    Python floats are modelled by exact rationals [Q]; readings are finite,
    and a missing cell ([nan]) is a separate constructor of [cell].  The
    thresholds 6.0, 6.5, 8.5, 9.0, 10, 15, 30, 35, 500, 1000, 3, 5, 50 and
    100 are doubles, so comparing a reading with them is comparing exact
    values.  The thresholds 0.3 and 0.15 of [analyze_image] are not; each
    is read as the double just below it and is used with [>] only, and a
    double exceeds that double exactly when it exceeds the decimal.  The
    arithmetic of [analyze_image_features] is exact arithmetic in [Q];
    module [Binary64] recomputes it in IEEE-754 binary64.

    What the scripts obtain from pandas, OpenCV, Keras, scikit-learn, boto3
    and the clock is an input of the model. *)

From Stdlib Require Import ZArith QArith Qround Lqa Lia Bool Ascii String List.
From Stdlib Require Import Floats.SpecFloat.
From stdpp Require Import base option gmap strings.
Import ListNotations.

Local Open Scope string_scope.
Local Open Scope list_scope.
Local Open Scope Z_scope.

(** ** Python values and exceptions *)

Module Py.

Definition float := Q.
Bind Scope Q_scope with float.

Definition Qltb (x y : Q) : bool :=
  match (x ?= y)%Q with Lt => true | _ => false end.
Definition Qgtb (x y : Q) : bool := Qltb y x.
Definition Qleb (x y : Q) : bool := Qle_bool x y.

Inductive exception :=
| KeyError (key : string)
| IndexError
| ValueError (text : string)
| TypeError
| ClientError (text : string)
| Exception (message : string) (cause : exception).

(** A computation that returns or raises. *)
Inductive exn (A : Type) :=
| Ok (a : A)
| Raise (e : exception).
Arguments Ok {A} a.
Arguments Raise {A} e.

#[export] Instance exn_ret : MRet exn := fun _ a => Ok a.
#[export] Instance exn_bind : MBind exn := fun _ _ f m =>
  match m with Ok a => f a | Raise e => Raise e end.

(** *** str methods *)

Definition lower_ascii (c : ascii) : ascii :=
  let n := N_of_ascii c in
  if ((65 <=? n) && (n <=? 90))%N then ascii_of_N (n + 32) else c.

Fixpoint lower (s : string) : string :=
  match s with
  | EmptyString => EmptyString
  | String c s' => String (lower_ascii c) (lower s')
  end.

Definition isspace (c : ascii) : bool :=
  let n := N_of_ascii c in
  (((9 <=? n) && (n <=? 13)) || ((28 <=? n) && (n <=? 32)))%N.

Fixpoint lstrip (s : string) : string :=
  match s with
  | EmptyString => EmptyString
  | String c s' => if isspace c then lstrip s' else s
  end.

Definition reverse (s : string) : string :=
  string_of_list_ascii (List.rev (list_ascii_of_string s)).

Definition strip (s : string) : string :=
  reverse (lstrip (reverse (lstrip s))).

(** [pat in s] for two strings. *)
Fixpoint contains (pat s : string) : bool :=
  if String.prefix pat s then true
  else match s with
       | EmptyString => false
       | String _ s' => contains pat s'
       end.

(** *** dict: insertion-ordered, as [json.dumps] prints it *)

Definition dict (V : Type) := list (string * V).

Fixpoint get {V} (d : dict V) (k : string) : option V :=
  match d with
  | [] => None
  | (k', v) :: d' => if String.eqb k k' then Some v else get d' k
  end.

Definition has_key {V} (d : dict V) (k : string) : bool :=
  match get d k with Some _ => true | None => false end.

(** [d[k]] *)
Definition getitem {V} (d : dict V) (k : string) : exn V :=
  match get d k with Some v => Ok v | None => Raise (KeyError k) end.

(** [d[k] = v]: a present key keeps its place, a new one goes last. *)
Fixpoint setitem {V} (d : dict V) (k : string) (v : V) : dict V :=
  match d with
  | [] => [(k, v)]
  | (k', v') :: d' =>
      if String.eqb k k' then (k', v) :: d' else (k', v') :: setitem d' k v
  end.

(** [d.get(k, default)] *)
Definition get_default {V} (d : dict V) (k : string) (default : V) : V :=
  match get d k with Some v => v | None => default end.

(** *** round(x, 2) on a float: nearest hundredth, ties to even *)

Definition round_half_even (x : Q) : Z :=
  let f := Qfloor x in
  match (x - inject_Z f ?= 1 # 2)%Q with
  | Lt => f
  | Gt => f + 1
  | Eq => if Z.even f then f else f + 1
  end.

Definition round2 (x : float) : float :=
  Qmake (round_half_even (x * 100)) 100.

(** *** JSON documents, as [json.dumps] receives them *)

#[warnings="-register-all"] Inductive json :=
| JInt (z : Z)
| JFloat (x : float)
| JNaN
| JStr (s : string)
| JObj (fields : list (string * json)).

Definition field (j : json) (k : string) : option json :=
  match j with
  | JObj fields => get fields k
  | _ => None
  end.

(** What a script leaves on stdout: the result document (exit status 0),
    or [{"error": message + str(cause)}] (exit status 1). *)
Inductive outcome :=
| Success (result : json)
| Failure (message : string) (cause : option exception).

End Py.
Import Py.

Declare Scope py_scope.
Delimit Scope py_scope with py.
Infix "<?" := Qltb (at level 70, no associativity) : py_scope.
Infix ">?" := Qgtb (at level 70, no associativity) : py_scope.
Infix "<=?" := Qleb (at level 70, no associativity) : py_scope.

(** ** pandas *)

Module Pandas.

(** One cell of a parsed table. *)
Inductive cell :=
| CInt (z : Z)
| CFloat (x : float)
| CNaN
| CStr (s : string).

(** [columns] are the labels in file order ([read_csv] makes them
    distinct); every row has one cell per column. *)
Record DataFrame := {
  columns : list string;
  rows : list (list cell)
}.

Definition len (df : DataFrame) : Z := Z.of_nat (length (rows df)).

(** The number a cell is compared as: [Some x], [None] for [nan];
    ordering a [str] against a number raises. *)
Definition as_number (value : cell) : exn (option float) :=
  match value with
  | CInt z => Ok (Some (inject_Z z))
  | CFloat x => Ok (Some x)
  | CNaN => Ok None
  | CStr _ => Raise TypeError
  end.

(** [lo <= value <= hi], [value < hi] and [value > lo]; any comparison
    with [nan] is [False]. *)
Definition between (lo : float) (value : cell) (hi : float) : exn bool :=
  x ← as_number value;
  mret (match x with
        | Some x => (lo <=? x)%py && (x <=? hi)%py
        | None => false
        end).

Definition below (value : cell) (hi : float) : exn bool :=
  x ← as_number value;
  mret (match x with Some x => (x <? hi)%py | None => false end).

Definition above (value : cell) (lo : float) : exn bool :=
  x ← as_number value;
  mret (match x with Some x => (x >? lo)%py | None => false end).

(** [df.iloc[-1].to_dict()], called on a non-empty frame. *)
Definition iloc_last_to_dict (df : DataFrame) : list (string * cell) :=
  combine (columns df) (List.last (rows df) []).

End Pandas.
Import Pandas.

(** ** predict_sensor_only.py *)

Module SensorOnly.
Section Script.

(** [float(s)] for a [str] cell; [None] when it raises [ValueError]. *)
Variable float_of_str : string -> option float.

(** [float(value) if pd.notna(value) else default]; [pd.notna] is false
    on a missing cell only. *)
Definition float_or (value : cell) (default : float) : exn float :=
  match value with
  | CNaN => Ok default
  | CInt z => Ok (inject_Z z)
  | CFloat x => Ok x
  | CStr s => match float_of_str s with
              | Some x => Ok x
              | None => Raise (ValueError s)
              end
  end.

(** Lines 25-58: the accumulation of [risk_score]. *)
Definition risk_score (data : dict float) : exn Z :=
  let risk_score := 0 in
  pH ← getitem data "pH";
  let risk_score :=
    if (pH <? 6)%py || (pH >? 9)%py then risk_score + 3
    else if (pH <? 6.5)%py || (pH >? 8.5)%py then risk_score + 1
    else risk_score in
  temperature ← getitem data "Temperature";
  let risk_score :=
    if (temperature <? 10)%py || (temperature >? 35)%py then risk_score + 3
    else if (temperature <? 15)%py || (temperature >? 30)%py then risk_score + 1
    else risk_score in
  let risk_score :=
    match get data "TDS" with
    | Some tds =>
        if (tds >? 1000)%py then risk_score + 3
        else if (tds >? 500)%py then risk_score + 1
        else risk_score
    | None => risk_score
    end in
  let risk_score :=
    match get data "Turbidity" with
    | Some turbidity =>
        if (turbidity >? 10)%py then risk_score + 3
        else if (turbidity >? 5)%py then risk_score + 1
        else risk_score
    | None => risk_score
    end in
  let risk_score :=
    match get data "DO" with
    | Some do =>
        if (do <? 3)%py then risk_score + 3
        else if (do <? 5)%py then risk_score + 1
        else risk_score
    | None => risk_score
    end in
  mret risk_score.

(** Lines 60-74: quality, risk and confidence from the score. *)
Definition assess_risk_from_sensor (data : dict float)
  : exn (string * string * Z) :=
  risk_score ← risk_score data;
  if (6 <=? risk_score)%Z then mret ("Unsafe", "High", 92)
  else if (3 <=? risk_score)%Z then mret ("Unsafe", "Medium", 88)
  else mret ("Safe", "Low", 95).

(** Lines 91-102: one turn of the loop over [latest.items()]. *)
Definition standardize (data : dict float) (item : string * cell)
  : exn (dict float) :=
  let '(key, value) := item in
  let key_lower := strip (lower key) in
  if contains "ph" key_lower then
    v ← float_or value 7%Q; mret (setitem data "pH" v)
  else if contains "temp" key_lower then
    v ← float_or value 25%Q; mret (setitem data "Temperature" v)
  else if contains "tds" key_lower then
    v ← float_or value 300%Q; mret (setitem data "TDS" v)
  else if contains "turbidity" key_lower then
    v ← float_or value 2%Q; mret (setitem data "Turbidity" v)
  else if contains "do" key_lower || contains "oxygen" key_lower then
    v ← float_or value 6%Q; mret (setitem data "DO" v)
  else mret data.

Fixpoint standardize_all (data : dict float) (items : list (string * cell))
  : exn (dict float) :=
  match items with
  | [] => mret data
  | item :: items' =>
      data' ← standardize data item; standardize_all data' items'
  end.

(** Lines 104-114. *)
Definition fill_defaults (data : dict float) : dict float :=
  let data := if has_key data "pH" then data else setitem data "pH" 7%Q in
  let data := if has_key data "Temperature" then data
              else setitem data "Temperature" 25%Q in
  let data := if has_key data "TDS" then data else setitem data "TDS" 300%Q in
  let data := if has_key data "Turbidity" then data
              else setitem data "Turbidity" 2%Q in
  let data := if has_key data "DO" then data else setitem data "DO" 6%Q in
  data.

Definition status (normal : bool) : json :=
  JStr (if normal then "Normal" else "Abnormal").

Definition parameter (value : float) (normal : bool) : json :=
  JObj [("value", JFloat (round2 value)); ("status", status normal)].

(** Lines 116-150. *)
Definition build_result (data : dict float) : exn json :=
  '(quality, risk, confidence) ← assess_risk_from_sensor data;
  pH ← getitem data "pH";
  temperature ← getitem data "Temperature";
  tds ← getitem data "TDS";
  do ← getitem data "DO";
  turbidity ← getitem data "Turbidity";
  mret (JObj [
    ("water_quality", JStr quality);
    ("risk_level", JStr risk);
    ("confidence", JObj [("quality", JInt confidence);
                         ("risk", JInt (confidence - 3))]);
    ("sensor_readings", JObj (map (fun kv => (fst kv, JFloat (snd kv))) data));
    ("parameters", JObj [
       ("pH", parameter pH ((6.5 <=? pH)%py && (pH <=? 8.5)%py));
       ("Temperature",
          parameter temperature
            ((15 <=? temperature)%py && (temperature <=? 30)%py));
       ("TDS", parameter tds (tds <? 500)%py);
       ("DO", parameter do (do >? 5)%py);
       ("Turbidity", parameter turbidity (turbidity <? 5)%py)]);
    ("method", JStr "sensor_only")]).

(** [csv] is what [pd.read_csv(csv_path)] does: a frame, or an exception. *)
Definition predict_from_sensor (csv : exn DataFrame) : outcome :=
  match csv with
  | Raise e => Failure "Prediction error: " (Some e)
  | Ok df =>
      if (0 <? len df)%Z then
        let latest := iloc_last_to_dict df in
        match (data ← standardize_all [] latest;
               build_result (fill_defaults data)) with
        | Ok result => Success result
        | Raise e => Failure "Prediction error: " (Some e)
        end
      else Failure "No data in CSV file" None
  end.

End Script.
End SensorOnly.

(** ** OpenCV measurements of an image *)

Module Cv2.

(** What the scripts measure on a decoded image:
    [green_ratio] is [np.sum(green_mask > 0) / (h * w)],
    [laplacian_var] is [cv2.Laplacian(gray, cv2.CV_64F).var()],
    [brightness] is [np.mean(gray)]. *)
Record image := {
  green_ratio : float;
  laplacian_var : float;
  brightness : float
}.

End Cv2.
Import Cv2.

(** ** predict_hybrid.py *)

Module Hybrid.
Section Script.

Variable float_of_str : string -> option float.

(** [cv2.imread(image_path)] followed by the measurements; [None] when
    the image cannot be read or a measurement raises. *)
Variable imread : string -> option image.

Definition float_or (value : cell) (default : float) : exn float :=
  match value with
  | CNaN => Ok default
  | CInt z => Ok (inject_Z z)
  | CFloat x => Ok x
  | CStr s => match float_of_str s with
              | Some x => Ok x
              | None => Raise (ValueError s)
              end
  end.

Definition standardize (data : dict float) (item : string * cell)
  : exn (dict float) :=
  let '(key, value) := item in
  let key_lower := strip (lower key) in
  if contains "ph" key_lower then
    v ← float_or value 7%Q; mret (setitem data "pH" v)
  else if contains "temp" key_lower then
    v ← float_or value 25%Q; mret (setitem data "Temperature" v)
  else if contains "tds" key_lower then
    v ← float_or value 300%Q; mret (setitem data "TDS" v)
  else if contains "turbidity" key_lower then
    v ← float_or value 2%Q; mret (setitem data "Turbidity" v)
  else if contains "do" key_lower || contains "oxygen" key_lower then
    v ← float_or value 6%Q; mret (setitem data "DO" v)
  else mret data.

Fixpoint standardize_all (data : dict float) (items : list (string * cell))
  : exn (dict float) :=
  match items with
  | [] => mret data
  | item :: items' =>
      data' ← standardize data item; standardize_all data' items'
  end.

Definition fill_defaults (data : dict float) : dict float :=
  let data := if has_key data "pH" then data else setitem data "pH" 7%Q in
  let data := if has_key data "Temperature" then data
              else setitem data "Temperature" 25%Q in
  let data := if has_key data "TDS" then data else setitem data "TDS" 300%Q in
  let data := if has_key data "Turbidity" then data
              else setitem data "Turbidity" 2%Q in
  let data := if has_key data "DO" then data else setitem data "DO" 6%Q in
  data.

(** Lines 24-56; [None] is Python's [None]. *)
Definition read_sensor_data (csv : exn DataFrame) : option (dict float) :=
  match csv with
  | Raise _ => None
  | Ok df =>
      if (len df =? 0)%Z then None
      else
        let latest := iloc_last_to_dict df in
        match standardize_all [] latest with
        | Ok data => Some (fill_defaults data)
        | Raise _ => None
        end
  end.

(** Lines 58-85. *)
Definition analyze_image (image_path : string) : Z :=
  match imread image_path with
  | None => 0
  | Some img =>
      let visual_risk := 0 in
      let visual_risk :=
        if (green_ratio img >? 0.3)%py then visual_risk + 2
        else if (green_ratio img >? 0.15)%py then visual_risk + 1
        else visual_risk in
      let visual_risk :=
        if (laplacian_var img <? 50)%py then visual_risk + 2
        else if (laplacian_var img <? 100)%py then visual_risk + 1
        else visual_risk in
      visual_risk
  end.

(** Lines 89-122: the accumulation of [risk_score]. *)
Definition risk_score (sensor_data : dict float) (visual_risk : Z) : exn Z :=
  let risk_score := 0 in
  pH ← getitem sensor_data "pH";
  let risk_score :=
    if (pH <? 6)%py || (pH >? 9)%py then risk_score + 3
    else if (pH <? 6.5)%py || (pH >? 8.5)%py then risk_score + 1
    else risk_score in
  temperature ← getitem sensor_data "Temperature";
  let risk_score :=
    if (temperature <? 10)%py || (temperature >? 35)%py then risk_score + 3
    else if (temperature <? 15)%py || (temperature >? 30)%py then risk_score + 1
    else risk_score in
  tds ← getitem sensor_data "TDS";
  let risk_score :=
    if (tds >? 1000)%py then risk_score + 3
    else if (tds >? 500)%py then risk_score + 1
    else risk_score in
  turbidity ← getitem sensor_data "Turbidity";
  let risk_score :=
    if (turbidity >? 10)%py then risk_score + 3
    else if (turbidity >? 5)%py then risk_score + 1
    else risk_score in
  do ← getitem sensor_data "DO";
  let risk_score :=
    if (do <? 3)%py then risk_score + 3
    else if (do <? 5)%py then risk_score + 1
    else risk_score in
  let risk_score := risk_score + visual_risk in
  mret risk_score.

(** Lines 124-138. *)
Definition assess_risk (sensor_data : dict float) (visual_risk : Z)
  : exn (string * string * Z) :=
  risk_score ← risk_score sensor_data visual_risk;
  if (6 <=? risk_score)%Z then mret ("Unsafe", "High", 95)
  else if (3 <=? risk_score)%Z then mret ("Unsafe", "Medium", 92)
  else mret ("Safe", "Low", 97).

Definition status (normal : bool) : json :=
  JStr (if normal then "Normal" else "Abnormal").

Definition parameter (value : float) (normal : bool) : json :=
  JObj [("value", JFloat (round2 value)); ("status", status normal)].

Definition build_result (sensor_data : dict float) (visual_risk : Z)
  : exn json :=
  '(quality, risk, confidence) ← assess_risk sensor_data visual_risk;
  pH ← getitem sensor_data "pH";
  temperature ← getitem sensor_data "Temperature";
  tds ← getitem sensor_data "TDS";
  do ← getitem sensor_data "DO";
  turbidity ← getitem sensor_data "Turbidity";
  mret (JObj [
    ("water_quality", JStr quality);
    ("risk_level", JStr risk);
    ("confidence", JObj [("quality", JInt confidence);
                         ("risk", JInt (confidence - 2))]);
    ("sensor_readings",
       JObj (map (fun kv => (fst kv, JFloat (snd kv))) sensor_data));
    ("parameters", JObj [
       ("pH", parameter pH ((6.5 <=? pH)%py && (pH <=? 8.5)%py));
       ("Temperature",
          parameter temperature
            ((15 <=? temperature)%py && (temperature <=? 30)%py));
       ("TDS", parameter tds (tds <? 500)%py);
       ("DO", parameter do (do >? 5)%py);
       ("Turbidity", parameter turbidity (turbidity <? 5)%py)]);
    ("method", JStr "hybrid_sensor_image")]).

(** Lines 140-192.  An empty [image_path] is falsy. *)
Definition predict (image_path : string) (csv : exn DataFrame) : outcome :=
  match read_sensor_data csv with
  | None | Some [] => Failure "Failed to read sensor data from CSV" None
  | Some sensor_data =>
      let visual_risk :=
        if String.eqb image_path "" then 0 else analyze_image image_path in
      match build_result sensor_data visual_risk with
      | Ok result => Success result
      | Raise e => Failure "Prediction error: " (Some e)
      end
  end.

End Script.
End Hybrid.

(** ** predict_image_only.py *)

Module ImageOnly.
Section Script.

Variable imread : string -> option image.

(** Python's two-argument [max] and [min]: the first argument wins ties. *)
Definition py_max (a b : float) : float := if (b >? a)%py then b else a.
Definition py_min (a b : float) : float := if (b <? a)%py then b else a.

(** Lines 29-63; [None] when [cv2.imread] returns [None]. *)
Definition analyze_image_features (image_path : string)
  : option (dict float) :=
  match imread image_path with
  | None => None
  | Some img =>
      let turbidity_estimate :=
        py_max 0%Q (py_min 10%Q ((100 - laplacian_var img) / 10)%Q) in
      Some [("pH", (7 + green_ratio img * 2)%Q);
            ("Temperature", (20 + brightness img / 10)%Q);
            ("TDS", (300 + turbidity_estimate * 30)%Q);
            ("Turbidity", turbidity_estimate);
            ("DO", py_max 3%Q (8 - green_ratio img * 5)%Q)]
  end.

(** Lines 65-110. *)
Definition assess_risk_from_params (params : dict float)
  : exn (string * string * Z) :=
  let risk_score := 0 in
  pH ← getitem params "pH";
  let risk_score :=
    if (pH <? 6)%py || (pH >? 9)%py then risk_score + 3
    else if (pH <? 6.5)%py || (pH >? 8.5)%py then risk_score + 1
    else risk_score in
  temperature ← getitem params "Temperature";
  let risk_score :=
    if (temperature <? 10)%py || (temperature >? 35)%py then risk_score + 3
    else if (temperature <? 15)%py || (temperature >? 30)%py then risk_score + 1
    else risk_score in
  tds ← getitem params "TDS";
  let risk_score :=
    if (tds >? 1000)%py then risk_score + 3
    else if (tds >? 500)%py then risk_score + 1
    else risk_score in
  turbidity ← getitem params "Turbidity";
  let risk_score :=
    if (turbidity >? 10)%py then risk_score + 3
    else if (turbidity >? 5)%py then risk_score + 1
    else risk_score in
  do ← getitem params "DO";
  let risk_score :=
    if (do <? 3)%py then risk_score + 3
    else if (do <? 5)%py then risk_score + 1
    else risk_score in
  if (6 <=? risk_score)%Z then mret ("Unsafe", "High", risk_score)
  else if (3 <=? risk_score)%Z then mret ("Unsafe", "Medium", risk_score)
  else mret ("Safe", "Low", risk_score).

Definition status (normal : bool) : json :=
  JStr (if normal then "Normal" else "Abnormal").

Definition parameter (value : float) (normal : bool) : json :=
  JObj [("value", JFloat (round2 value)); ("status", status normal)].

(** Lines 112-165. *)
Definition predict_from_image (image_path : string) : outcome :=
  match analyze_image_features image_path with
  | None => Failure "Failed to process image" None
  | Some params =>
      match
        ('(quality, risk, score) ← assess_risk_from_params params;
         let confidence := Z.min 95 (70 + score * 3) in
         pH ← getitem params "pH";
         temperature ← getitem params "Temperature";
         tds ← getitem params "TDS";
         do ← getitem params "DO";
         turbidity ← getitem params "Turbidity";
         mret (JObj [
           ("water_quality", JStr quality);
           ("risk_level", JStr risk);
           ("confidence", JObj [("quality", JInt confidence);
                                ("risk", JInt (confidence - 5))]);
           ("sensor_readings",
              JObj (map (fun kv => (fst kv, JFloat (snd kv))) params));
           ("parameters", JObj [
              ("pH", parameter pH ((6.5 <=? pH)%py && (pH <=? 8.5)%py));
              ("Temperature",
                 parameter temperature
                   ((15 <=? temperature)%py && (temperature <=? 30)%py));
              ("TDS", parameter tds (tds <? 500)%py);
              ("DO", parameter do (do >? 5)%py);
              ("Turbidity", parameter turbidity (turbidity <? 5)%py)]);
           ("method", JStr "image_only")]))
      with
      | Ok result => Success result
      | Raise e => Failure "Prediction error: " (Some e)
      end
  end.

End Script.
End ImageOnly.

(** ** numpy reductions on a vector *)

Module Np.

(** [np.argmax]: the first index of the largest entry. *)
Fixpoint argmax_from (best : float) (best_i i : nat) (v : list float) : nat :=
  match v with
  | [] => best_i
  | x :: v' =>
      if (x >? best)%py then argmax_from x i (S i) v'
      else argmax_from best best_i (S i) v'
  end.

Definition argmax (v : list float) : exn nat :=
  match v with
  | [] => Raise (ValueError "attempt to get argmax of an empty sequence")
  | x :: v' => Ok (argmax_from x 0%nat 1%nat v')
  end.

Definition max (v : list float) : exn float :=
  match v with
  | [] => Raise (ValueError "zero-size array to reduction operation maximum")
  | x :: v' => Ok (fold_left (fun m y => if (y >? m)%py then y else m) v' x)
  end.

End Np.

(** ** predict.py *)

Module Fusion.
Section Script.

Variable float_of_str : string -> option float.

(** The image array handed to the network. *)
Variable tensor : Type.

Definition SEQUENCE_LENGTH : nat := 10.

(** What [load_model_and_preprocessors] returns.  [model_predict] gives
    [predictions[0][0]] and [predictions[1][0]]; [feature_config] is the
    content of [feature_columns.json]. *)
Record artifacts := {
  model_predict : tensor -> list (list float) -> exn (list float * list float);
  scaler_transform : list (list cell) -> exn (list (list float));
  feature_config : dict (list string)
}.

Inductive load_result :=
| Loaded (a : artifacts)
| FileNotFound (e : exception)
| LoadFailed (e : exception).

Definition column_mapping : list (string * string) :=
  [("ph", "pH"); ("PH", "pH");
   ("temperature", "Temperature"); ("temp", "Temperature");
   ("Temp", "Temperature");
   ("tds", "TDS");
   ("turbidity", "Turbidity");
   ("do", "DO"); ("DO", "DO"); ("dissolved_oxygen", "DO")].

Definition mem (col : string) (cols : list string) : bool :=
  existsb (String.eqb col) cols.

(** [df.rename(columns={old_col: new_col})] *)
Definition rename (df : DataFrame) (old_col new_col : string) : DataFrame :=
  {| columns := map (fun c => if String.eqb c old_col then new_col else c)
                    (columns df);
     rows := rows df |}.

(** Lines 94-104. *)
Definition standardize_columns (df : DataFrame) : DataFrame :=
  fold_left
    (fun df m => if mem (fst m) (columns df) then rename df (fst m) (snd m)
                 else df)
    column_mapping df.

(** One row of [df[available_features].values]: for each requested label,
    the cells of every column carrying it. *)
Definition select (cols : list string) (features : list string)
           (row : list cell) : list cell :=
  flat_map
    (fun f => map snd (List.filter (fun cv => String.eqb (fst cv) f)
                              (combine cols row)))
    features.

(** The number of columns of [df[features]]: one for every column that
    carries a requested label. *)
Definition selected_width (cols : list string) (features : list string)
  : nat :=
  length (flat_map (fun f => List.filter (fun c => String.eqb c f) cols)
                   features).

(** [np.vstack([a, b])] for an array [a] of [width] columns, which may have
    no row: the rows of [b] must be as wide. *)
Definition vstack (width : nat) (a b : list (list cell))
  : exn (list (list cell)) :=
  if forallb (fun row => (length row =? width)%nat) b then Ok (a ++ b)
  else Raise (ValueError
                "all the input array dimensions must match exactly").

(** Lines 107-122: [sensor_data], before scaling. *)
Definition sensor_rows (df : DataFrame) (feature_columns : dict (list string))
  : exn (list (list cell)) :=
  let df := standardize_columns df in
  features ← getitem feature_columns "features";
  let available_features :=
    List.filter (fun col => mem col (columns df)) features in
  let sensor_data :=
    match available_features with
    | [] => [[CFloat 7%Q; CFloat 25%Q; CFloat 300%Q; CFloat 5%Q; CFloat 2%Q]]
    | _ => firstn SEQUENCE_LENGTH
             (map (select (columns df) available_features) (rows df))
    end in
  if (length sensor_data <? SEQUENCE_LENGTH)%nat then
    let last_row :=
      match sensor_data with
      | [] => repeat (CFloat 0%Q) (length available_features)
      | _ => List.last sensor_data []
      end in
    let padding := repeat last_row (SEQUENCE_LENGTH - length sensor_data) in
    (* [sensor_data.shape[1]]: the rows of an array are equally wide, and
       an array without rows is as wide as the selection *)
    let width :=
      match sensor_data with
      | [] => selected_width (columns df) available_features
      | _ => length last_row
      end in
    vstack width sensor_data padding
  else mret (firstn SEQUENCE_LENGTH sensor_data).

(** [float(value)] on an array entry. *)
Definition py_float (value : cell) : exn cell :=
  match value with
  | CInt z => Ok (CFloat (inject_Z z))
  | CFloat x => Ok (CFloat x)
  | CNaN => Ok CNaN
  | CStr s => match float_of_str s with
              | Some x => Ok (CFloat x)
              | None => Raise (ValueError s)
              end
  end.

(** [float(sensor_data[-1][i]) if len(sensor_data) > i else default] *)
Definition latest_at (sensor_data : list (list cell)) (i : nat)
           (default : float) : exn cell :=
  if (i <? length sensor_data)%nat then
    match nth_error (List.last sensor_data []) i with
    | Some value => py_float value
    | None => Raise IndexError
    end
  else Ok (CFloat default).

(** Lines 129-135. *)
Definition latest_reading (sensor_data : list (list cell))
  : exn (dict cell) :=
  pH ← latest_at sensor_data 0 7%Q;
  temperature ← latest_at sensor_data 1 25%Q;
  tds ← latest_at sensor_data 2 300%Q;
  do ← latest_at sensor_data 3 5%Q;
  turbidity ← latest_at sensor_data 4 2%Q;
  mret [("pH", pH); ("Temperature", temperature); ("TDS", tds);
        ("DO", do); ("Turbidity", turbidity)].

(** Lines 90-137, inside the [try]. *)
Definition preprocess_sensor_data (csv : exn DataFrame)
           (scaler : list (list cell) -> exn (list (list float)))
           (feature_columns : dict (list string))
  : exn (list (list float) * dict cell) :=
  df ← csv;
  sensor_data ← sensor_rows df feature_columns;
  sensor_data_scaled ← scaler sensor_data;
  latest ← latest_reading sensor_data;
  mret (sensor_data_scaled, latest).

Definition to_json (value : cell) : json :=
  match value with
  | CInt z => JInt z
  | CFloat x => JFloat x
  | CNaN => JNaN
  | CStr s => JStr s
  end.

Definition status (normal : bool) : json :=
  JStr (if normal then "Normal" else "Abnormal").

Definition label (labels : list string) (class : nat) : string :=
  nth class labels "Unknown".

(** Lines 154-213, inside the [try]. *)
Definition infer (a : artifacts) (image_input : tensor)
           (sensor_input : list (list float)) (sensor_readings : dict cell)
  : exn json :=
  '(quality_pred, risk_pred) ← model_predict a image_input sensor_input;
  quality_class ← Np.argmax quality_pred;
  risk_class ← Np.argmax risk_pred;
  let quality_label := label ["Unsafe"; "Safe"] quality_class in
  let risk_label := label ["Low"; "Medium"; "High"] risk_class in
  quality_confidence ← Np.max quality_pred;
  risk_confidence ← Np.max risk_pred;
  let pH := get_default sensor_readings "pH" (CInt 0) in
  let temperature := get_default sensor_readings "Temperature" (CInt 0) in
  let tds := get_default sensor_readings "TDS" (CInt 0) in
  let do := get_default sensor_readings "DO" (CInt 0) in
  let turbidity := get_default sensor_readings "Turbidity" (CInt 0) in
  pH_normal ← between 6.5%Q pH 8.5%Q;
  temperature_normal ← between 15%Q temperature 30%Q;
  tds_normal ← below tds 500%Q;
  do_normal ← above do 5%Q;
  turbidity_normal ← below turbidity 5%Q;
  mret (JObj [
    ("water_quality", JStr quality_label);
    ("risk_level", JStr risk_label);
    ("confidence",
       JObj [("quality", JFloat (round2 (quality_confidence * 100)%Q));
             ("risk", JFloat (round2 (risk_confidence * 100)%Q))]);
    ("sensor_readings",
       JObj (map (fun kv => (fst kv, to_json (snd kv))) sensor_readings));
    ("parameters", JObj [
       ("pH", JObj [("value", to_json pH); ("status", status pH_normal)]);
       ("Temperature", JObj [("value", to_json temperature);
                             ("status", status temperature_normal)]);
       ("TDS", JObj [("value", to_json tds); ("status", status tds_normal)]);
       ("DO", JObj [("value", to_json do); ("status", status do_normal)]);
       ("Turbidity", JObj [("value", to_json turbidity);
                           ("status", status turbidity_normal)])])]).

(** Lines 143-217.  [load] is what [load_model_and_preprocessors] does and
    [image] what [preprocess_image] computes; each helper prints its own
    error and exits. *)
Definition make_prediction (load : load_result) (image : exn tensor)
           (csv : exn DataFrame) : outcome :=
  match load with
  | FileNotFound e =>
      Failure "Model files not found. Please train the model first. Missing: "
              (Some e)
  | LoadFailed e => Failure "Model loading error: " (Some e)
  | Loaded a =>
      match image with
      | Raise e => Failure "Image preprocessing error: " (Some e)
      | Ok image_input =>
          match preprocess_sensor_data csv (scaler_transform a)
                                       (feature_config a) with
          | Raise e => Failure "Sensor data preprocessing error: " (Some e)
          | Ok (sensor_input, sensor_readings) =>
              match infer a image_input sensor_input sensor_readings with
              | Ok result => Success result
              | Raise e => Failure "Prediction error: " (Some e)
              end
          end
      end
  end.

End Script.
End Fusion.

(** ** predict_s3.py *)

Module S3.

(** The content of a local file: all of the blob, or a part of it. *)
Inductive file := Complete | Partial.

(** The local disk, and the calls made to the storage client so far, each
    as (bucket, key, destination file name). *)
Record world := {
  files : gmap string file;
  calls : list (string * string * string)
}.

(** A storage client, as its [download_file(bucket, key, filename)]: the
    disk it leaves behind and the exception it raises, if any. *)
Definition s3_client : Type :=
  string -> string -> string -> gmap string file ->
  gmap string file * option exception.

Section Script.

Variable tensor : Type.

(** [S3_BUCKET_MODELS], read from the environment. *)
Variable S3_BUCKET_MODELS : string.

(** [boto3.client('s3', region_name=AWS_REGION)], called inside the [try]
    of [download_model_from_s3]: the client, or the exception its
    construction raises. *)
Variable boto3_client : exn s3_client.

Definition CACHE_DIR : string := "model_cache".
Definition SEQUENCE_LENGTH : nat := 10.

(** [CACHE_DIR / name] *)
Definition cache_path (name : string) : string := CACHE_DIR +:+ "/" +:+ name.

Definition model_files : list (string * string) :=
  [("best_fusion_model.h5", "model.h5");
   ("scaler.pkl", "scaler.pkl");
   ("label_encoder.pkl", "label_encoder.pkl");
   ("feature_columns.json", "feature_columns.json")].

(** [local_path.exists()] *)
Definition exists_ (w : world) (path : string) : bool :=
  match files w !! path with Some _ => true | None => false end.

(** Lines 59-67: the loop over [model_files.items()]. *)
Fixpoint download_each (s3 : s3_client) (items : list (string * string))
         (w : world) : world * option exception :=
  match items with
  | [] => (w, None)
  | (s3_file, local_file) :: items' =>
      let local_path := cache_path local_file in
      let s3_key := "models/water-quality-v1/" +:+ s3_file in
      if exists_ w local_path then download_each s3 items' w
      else
        let '(disk, raised) :=
          s3 S3_BUCKET_MODELS s3_key local_path (files w) in
        let call := (S3_BUCKET_MODELS, s3_key, local_path) in
        let w' := {| files := disk; calls := calls w ++ [call] |} in
        match raised with
        | Some e => (w', Some e)
        | None => download_each s3 items' w'
        end
  end.

(** Lines 47-76. *)
Definition download_model_from_s3 (w : world) : world * exn (dict string) :=
  match boto3_client with
  | Raise e => (w, Raise (Exception "Failed to download model from S3: " e))
  | Ok s3 =>
      match download_each s3 model_files w with
      | (w', None) =>
          (w', Ok [("model", cache_path "model.h5");
                   ("scaler", cache_path "scaler.pkl");
                   ("label_encoder", cache_path "label_encoder.pkl");
                   ("features", cache_path "feature_columns.json")])
      | (w', Some e) =>
          (w', Raise (Exception "Failed to download model from S3: " e))
      end
  end.

(** What [load_model_from_s3] returns. *)
Record artifacts := {
  model_predict : tensor -> list (list float) -> exn (list float * list float);
  scaler_transform : list (list cell) -> exn (list (list float));
  inverse_transform : nat -> exn string;
  feature_config : dict (list string)
}.

(** Keras, joblib and [json.load] reading the cached files at [paths]. *)
Variable load_files : gmap string file -> dict string -> exn artifacts.

(** Lines 78-101. *)
Definition load_model_from_s3 (w : world) : world * exn artifacts :=
  match download_model_from_s3 w with
  | (w', Raise e) => (w', Raise (Exception "Model loading error: " e))
  | (w', Ok paths) =>
      match load_files (files w') paths with
      | Ok a => (w', Ok a)
      | Raise e => (w', Raise (Exception "Model loading error: " e))
      end
  end.

(** [df[col].iloc[-1]] *)
Definition column_last (df : DataFrame) (col : string) : exn cell :=
  match rows df with
  | [] => Raise IndexError
  | _ =>
      match get (combine (columns df) (List.last (rows df) [])) col with
      | Some value => Ok value
      | None => Raise (KeyError col)
      end
  end.

(** Lines 116-122: one turn of the loop over [df.columns]. *)
Definition standardize (df : DataFrame) (data : dict cell) (col : string)
  : exn (dict cell) :=
  let col_lower := strip (lower col) in
  if contains "ph" col_lower then
    v ← column_last df col; mret (setitem data "pH" v)
  else if contains "temp" col_lower then
    v ← column_last df col; mret (setitem data "Temperature" v)
  else if contains "tds" col_lower then
    v ← column_last df col; mret (setitem data "TDS" v)
  else if contains "turbidity" col_lower then
    v ← column_last df col; mret (setitem data "Turbidity" v)
  else if contains "do" col_lower || contains "oxygen" col_lower then
    v ← column_last df col; mret (setitem data "DO" v)
  else mret data.

Fixpoint standardize_all (df : DataFrame) (data : dict cell)
         (cols : list string) : exn (dict cell) :=
  match cols with
  | [] => mret data
  | col :: cols' =>
      data' ← standardize df data col; standardize_all df data' cols'
  end.

(** Lines 110-135. *)
Definition preprocess_sensor_data (csv : exn DataFrame)
           (scaler : list (list cell) -> exn (list (list float)))
           (feature_config : dict (list string))
  : exn (list (list float) * dict cell) :=
  df ← csv;
  data ← standardize_all df [] (columns df);
  let features :=
    map (fun col => get_default data col (CInt 0))
        (get_default feature_config "columns"
           ["pH"; "Temperature"; "TDS"; "Turbidity"; "DO"]) in
  let sensor_array := [features] in
  sensor_scaled ← scaler sensor_array;
  let sensor_sequence :=
    flat_map (fun row => repeat row SEQUENCE_LENGTH) sensor_scaled in
  mret (sensor_sequence, data).

(** A reading as [json.dumps] takes it: a numpy integer is not
    serialisable. *)
Definition dumps_reading (value : cell) : exn json :=
  match value with
  | CInt _ => Raise TypeError
  | CFloat x => Ok (JFloat x)
  | CNaN => Ok JNaN
  | CStr s => Ok (JStr s)
  end.

Fixpoint dumps_readings (data : dict cell) : exn (list (string * json)) :=
  match data with
  | [] => mret []
  | (k, v) :: data' =>
      j ← dumps_reading v; js ← dumps_readings data'; mret ((k, j) :: js)
  end.

(** [round(sensor_readings.get(key, 0), 2)], then serialised. *)
Definition rounded (sensor_readings : dict cell) (key : string) : exn json :=
  match get sensor_readings key with
  | None => Ok (JInt 0)
  | Some (CFloat x) => Ok (JFloat (round2 x))
  | Some CNaN => Ok JNaN
  | Some (CInt _) => Raise TypeError
  | Some (CStr _) => Raise TypeError
  end.

Definition status (normal : bool) : json :=
  JStr (if normal then "Normal" else "Abnormal").

(** [datetime.now()] in its two renderings. *)
Variable now_id : string.
Variable now_timestamp : string.

(** [upload_prediction_to_s3]: the key written, or [None]. *)
Variable upload_prediction_to_s3 : json -> option string.

(** Lines 181-225, inside the [try]. *)
Definition infer (a : artifacts) (image_input : tensor)
           (sensor_input : list (list float)) (sensor_readings : dict cell)
  : exn json :=
  '(quality_pred, risk_pred) ← model_predict a image_input sensor_input;
  quality_index ← Np.argmax quality_pred;
  quality_class ← inverse_transform a quality_index;
  risk_index ← Np.argmax risk_pred;
  risk_class ← inverse_transform a risk_index;
  quality_confidence ← Np.max quality_pred;
  risk_confidence ← Np.max risk_pred;
  pH_value ← rounded sensor_readings "pH";
  pH_normal ← between 6.5%Q (get_default sensor_readings "pH" (CInt 7)) 8.5%Q;
  temperature_value ← rounded sensor_readings "Temperature";
  temperature_normal ←
    between 15%Q (get_default sensor_readings "Temperature" (CInt 25)) 30%Q;
  tds_value ← rounded sensor_readings "TDS";
  tds_normal ← below (get_default sensor_readings "TDS" (CInt 0)) 500%Q;
  do_value ← rounded sensor_readings "DO";
  do_normal ← above (get_default sensor_readings "DO" (CInt 0)) 5%Q;
  turbidity_value ← rounded sensor_readings "Turbidity";
  turbidity_normal ←
    below (get_default sensor_readings "Turbidity" (CInt 0)) 5%Q;
  readings ← dumps_readings sensor_readings;
  let result :=
    [("id", JStr now_id);
     ("timestamp", JStr now_timestamp);
     ("water_quality", JStr quality_class);
     ("risk_level", JStr risk_class);
     ("confidence", JObj [("quality", JFloat (quality_confidence * 100)%Q);
                          ("risk", JFloat (risk_confidence * 100)%Q)]);
     ("sensor_readings", JObj readings);
     ("parameters", JObj [
        ("pH", JObj [("value", pH_value); ("status", status pH_normal)]);
        ("Temperature", JObj [("value", temperature_value);
                              ("status", status temperature_normal)]);
        ("TDS", JObj [("value", tds_value); ("status", status tds_normal)]);
        ("DO", JObj [("value", do_value); ("status", status do_normal)]);
        ("Turbidity", JObj [("value", turbidity_value);
                            ("status", status turbidity_normal)])]);
     ("method", JStr "hybrid_s3_model")] in
  match upload_prediction_to_s3 (JObj result) with
  | Some s3_key => mret (JObj (setitem result "s3_key" (JStr s3_key)))
  | None => mret (JObj result)
  end.

(** Lines 175-229.  [image] is what [preprocess_image] computes. *)
Definition make_prediction (w : world) (image : exn tensor)
           (csv : exn DataFrame) : world * outcome :=
  match load_model_from_s3 w with
  | (w', Raise e) => (w', Failure "Prediction error: " (Some e))
  | (w', Ok a) =>
      match
        (image_input ← image;
         '(sensor_input, sensor_readings) ←
           preprocess_sensor_data csv (scaler_transform a) (feature_config a);
         infer a image_input sensor_input sensor_readings)
      with
      | Ok result => (w', Success result)
      | Raise e => (w', Failure "Prediction error: " (Some e))
      end
  end.

End Script.
End S3.

(** ** The estimates of predict_image_only.py in IEEE-754 binary64 *)

Module Binary64.

Definition prec : Z := 53.
Definition emax : Z := 1024.

(** The double nearest to [m * 2^e]. *)
Definition double (m e : Z) : spec_float :=
  binary_normalize prec emax m e false.

Definition add := SFadd prec emax.
Definition sub := SFsub prec emax.
Definition mul := SFmul prec emax.
Definition div := SFdiv prec emax.

Definition py_max (a b : spec_float) : spec_float := if SFltb a b then b else a.
Definition py_min (a b : spec_float) : spec_float := if SFltb b a then b else a.

(** Lines 46 and 55-61 of predict_image_only.py, operation by operation. *)
Definition estimates (green_ratio laplacian_var brightness : spec_float)
  : list (string * spec_float) :=
  let turbidity_estimate :=
    py_max (double 0 0)
      (py_min (double 10 0)
         (div (sub (double 100 0) laplacian_var) (double 10 0))) in
  [("pH", add (double 7 0) (mul green_ratio (double 2 0)));
   ("Temperature", add (double 20 0) (div brightness (double 10 0)));
   ("TDS", add (double 300 0) (mul turbidity_estimate (double 30 0)));
   ("Turbidity", turbidity_estimate);
   ("DO",
    py_max (double 3 0) (sub (double 8 0) (mul green_ratio (double 5 0))))].

(** The rational a finite double stands for. *)
Definition to_Q (x : spec_float) : option Q :=
  match x with
  | S754_zero _ => Some 0%Q
  | S754_finite s m e =>
      let v := match e with
               | Zneg p => Qmake (Zpos m) (2 ^ p)
               | _ => inject_Z (Zpos m * 2 ^ e)
               end in
      Some (if s then Qopp v else v)
  | _ => None
  end.

End Binary64.

(** * Properties *)

(** ** Vocabulary of the specification *)

(** A canonical reading, and the dict the rule-based paths score. *)
Record SensorReading := {
  pH : float;
  Temperature : float;
  TDS : float;
  Turbidity : float;
  DO : float
}.

Definition reading_dict (r : SensorReading) : dict float :=
  [("pH", pH r); ("Temperature", Temperature r); ("TDS", TDS r);
   ("Turbidity", Turbidity r); ("DO", DO r)].

(** The score-to-label rule, in the words of the specification. *)
Definition score_rule (score : Z) (quality risk : string) : Prop :=
  (6 <= score -> quality = "Unsafe" /\ risk = "High") /\
  (3 <= score < 6 -> quality = "Unsafe" /\ risk = "Medium") /\
  (score < 3 -> quality = "Safe" /\ risk = "Low").

(** The normal bands of section 3 of the specification. *)
Definition in_normal_bands (r : SensorReading) : Prop :=
  (6.5 <= pH r <= 8.5)%Q /\ (15 <= Temperature r <= 30)%Q /\
  (TDS r < 500)%Q /\ (Turbidity r < 5)%Q /\ (5 < DO r)%Q.

(** The score of each script on a canonical reading, parameter by
    parameter. *)
Definition pH_points (x : float) : Z :=
  if (x <? 6)%py || (x >? 9)%py then 3
  else if (x <? 6.5)%py || (x >? 8.5)%py then 1 else 0.

Definition temperature_points (x : float) : Z :=
  if (x <? 10)%py || (x >? 35)%py then 3
  else if (x <? 15)%py || (x >? 30)%py then 1 else 0.

Definition tds_points (x : float) : Z :=
  if (x >? 1000)%py then 3 else if (x >? 500)%py then 1 else 0.

Definition turbidity_points (x : float) : Z :=
  if (x >? 10)%py then 3 else if (x >? 5)%py then 1 else 0.

Definition do_points (x : float) : Z :=
  if (x <? 3)%py then 3 else if (x <? 5)%py then 1 else 0.

Definition points (r : SensorReading) : Z :=
  pH_points (pH r) + temperature_points (Temperature r) + tds_points (TDS r)
  + turbidity_points (Turbidity r) + do_points (DO r).

(** The five canonical parameters. *)
Inductive parameter := P_pH | P_Temperature | P_TDS | P_Turbidity | P_DO.

Definition name_of (p : parameter) : string :=
  match p with
  | P_pH => "pH"
  | P_Temperature => "Temperature"
  | P_TDS => "TDS"
  | P_Turbidity => "Turbidity"
  | P_DO => "DO"
  end.

(** What a parameter adds to the score. *)
Definition points_of (p : parameter) (r : SensorReading) : Z :=
  match p with
  | P_pH => pH_points (pH r)
  | P_Temperature => temperature_points (Temperature r)
  | P_TDS => tds_points (TDS r)
  | P_Turbidity => turbidity_points (Turbidity r)
  | P_DO => do_points (DO r)
  end.

(** The reading sits exactly on a threshold where the status and the score
    use different strictness. *)
Definition on_boundary (p : parameter) (r : SensorReading) : Prop :=
  match p with
  | P_TDS => (TDS r == 500)%Q
  | P_Turbidity => (Turbidity r == 5)%Q
  | P_DO => (DO r == 5)%Q
  | _ => False
  end.

(** A one-row table whose columns are the canonical names. *)
Definition reading_csv (r : SensorReading) : DataFrame :=
  {| columns := ["pH"; "Temperature"; "TDS"; "Turbidity"; "DO"];
     rows := [[CFloat (pH r); CFloat (Temperature r); CFloat (TDS r);
               CFloat (Turbidity r); CFloat (DO r)]] |}.

(** [result["parameters"][name]["status"]] *)
Definition parameter_status (result : json) (name : string) : option json :=
  parameters ← field result "parameters";
  entry ← field parameters name;
  field entry "status".

(** C4 as the specification words it: in the result of the sensor-only
    script, a parameter is Abnormal exactly when it adds to the score. *)
Definition abnormal_iff_scored (float_of_str : string -> option float)
           (r : SensorReading) : Prop :=
  exists result,
    SensorOnly.predict_from_sensor float_of_str (Ok (reading_csv r))
      = Success result /\
    forall p, parameter_status result (name_of p) = Some (JStr "Abnormal")
              <-> 0 < points_of p r.

Definition no_str : string -> option float := fun _ => None.

(** Scenario A of the specification. *)
Definition reading_A : SensorReading :=
  {| pH := 7.1; Temperature := 24; TDS := 280; Turbidity := 1.5; DO := 6.2 |}.

(** All parameters nominal, TDS exactly on its threshold. *)
Definition reading_tds_500 : SensorReading :=
  {| pH := 7; Temperature := 25; TDS := 500; Turbidity := 2; DO := 6 |}.

(** The five scripts, and the documents each can print. *)
Inductive script :=
| Sensor_only | Image_only | Hybrid_rules | Fusion_model | S3_model.

Inductive prediction : script -> outcome -> Prop :=
| run_sensor_only f csv :
    prediction Sensor_only (SensorOnly.predict_from_sensor f csv)
| run_image_only imread image_path :
    prediction Image_only (ImageOnly.predict_from_image imread image_path)
| run_hybrid f imread image_path csv :
    prediction Hybrid_rules (Hybrid.predict f imread image_path csv)
| run_fusion f (tensor : Type) load (image : exn tensor) csv :
    prediction Fusion_model (Fusion.make_prediction f tensor load image csv)
| run_s3 (tensor : Type) bucket client load now_id now_timestamp upload w
         (image : exn tensor) csv :
    prediction S3_model
      (snd (S3.make_prediction tensor bucket client load now_id
              now_timestamp upload w image csv)).

(** The "method" entry each script writes; [None]: it writes none. *)
Definition method_of (s : script) : option json :=
  match s with
  | Sensor_only => Some (JStr "sensor_only")
  | Image_only => Some (JStr "image_only")
  | Hybrid_rules => Some (JStr "hybrid_sensor_image")
  | Fusion_model => None
  | S3_model => Some (JStr "hybrid_s3_model")
  end.

(** C2 as the specification words it. *)
Definition method_in_specified_set (result : json) : Prop :=
  exists m, field result "method" = Some (JStr m) /\
            In m ["sensor_only"; "image_only"; "hybrid"; "fusion_model"].

(** A half-green, blurred, dim picture: every measurement is exact in
    binary floating point, and so is every estimate computed from it. *)
Definition green_blurred : image :=
  {| green_ratio := 0.5; laplacian_var := 40; brightness := 50 |}.

Definition read_green_blurred : string -> option image :=
  fun _ => Some green_blurred.

(** Four fifths of the picture green. *)
Definition green_dense : image :=
  {| green_ratio := 0.8; laplacian_var := 40; brightness := 50 |}.

Definition read_green_dense : string -> option image :=
  fun _ => Some green_dense.

(** Two tables that share their last row. *)
Definition table_short : DataFrame :=
  {| columns := ["pH"; "temp"; "DO"];
     rows := [[CFloat 9.5; CInt 33; CFloat 2]] |}.

Definition table_long : DataFrame :=
  {| columns := ["pH"; "temp"; "DO"];
     rows := [[CFloat 7.1; CInt 24; CFloat 6.2];
              [CNaN; CInt 40; CStr "n/a"];
              [CFloat 9.5; CInt 33; CFloat 2]] |}.

(** The feature list that training records in [feature_columns.json]. *)
Definition recorded_config : dict (list string) :=
  [("features", ["pH"; "Temperature"; "TDS"; "DO"; "Turbidity"])].

(** A one-row table with no Turbidity column. *)
Definition table_without_turbidity : DataFrame :=
  {| columns := ["pH"; "Temperature"; "TDS"; "DO"];
     rows := [[CFloat 7.1; CFloat 24; CFloat 280; CFloat 6.2]] |}.

(** A header without rows in which two labels stand for pH. *)
Definition table_two_pH_labels : DataFrame :=
  {| columns := ["ph"; "pH"]; rows := [] |}.

(** A one-row table with none of the recorded columns. *)
Definition table_without_features : DataFrame :=
  {| columns := ["station"]; rows := [[CStr "north"]] |}.

(** A cell is a number or missing. *)
Definition numeric (value : cell) : Prop :=
  match value with CStr _ => False | _ => True end.

(** The documented defaults, in the recorded feature order. *)
Definition all_defaults : list cell :=
  [CFloat 7; CFloat 25; CFloat 300; CFloat 6; CFloat 2].

(** C6 as the specification words it: the most recent at-most-10 readings,
    padded to 10 with the last of them, or with the all-defaults reading
    when there is none. *)
Definition sequence_by_spec (readings : list (list cell)) : list (list cell) :=
  let recent := skipn (length readings - 10) readings in
  recent ++ repeat (List.last recent all_defaults) (10 - length recent).

Definition recorded_columns : list string :=
  ["pH"; "Temperature"; "TDS"; "DO"; "Turbidity"].

Definition table_empty : DataFrame :=
  {| columns := recorded_columns; rows := [] |}.

Definition numbered (n : Z) : list cell :=
  [CInt n; CInt 25; CInt 300; CInt 6; CInt 2].

Definition table_three : DataFrame :=
  {| columns := recorded_columns;
     rows := [numbered 1; numbered 2; numbered 3] |}.

Definition table_eleven : DataFrame :=
  {| columns := recorded_columns;
     rows := map numbered [1; 2; 3; 4; 5; 6; 7; 8; 9; 10; 11] |}.

(** The value a row holds under a column name. *)
Definition by_name (cols : list string) (row : list cell) (name : string)
  : cell :=
  get_default (combine cols row) name CNaN.

(** C7 as the specification words it, for predict.py: a recorded order
    other than the one the script reads its positions in is rejected. *)
Definition order_mismatch_rejected : Prop :=
  forall f csv scaler fc features,
    get fc "features" = Some features ->
    features <> recorded_columns ->
    exists e, Fusion.preprocess_sensor_data f csv scaler fc = Raise e.

Definition reversed_config : dict (list string) :=
  [("features", ["Turbidity"; "DO"; "TDS"; "Temperature"; "pH"])].

(** A scaler that leaves the numbers as they are. *)
Definition plain_scaler (sensor_data : list (list cell))
  : exn (list (list float)) :=
  Ok (map (map (fun value => match value with
                             | CInt z => inject_Z z
                             | CFloat x => x
                             | _ => 0%Q
                             end)) sensor_data).

(** Every file on the disk holds the whole of its blob. *)
Definition all_complete (disk : gmap string S3.file) : Prop :=
  forall path content, disk !! path = Some content -> content = S3.Complete.

(** A storage client whose [download_file] never leaves a part of a blob
    behind: boto3's writes the blob to a temporary file and renames it to
    the destination once the transfer is complete. *)
Definition atomic (download : S3.s3_client) : Prop :=
  forall bucket key dest disk,
    all_complete disk -> all_complete (fst (download bucket key dest disk)).


(** A transfer that succeeds. *)
Definition working_download : S3.s3_client :=
  fun bucket key dest disk => (<[dest := S3.Complete]> disk, None).

Definition cold_cache : S3.world := {| S3.files := ∅; S3.calls := [] |}.

Definition cache_paths : dict string :=
  [("model", "model_cache/model.h5");
   ("scaler", "model_cache/scaler.pkl");
   ("label_encoder", "model_cache/label_encoder.pkl");
   ("features", "model_cache/feature_columns.json")].

(** ** Vocabulary of the further properties *)

Definition canonical_names : list string :=
  ["pH"; "Temperature"; "TDS"; "Turbidity"; "DO"].

(** How severe a risk level is. *)
Definition severity (risk : string) : Z :=
  if String.eqb risk "High" then 2
  else if String.eqb risk "Medium" then 1
  else 0.

(** The first key of [keys] that [data] lacks. *)
Definition first_missing {V} (data : dict V) (keys : list string)
  : option string :=
  find (fun k => negb (has_key data k)) keys.

(** The label pairs a rule-based script can print. *)
Definition label_pairs : list (string * string) :=
  [("Safe", "Low"); ("Unsafe", "Medium"); ("Unsafe", "High")].

(** [result["confidence"][which]] *)
Definition confidence_of (result : json) (which : string) : option json :=
  confidence ← field result "confidence"; field confidence which.

Definition rule_based (s : script) : bool :=
  match s with
  | Sensor_only | Image_only | Hybrid_rules => true
  | _ => false
  end.

(** A reading with every parameter far outside its band. *)
Definition reading_B : SensorReading :=
  {| pH := 9.5; Temperature := 33; TDS := 1200; Turbidity := 12; DO := 2 |}.

(** No picture can be read. *)
Definition no_image : string -> option image := fun _ => None.

(** The points of a parameter that may be absent from the dict. *)
Definition points_if_present (f : float -> Z) (o : option float) : Z :=
  match o with Some x => f x | None => 0 end.

(** The documented default of a parameter. *)
Definition default_of (p : parameter) : float :=
  match p with
  | P_pH => 7
  | P_Temperature => 25
  | P_TDS => 300
  | P_Turbidity => 2
  | P_DO => 6
  end.

(** The parameter a column label is taken for by the rule-based scripts. *)
Definition recognised (key : string) : option parameter :=
  let key_lower := strip (lower key) in
  if contains "ph" key_lower then Some P_pH
  else if contains "temp" key_lower then Some P_Temperature
  else if contains "tds" key_lower then Some P_TDS
  else if contains "turbidity" key_lower then Some P_Turbidity
  else if contains "do" key_lower || contains "oxygen" key_lower
       then Some P_DO
  else None.

Definition taken_for (p : parameter) (item : string * cell) : bool :=
  match recognised (fst item) with
  | Some q => String.eqb (name_of q) (name_of p)
  | None => false
  end.

(** A cell of text that is no number, under a recognised label. *)
Definition unparsable (float_of_str : string -> option float)
           (item : string * cell) : bool :=
  match recognised (fst item), snd item with
  | Some _, CStr s =>
      match float_of_str s with Some _ => false | None => true end
  | _, _ => false
  end.

Definition table_text : DataFrame :=
  {| columns := ["Site"; "pH"; "Temp"];
     rows := [[CStr "pond"; CStr "n/a"; CStr "warm"]] |}.

(** The label predict.py gives a column. *)
Definition renamed (col : string) : string :=
  get_default Fusion.column_mapping col col.

(** [i] is the first index of a largest entry of [v], and [m] that entry. *)
Definition first_largest (v : list float) (i : nat) (m : float) : Prop :=
  nth_error v i = Some m /\
  (forall y, In y v -> (y <= m)%Q) /\
  (forall j y, (j < i)%nat -> nth_error v j = Some y -> (y < m)%Q).

(** A network that cannot tell Unsafe from Safe and leans to Medium. *)
Definition undecided_model : Fusion.artifacts unit :=
  {| Fusion.model_predict := fun _ _ => Ok ([0.5; 0.5], [0.2; 0.7; 0.1])%Q;
     Fusion.scaler_transform := plain_scaler;
     Fusion.feature_config := recorded_config |}.

(** A reading as predict.py reports it. *)
Definition reading_dict_cells (r : SensorReading) : dict cell :=
  [("pH", CFloat (pH r)); ("Temperature", CFloat (Temperature r));
   ("TDS", CFloat (TDS r)); ("DO", CFloat (DO r));
   ("Turbidity", CFloat (Turbidity r))].

(** A storage client whose successful transfer leaves its destination on
    the disk and removes no file. *)
Definition stores
           (download : string -> string -> string -> gmap string S3.file ->
                       gmap string S3.file * option exception) : Prop :=
  forall bucket key dest disk,
    snd (download bucket key dest disk) = None ->
    is_Some (fst (download bucket key dest disk) !! dest) /\
    forall path, is_Some (disk !! path) ->
                 is_Some (fst (download bucket key dest disk) !! path).

(** The cache after one run with a working client. *)
Definition warm_cache : S3.world :=
  fst (S3.download_model_from_s3 "water-quality-models" (Ok working_download)
         cold_cache).


(** [result["parameters"][name]["value"]] *)
Definition parameter_value (result : json) (name : string) : option json :=
  parameters ← field result "parameters";
  entry ← field parameters name;
  field entry "value".

(** A network, with its scaler and label encoder, as predict_s3.py loads
    them; nothing is uploaded. *)
Definition s3_model : S3.artifacts unit :=
  {| S3.model_predict := fun _ _ => Ok ([0.1; 0.9], [0.7; 0.2; 0.1])%Q;
     S3.scaler_transform := plain_scaler;
     S3.inverse_transform := fun i => Ok (nth i ["Low"; "Safe"] "Unsafe");
     S3.feature_config := recorded_config |}.

Definition s3_load (disk : gmap string S3.file) (paths : dict string)
  : exn (S3.artifacts unit) := Ok s3_model.

Definition no_upload : json -> option string := fun _ => None.

(** * Proofs *)

(** ** Comparisons *)

Lemma Qltb_spec (x y : Q) : BoolSpec (x < y)%Q (y <= x)%Q (x <? y)%py.
Proof.
  unfold Qltb. destruct (x ?= y)%Q eqn:E; constructor.
  - apply Qeq_alt in E. rewrite E. apply Qle_refl.
  - now apply Qlt_alt.
  - apply Qgt_alt in E. now apply Qlt_le_weak.
Qed.

Lemma Qgtb_spec (x y : Q) : BoolSpec (y < x)%Q (x <= y)%Q (x >? y)%py.
Proof. unfold Qgtb. apply Qltb_spec. Qed.

Lemma Qleb_spec (x y : Q) : BoolSpec (x <= y)%Q (y < x)%Q (x <=? y)%py.
Proof.
  unfold Qleb. destruct (Qle_bool x y) eqn:E; constructor.
  - now apply Qle_bool_iff.
  - apply Qnot_le_lt. intros H. apply Qle_bool_iff in H. congruence.
Qed.

(** Case analysis on every float comparison in the goal, then linear
    arithmetic on what the branches know. *)
Ltac cmp_cases :=
  repeat match goal with
    | |- context [(?x <? ?y)%py] => destruct (Qltb_spec x y)
    | |- context [(?x >? ?y)%py] => destruct (Qgtb_spec x y)
    | |- context [(?x <=? ?y)%py] => destruct (Qleb_spec x y)
    end.

(** ** C1 *)

Lemma score_rule_labels (score : Z) :
  score_rule score
    (if (6 <=? score)%Z then "Unsafe" else if (3 <=? score)%Z then "Unsafe"
     else "Safe")
    (if (6 <=? score)%Z then "High" else if (3 <=? score)%Z then "Medium"
     else "Low").
Proof.
  unfold score_rule.
  destruct (Z.leb_spec 6 score), (Z.leb_spec 3 score); repeat split; lia.
Qed.

Lemma score_rule_deterministic (score : Z) (q q' k k' : string) :
  score_rule score q k -> score_rule score q' k' -> q = q' /\ k = k'.
Proof.
  intros (H6 & H3 & H0) (H6' & H3' & H0').
  destruct (Z.le_gt_cases 6 score) as [H|H].
  - destruct (H6 H), (H6' H). split; congruence.
  - destruct (Z.le_gt_cases 3 score) as [H'|H'].
    + destruct (H3 (conj H' H)), (H3' (conj H' H)). split; congruence.
    + destruct (H0 H'), (H0' H'). split; congruence.
Qed.

Lemma sensor_only_total (r : SensorReading) :
  exists score, SensorOnly.risk_score (reading_dict r) = Ok score.
Proof. cbn. eexists. reflexivity. Qed.

Lemma hybrid_total (r : SensorReading) (visual_risk : Z) :
  exists score, Hybrid.risk_score (reading_dict r) visual_risk = Ok score.
Proof. cbn. eexists. reflexivity. Qed.

(** The label part of each script is a function of the score alone. *)
Lemma sensor_only_labels (data : dict float) (score : Z) :
  SensorOnly.risk_score data = Ok score ->
  exists quality risk confidence,
    SensorOnly.assess_risk_from_sensor data = Ok (quality, risk, confidence) /\
    score_rule score quality risk.
Proof.
  intros Hs. unfold SensorOnly.assess_risk_from_sensor. rewrite Hs. cbn.
  pose proof (score_rule_labels score) as R.
  destruct (6 <=? score); [|destruct (3 <=? score)]; do 3 eexists; eauto.
Qed.

Lemma hybrid_labels (data : dict float) (visual_risk score : Z) :
  Hybrid.risk_score data visual_risk = Ok score ->
  exists quality risk confidence,
    Hybrid.assess_risk data visual_risk = Ok (quality, risk, confidence) /\
    score_rule score quality risk.
Proof.
  intros Hs. unfold Hybrid.assess_risk. rewrite Hs. cbn.
  pose proof (score_rule_labels score) as R.
  destruct (6 <=? score); [|destruct (3 <=? score)]; do 3 eexists; eauto.
Qed.

Lemma image_only_labels (r : SensorReading) :
  exists score quality risk,
    ImageOnly.assess_risk_from_params (reading_dict r)
      = Ok (quality, risk, score) /\
    Hybrid.risk_score (reading_dict r) 0 = Ok score /\
    score_rule score quality risk.
Proof.
  unfold ImageOnly.assess_risk_from_params, Hybrid.risk_score.
  cbn -[Z.add Z.leb Qltb Qgtb]. rewrite Z.add_0_r.
  match goal with |- context [(6 <=? ?e)%Z] => generalize e end.
  intros score. pose proof (score_rule_labels score) as R.
  destruct (6 <=? score); [|destruct (3 <=? score)]; do 3 eexists; eauto.
Qed.

(** C1.  For every canonical reading and visual increment, each rule-based
    script (sensor-only, hybrid, image-only) returns labels that follow the
    one rule on its accumulated score: at least 6 gives (Unsafe, High), from
    3 to 5 gives (Unsafe, Medium), below 3 gives (Safe, Low). *)
Theorem score_to_label_rule_uniform (r : SensorReading) (visual_risk : Z) :
  (exists score quality risk confidence,
     SensorOnly.risk_score (reading_dict r) = Ok score /\
     SensorOnly.assess_risk_from_sensor (reading_dict r)
       = Ok (quality, risk, confidence) /\
     score_rule score quality risk) /\
  (exists score quality risk confidence,
     Hybrid.risk_score (reading_dict r) visual_risk = Ok score /\
     Hybrid.assess_risk (reading_dict r) visual_risk
       = Ok (quality, risk, confidence) /\
     score_rule score quality risk) /\
  (exists score quality risk,
     ImageOnly.assess_risk_from_params (reading_dict r)
       = Ok (quality, risk, score) /\
     score_rule score quality risk).
Proof.
  split; [|split].
  - destruct (sensor_only_total r) as [score Hs].
    destruct (sensor_only_labels _ _ Hs) as (q & k & c & Ha & R).
    exists score, q, k, c. auto.
  - destruct (hybrid_total r visual_risk) as [score Hs].
    destruct (hybrid_labels _ _ _ Hs) as (q & k & c & Ha & R).
    exists score, q, k, c. auto.
  - destruct (image_only_labels r) as (score & q & k & Ha & _ & R).
    exists score, q, k. auto.
Qed.

(** ** C3 *)

Ltac if_cases :=
  repeat match goal with
    | |- context [if ?b then _ else _] => destruct b
    end.

Lemma sensor_only_score (r : SensorReading) :
  SensorOnly.risk_score (reading_dict r) = Ok (points r).
Proof.
  unfold SensorOnly.risk_score, points, pH_points, temperature_points,
    tds_points, turbidity_points, do_points.
  cbn -[Z.add Qltb Qgtb orb]. if_cases; reflexivity.
Qed.

Lemma hybrid_score (r : SensorReading) (visual_risk : Z) :
  Hybrid.risk_score (reading_dict r) visual_risk = Ok (points r + visual_risk).
Proof.
  unfold Hybrid.risk_score, points, pH_points, temperature_points,
    tds_points, turbidity_points, do_points.
  cbn -[Z.add Qltb Qgtb orb]. if_cases; reflexivity.
Qed.

Lemma normal_bands_no_points (r : SensorReading) :
  in_normal_bands r -> points r = 0.
Proof.
  intros (Hp & Ht & Hs & Hu & Hd). unfold points.
  assert (pH_points (pH r) = 0) as ->
    by (unfold pH_points; cmp_cases; cbn; try reflexivity; exfalso; lra).
  assert (temperature_points (Temperature r) = 0) as ->
    by (unfold temperature_points; cmp_cases; cbn; try reflexivity;
        exfalso; lra).
  assert (tds_points (TDS r) = 0) as ->
    by (unfold tds_points; cmp_cases; cbn; try reflexivity; exfalso; lra).
  assert (turbidity_points (Turbidity r) = 0) as ->
    by (unfold turbidity_points; cmp_cases; cbn; try reflexivity;
        exfalso; lra).
  assert (do_points (DO r) = 0) as ->
    by (unfold do_points; cmp_cases; cbn; try reflexivity; exfalso; lra).
  reflexivity.
Qed.

(** C3.  A canonical reading inside every normal band, without visual
    increment, scores 0 and is labelled Safe with Low risk, in the
    sensor-only and in the hybrid script, and the documents they print for
    it say so. *)
Theorem normal_reading_safe_low
        (f : string -> option float) (imread : string -> option image)
        (r : SensorReading) :
  in_normal_bands r ->
  SensorOnly.risk_score (reading_dict r) = Ok 0 /\
  SensorOnly.assess_risk_from_sensor (reading_dict r)
    = Ok ("Safe", "Low", 95) /\
  Hybrid.risk_score (reading_dict r) 0 = Ok 0 /\
  Hybrid.assess_risk (reading_dict r) 0 = Ok ("Safe", "Low", 97) /\
  (exists result,
     SensorOnly.predict_from_sensor f (Ok (reading_csv r)) = Success result /\
     field result "water_quality" = Some (JStr "Safe") /\
     field result "risk_level" = Some (JStr "Low")) /\
  (exists result,
     Hybrid.predict f imread "" (Ok (reading_csv r)) = Success result /\
     field result "water_quality" = Some (JStr "Safe") /\
     field result "risk_level" = Some (JStr "Low")).
Proof.
  intros H. apply normal_bands_no_points in H.
  assert (SensorOnly.assess_risk_from_sensor (reading_dict r)
          = Ok ("Safe", "Low", 95)) as Hs
    by (unfold SensorOnly.assess_risk_from_sensor;
        now rewrite sensor_only_score, H).
  assert (Hybrid.assess_risk (reading_dict r) 0 = Ok ("Safe", "Low", 97))
    as Hh
    by (unfold Hybrid.assess_risk; now rewrite hybrid_score, H).
  rewrite sensor_only_score, hybrid_score, H.
  repeat (split; [first [reflexivity | assumption]|]).
  split.
  - change (SensorOnly.predict_from_sensor f (Ok (reading_csv r)))
      with (match SensorOnly.build_result (reading_dict r) with
            | Ok result => Success result
            | Raise e => Failure "Prediction error: " (Some e)
            end).
    unfold SensorOnly.build_result. rewrite Hs. cbn.
    eexists. repeat split.
  - change (Hybrid.predict f imread "" (Ok (reading_csv r)))
      with (match Hybrid.build_result (reading_dict r) 0 with
            | Ok result => Success result
            | Raise e => Failure "Prediction error: " (Some e)
            end).
    unfold Hybrid.build_result. rewrite Hh. cbn.
    eexists. repeat split.
Qed.

Lemma normal_reading_safe_low_witness :
  in_normal_bands reading_A /\
  SensorOnly.assess_risk_from_sensor (reading_dict reading_A)
  = Ok ("Safe", "Low", 95) /\
  Hybrid.assess_risk (reading_dict reading_A) 0 = Ok ("Safe", "Low", 97).
Proof.
  assert (in_normal_bands reading_A) as H
    by (repeat split; vm_compute; congruence).
  split; [exact H|].
  destruct (normal_reading_safe_low no_str read_green_blurred reading_A H)
    as (_ & Hs & _ & Hh & _).
  split; assumption.
Defined.

(** The result documents carry the labels and statuses of the reading. *)
Lemma sensor_only_csv (f : string -> option float) (r : SensorReading) :
  SensorOnly.predict_from_sensor f (Ok (reading_csv r)) =
  match SensorOnly.build_result (reading_dict r) with
  | Ok result => Success result
  | Raise e => Failure "Prediction error: " (Some e)
  end.
Proof. reflexivity. Qed.

Lemma sensor_only_result (r : SensorReading) :
  exists result,
    SensorOnly.build_result (reading_dict r) = Ok result /\
    (forall quality risk confidence,
       SensorOnly.assess_risk_from_sensor (reading_dict r)
         = Ok (quality, risk, confidence) ->
       field result "water_quality" = Some (JStr quality) /\
       field result "risk_level" = Some (JStr risk)) /\
    field result "method" = Some (JStr "sensor_only") /\
    parameter_status result "pH"
      = Some (SensorOnly.status ((6.5 <=? pH r)%py && (pH r <=? 8.5)%py)) /\
    parameter_status result "Temperature"
      = Some (SensorOnly.status
                ((15 <=? Temperature r)%py && (Temperature r <=? 30)%py)) /\
    parameter_status result "TDS"
      = Some (SensorOnly.status (TDS r <? 500)%py) /\
    parameter_status result "Turbidity"
      = Some (SensorOnly.status (Turbidity r <? 5)%py) /\
    parameter_status result "DO" = Some (SensorOnly.status (DO r >? 5)%py).
Proof.
  unfold SensorOnly.build_result, SensorOnly.assess_risk_from_sensor.
  rewrite sensor_only_score. cbn -[Z.leb points Qltb Qgtb Qleb round2 map].
  destruct (6 <=? points r); [|destruct (3 <=? points r)];
    cbn -[Z.leb points Qltb Qgtb Qleb round2 map];
    eexists; (split; [reflexivity|]);
    (split; [intros q k c [= <- <- <-]; split; reflexivity|]);
    repeat split.
Qed.

(** ** C4 *)

(** C4, amended.  In the result of the sensor-only script for a canonical
    reading, the score is the sum of the five parameters' points; every
    parameter that adds to the score is reported Abnormal, and every
    parameter reported Abnormal adds to the score unless its value is
    exactly TDS 500, DO 5 or Turbidity 5. *)
Theorem abnormal_status_and_score (f : string -> option float)
        (r : SensorReading) :
  exists result,
    SensorOnly.predict_from_sensor f (Ok (reading_csv r)) = Success result /\
    SensorOnly.risk_score (reading_dict r)
      = Ok (points_of P_pH r + points_of P_Temperature r + points_of P_TDS r
            + points_of P_Turbidity r + points_of P_DO r) /\
    forall p,
      (0 < points_of p r ->
       parameter_status result (name_of p) = Some (JStr "Abnormal")) /\
      (parameter_status result (name_of p) = Some (JStr "Abnormal") ->
       ~ on_boundary p r -> 0 < points_of p r).
Proof.
  destruct (sensor_only_result r)
    as (result & Hb & _ & _ & HpH & Ht & Hs & Hu & Hd).
  exists result. rewrite sensor_only_csv, Hb. split; [reflexivity|].
  split; [apply sensor_only_score|].
  intros [] ; cbn [name_of points_of on_boundary];
    [rewrite HpH | rewrite Ht | rewrite Hs | rewrite Hu | rewrite Hd];
    unfold pH_points, temperature_points, tds_points, turbidity_points,
      do_points, SensorOnly.status;
    split; cmp_cases; cbn; intros;
      try reflexivity; try lia; try discriminate; exfalso;
      try (match goal with H : ~ _ |- _ => apply H end; lra); lra.
Qed.

(** C4 as stated fails on the threshold: TDS = 500 is reported Abnormal
    while the score stays 0. *)
Lemma tds_500_abnormal_without_points :
  (exists result,
     SensorOnly.predict_from_sensor no_str (Ok (reading_csv reading_tds_500))
       = Success result /\
     parameter_status result "TDS" = Some (JStr "Abnormal") /\
     SensorOnly.risk_score (reading_dict reading_tds_500) = Ok 0) /\
  ~ abnormal_iff_scored no_str reading_tds_500.
Proof.
  split.
  - eexists. repeat split.
  - intros (result & Hr & H). vm_compute in Hr. injection Hr as <-.
    specialize (H P_TDS). vm_compute in H. destruct H as [H _].
    specialize (H eq_refl). discriminate.
Qed.

(** ** C2 *)

Lemma bind_ok {A B} (m : exn A) (f : A -> exn B) (b : B) :
  m ≫= f = Ok b -> exists a, m = Ok a /\ f a = Ok b.
Proof. destruct m; cbn; [eauto | discriminate]. Qed.

(** Inversion of a computation that returned. *)
Ltac exn_inv :=
  repeat match goal with
    | H : _ ≫= _ = Ok _ |- _ =>
        apply bind_ok in H; destruct H as (? & ? & H); cbn beta in H
    | H : mret _ = Ok _ |- _ => injection H as H
    | H : match ?m with _ => _ end = _ |- _ =>
        destruct m eqn:?; try discriminate H
    end.

Lemma sensor_only_method f csv result :
  SensorOnly.predict_from_sensor f csv = Success result ->
  field result "method" = Some (JStr "sensor_only").
Proof.
  unfold SensorOnly.predict_from_sensor, SensorOnly.build_result.
  intros H. exn_inv. injection H as <-. subst. reflexivity.
Qed.

Lemma image_only_method imread image_path result :
  ImageOnly.predict_from_image imread image_path = Success result ->
  field result "method" = Some (JStr "image_only").
Proof.
  unfold ImageOnly.predict_from_image.
  intros H. exn_inv. injection H as <-. subst. reflexivity.
Qed.

Lemma hybrid_method f imread image_path csv result :
  Hybrid.predict f imread image_path csv = Success result ->
  field result "method" = Some (JStr "hybrid_sensor_image").
Proof.
  unfold Hybrid.predict, Hybrid.build_result.
  intros H. exn_inv. injection H as <-. subst. reflexivity.
Qed.

Lemma fusion_method f tensor load (image : exn tensor) csv result :
  Fusion.make_prediction f tensor load image csv = Success result ->
  field result "method" = None.
Proof.
  unfold Fusion.make_prediction, Fusion.infer.
  intros H. exn_inv. injection H as <-. subst. reflexivity.
Qed.

Lemma s3_method tensor bucket download load now_id now_timestamp upload w
      (image : exn tensor) csv w' result :
  S3.make_prediction tensor bucket download load now_id now_timestamp
    upload w image csv = (w', Success result) ->
  field result "method" = Some (JStr "hybrid_s3_model").
Proof.
  unfold S3.make_prediction, S3.infer.
  intros H. exn_inv; injection H as <- <-; subst; reflexivity.
Qed.

(** C2, amended.  Every successful prediction carries the method entry of
    its script: "sensor_only", "image_only", "hybrid_sensor_image" for the
    hybrid script, "hybrid_s3_model" for the S3 script, and no method entry
    at all for predict.py. *)
Theorem method_entry_of_each_script (s : script) (result : json) :
  prediction s (Success result) -> field result "method" = method_of s.
Proof.
  intros H. remember (Success result) as o eqn:Ho.
  destruct H; cbn [method_of].
  - eapply sensor_only_method; eauto.
  - eapply image_only_method; eauto.
  - eapply hybrid_method; eauto.
  - eapply fusion_method; eauto.
  - destruct (S3.make_prediction _ _ _ _ _ _ _ _ _ _) as [w' o] eqn:E.
    cbn [snd] in Ho. subst o. eapply s3_method; eauto.
Qed.

Lemma method_entry_of_each_script_witness :
  prediction Hybrid_rules
    (Hybrid.predict no_str read_green_blurred "pond.jpg"
       (Ok (reading_csv reading_A))) /\
  exists result,
    Hybrid.predict no_str read_green_blurred "pond.jpg"
      (Ok (reading_csv reading_A)) = Success result /\
    field result "method" = Some (JStr "hybrid_sensor_image").
Proof.
  split; [constructor|].
  eexists. split; [vm_compute; reflexivity|].
  apply (method_entry_of_each_script Hybrid_rules).
  exact (run_hybrid no_str read_green_blurred "pond.jpg"
           (Ok (reading_csv reading_A))).
Defined.

(** C2 as stated fails: the hybrid script prints "hybrid_sensor_image",
    which is none of the four specified values. *)
Lemma hybrid_method_outside_specified_set :
  exists result,
    prediction Hybrid_rules (Success result) /\
    field result "method" = Some (JStr "hybrid_sensor_image") /\
    ~ method_in_specified_set result.
Proof.
  pose proof (run_hybrid no_str read_green_blurred "pond.jpg"
                (Ok (reading_csv reading_A))) as H.
  vm_compute in H.
  eexists. split; [exact H|]. split; [reflexivity|].
  intros (m & Hm & Hin). vm_compute in Hm. injection Hm as <-.
  cbn in Hin. repeat (destruct Hin as [Hin|Hin]; [discriminate Hin|]).
  exact Hin.
Qed.

(** ** C10 *)

(** C10.  The sensor-only and the hybrid script read nothing of the table
    but its column names and its last row: two tables that agree on both
    give the same printed document, for the same image. *)
Theorem last_row_determines_result
        (f : string -> option float) (imread : string -> option image)
        (image_path : string) (df1 df2 : DataFrame) :
  columns df1 = columns df2 ->
  rows df1 <> [] -> rows df2 <> [] ->
  List.last (rows df1) [] = List.last (rows df2) [] ->
  SensorOnly.predict_from_sensor f (Ok df1)
    = SensorOnly.predict_from_sensor f (Ok df2) /\
  Hybrid.predict f imread image_path (Ok df1)
    = Hybrid.predict f imread image_path (Ok df2).
Proof.
  intros Hc H1 H2 Hl.
  assert (iloc_last_to_dict df1 = iloc_last_to_dict df2) as Hd
    by (unfold iloc_last_to_dict; now rewrite Hc, Hl).
  assert (forall df, rows df <> [] ->
                     (0 <? len df) = true /\ (len df =? 0) = false) as Hlen.
  { intros df Hdf. unfold len. destruct (rows df); [congruence|].
    cbn [length]. split; [apply Z.ltb_lt | apply Z.eqb_neq]; lia. }
  destruct (Hlen _ H1) as [Ha1 Hb1], (Hlen _ H2) as [Ha2 Hb2].
  unfold SensorOnly.predict_from_sensor, Hybrid.predict,
    Hybrid.read_sensor_data.
  rewrite Ha1, Ha2, Hb1, Hb2, Hd. split; reflexivity.
Qed.

Lemma last_row_determines_result_witness :
  columns table_short = columns table_long /\
  rows table_short <> [] /\ rows table_long <> [] /\
  List.last (rows table_short) [] = List.last (rows table_long) [] /\
  SensorOnly.predict_from_sensor no_str (Ok table_short)
    = SensorOnly.predict_from_sensor no_str (Ok table_long) /\
  Hybrid.predict no_str read_green_blurred "pond.jpg" (Ok table_short)
    = Hybrid.predict no_str read_green_blurred "pond.jpg" (Ok table_long).
Proof.
  assert (columns table_short = columns table_long) as Hc by reflexivity.
  assert (rows table_short <> []) as H1 by discriminate.
  assert (rows table_long <> []) as H2 by discriminate.
  assert (List.last (rows table_short) [] = List.last (rows table_long) [])
    as Hl by reflexivity.
  repeat (split; [assumption|]).
  exact (last_row_determines_result no_str read_green_blurred "pond.jpg"
           table_short table_long Hc H1 H2 Hl).
Defined.

(** ** C9 *)

Lemma image_only_score (r : SensorReading) :
  ImageOnly.assess_risk_from_params (reading_dict r) =
  Ok (if 6 <=? points r then ("Unsafe", "High", points r)
      else if 3 <=? points r then ("Unsafe", "Medium", points r)
      else ("Safe", "Low", points r)).
Proof.
  unfold ImageOnly.assess_risk_from_params, points, pH_points,
    temperature_points, tds_points, turbidity_points, do_points.
  cbn -[Z.add Z.leb Qltb Qgtb orb].
  repeat match goal with
    | |- context [if ?b then _ else _] =>
        lazymatch b with
        | (_ <=? _)%Z => fail
        | _ => destruct b
        end
    end; reflexivity.
Qed.

Lemma points_bounds (x : float) :
  0 <= pH_points x /\ 0 <= temperature_points x /\ 0 <= tds_points x /\
  0 <= turbidity_points x /\ 0 <= do_points x.
Proof.
  unfold pH_points, temperature_points, tds_points, turbidity_points,
    do_points.
  repeat split; if_cases; lia.
Qed.

Lemma tenth (x : Q) : (x / 10 == x * (1 # 10))%Q.
Proof. reflexivity. Qed.

(** C9, amended.  For an image whose green ratio exceeds 0.3 and whose
    Laplacian variance is below 50, the image-only script succeeds with
    method "image_only", estimates a Turbidity above 5 and a DO below 6.5;
    the estimated DO is below 5 exactly when the green ratio exceeds 0.6,
    and the water is labelled Unsafe exactly when the score reaches 3, which
    it does whenever the green ratio exceeds 0.75. *)
Theorem heavy_green_low_clarity
        (imread : string -> option image) (image_path : string) (img : image) :
  imread image_path = Some img ->
  (0.3 < green_ratio img)%Q -> (laplacian_var img < 50)%Q ->
  exists r result quality risk score,
    ImageOnly.analyze_image_features imread image_path
      = Some (reading_dict r) /\
    ImageOnly.assess_risk_from_params (reading_dict r)
      = Ok (quality, risk, score) /\
    ImageOnly.predict_from_image imread image_path = Success result /\
    field result "method" = Some (JStr "image_only") /\
    field result "water_quality" = Some (JStr quality) /\
    (5 < Turbidity r)%Q /\ (DO r < 6.5)%Q /\
    ((DO r < 5)%Q <-> (0.6 < green_ratio img)%Q) /\
    (quality = "Unsafe" <-> 3 <= score) /\
    ((0.75 < green_ratio img)%Q -> quality = "Unsafe").
Proof.
  intros Him Hg Hl.
  set (t := ImageOnly.py_max 0
              (ImageOnly.py_min 10 ((100 - laplacian_var img) / 10))%Q).
  set (r := {| pH := 7 + green_ratio img * 2;
               Temperature := 20 + brightness img / 10;
               TDS := 300 + t * 30;
               Turbidity := t;
               DO := ImageOnly.py_max 3 (8 - green_ratio img * 5) |}).
  assert (ImageOnly.analyze_image_features imread image_path
          = Some (reading_dict r)) as Ha
    by (unfold ImageOnly.analyze_image_features; now rewrite Him).
  assert ((5 < Turbidity r)%Q /\ (Turbidity r <= 10)%Q) as [Ht Ht'].
  { cbn [Turbidity r]. unfold t, ImageOnly.py_max, ImageOnly.py_min.
    pose proof (tenth (100 - laplacian_var img)) as Hq.
    set (q := ((100 - laplacian_var img) / 10)%Q) in *. clearbody q.
    cmp_cases; split; lra. }
  assert (3 <= DO r)%Q as Hd3.
  { cbn [DO r]. unfold ImageOnly.py_max. cmp_cases; lra. }
  assert (DO r < 6.5)%Q as Hd.
  { cbn [DO r]. unfold ImageOnly.py_max. cmp_cases; lra. }
  assert ((DO r < 5)%Q <-> (0.6 < green_ratio img)%Q) as Hd5.
  { cbn [DO r]. unfold ImageOnly.py_max. cmp_cases; split; intros; lra. }
  assert ((0.75 < green_ratio img)%Q -> 3 <= points r) as Hp.
  { intros Hg'. unfold points.
    assert (1 <= pH_points (pH r)).
    { cbn [pH r]. unfold pH_points. cmp_cases; cbn; try lia; exfalso; lra. }
    assert (1 <= turbidity_points (Turbidity r)).
    { unfold turbidity_points. cmp_cases; cbn; try lia; exfalso; lra. }
    assert (1 <= do_points (DO r)).
    { assert (DO r < 5)%Q by (apply Hd5; lra). unfold do_points.
      cmp_cases; cbn; try lia; exfalso; lra. }
    pose proof (points_bounds (Temperature r)) as (_ & ? & _).
    pose proof (points_bounds (TDS r)) as (_ & _ & ? & _).
    lia. }
  pose proof (image_only_score r) as Hs.
  exists r.
  unfold ImageOnly.predict_from_image. rewrite Ha, Hs.
  destruct (Z.leb_spec 6 (points r)); [|destruct (Z.leb_spec 3 (points r))];
    eexists; do 3 eexists;
    (split; [reflexivity|]); (split; [reflexivity|]);
    (split; [reflexivity|]); (split; [reflexivity|]);
    (split; [reflexivity|]); (split; [exact Ht|]); (split; [exact Hd|]);
    (split; [exact Hd5|]);
    (split; [split; intros; try reflexivity; try lia; discriminate|]);
    intros Hg'; specialize (Hp Hg'); try reflexivity; lia.
Qed.

Lemma heavy_green_low_clarity_witness :
  read_green_dense "pond.jpg" = Some green_dense /\
  (0.3 < green_ratio green_dense)%Q /\ (laplacian_var green_dense < 50)%Q /\
  exists r result quality risk score,
    ImageOnly.analyze_image_features read_green_dense "pond.jpg"
      = Some (reading_dict r) /\
    ImageOnly.assess_risk_from_params (reading_dict r)
      = Ok (quality, risk, score) /\
    ImageOnly.predict_from_image read_green_dense "pond.jpg"
      = Success result /\
    field result "method" = Some (JStr "image_only") /\
    field result "water_quality" = Some (JStr quality) /\
    (5 < Turbidity r)%Q /\ (DO r < 6.5)%Q /\
    ((DO r < 5)%Q <-> (0.6 < green_ratio green_dense)%Q) /\
    (quality = "Unsafe" <-> 3 <= score) /\
    ((0.75 < green_ratio green_dense)%Q -> quality = "Unsafe").
Proof.
  assert (read_green_dense "pond.jpg" = Some green_dense) as H1
    by reflexivity.
  assert (0.3 < green_ratio green_dense)%Q as H2 by (vm_compute; reflexivity).
  assert (laplacian_var green_dense < 50)%Q as H3
    by (vm_compute; reflexivity).
  repeat (split; [assumption|]).
  exact (heavy_green_low_clarity read_green_dense "pond.jpg" green_dense
           H1 H2 H3).
Defined.

(** C9 as stated fails: half of the picture green, Laplacian variance 40.
    The estimated DO is 5.5, the score is 1, the water is labelled Safe. *)
Lemma half_green_blurred_is_safe :
  (0.3 < green_ratio green_blurred)%Q /\
  (laplacian_var green_blurred < 50)%Q /\
  exists params result,
    ImageOnly.analyze_image_features read_green_blurred "pond.jpg"
      = Some params /\
    get params "DO" = Some 5.5%Q /\ ~ (5.5 < 5)%Q /\
    ImageOnly.assess_risk_from_params params = Ok ("Safe", "Low", 1) /\
    ImageOnly.predict_from_image read_green_blurred "pond.jpg"
      = Success result /\
    field result "method" = Some (JStr "image_only") /\
    field result "water_quality" = Some (JStr "Safe") /\
    field result "water_quality" <> Some (JStr "Unsafe").
Proof.
  split; [vm_compute; reflexivity|]. split; [vm_compute; reflexivity|].
  do 2 eexists.
  split; [vm_compute; reflexivity|]. split; [reflexivity|].
  split; [intros H; vm_compute in H; discriminate H|].
  split; [vm_compute; reflexivity|]. split; [vm_compute; reflexivity|].
  split; [reflexivity|]. split; [reflexivity|]. discriminate.
Qed.

(** The estimates for that picture are the same numbers when every
    operation is the binary64 one. *)
Lemma green_blurred_estimates_in_binary64 :
  map (fun kv => (fst kv, option_map Qred (Binary64.to_Q (snd kv))))
      (Binary64.estimates (Binary64.double 1 (-1)) (Binary64.double 40 0)
                          (Binary64.double 50 0))
  = match ImageOnly.analyze_image_features read_green_blurred "pond.jpg" with
    | Some params => map (fun kv => (fst kv, Some (Qred (snd kv)))) params
    | None => []
    end.
Proof. vm_compute. reflexivity. Qed.

(** ** C5 *)

Lemma get_setitem {V} (d : dict V) (k k' : string) (v : V) :
  get (setitem d k v) k' = if String.eqb k' k then Some v else get d k'.
Proof.
  induction d as [|[k0 v0] d IH]; cbn.
  - reflexivity.
  - destruct (String.eqb_spec k k0) as [->|Hk]; cbn.
    + destruct (String.eqb_spec k' k0); reflexivity.
    + rewrite IH. destruct (String.eqb_spec k' k0) as [->|]; [|reflexivity].
      destruct (String.eqb_spec k0 k); [congruence | reflexivity].
Qed.

Lemma get_fill {V} (d : dict V) (k k' : string) (v : V) :
  get (if has_key d k then d else setitem d k v) k'
  = if String.eqb k' k then Some (get_default d k v) else get d k'.
Proof.
  unfold has_key, get_default. destruct (get d k) eqn:E.
  - destruct (String.eqb_spec k' k) as [->|]; [exact E | reflexivity].
  - apply get_setitem.
Qed.

(** After the defaults are filled in, a parameter holds the value read from
    the table when there was one and its documented default otherwise. *)
Lemma sensor_only_defaults (data : dict float) :
  let filled := SensorOnly.fill_defaults data in
  get filled "pH" = Some (get_default data "pH" 7%Q) /\
  get filled "Temperature" = Some (get_default data "Temperature" 25%Q) /\
  get filled "TDS" = Some (get_default data "TDS" 300%Q) /\
  get filled "Turbidity" = Some (get_default data "Turbidity" 2%Q) /\
  get filled "DO" = Some (get_default data "DO" 6%Q).
Proof.
  unfold SensorOnly.fill_defaults. cbn zeta.
  repeat split;
    repeat (rewrite get_fill; cbn [String.eqb Ascii.eqb Bool.eqb];
            unfold get_default);
    reflexivity.
Qed.

Lemma sensor_only_float_or (f : string -> option float) (value : cell)
      (default : float) :
  numeric value -> exists x, SensorOnly.float_or f value default = Ok x.
Proof. destruct value; cbn; intros H; [eauto .. | destruct H]. Qed.

Lemma sensor_only_standardize_all (f : string -> option float)
      (items : list (string * cell)) (data : dict float) :
  Forall numeric (map snd items) ->
  exists data', SensorOnly.standardize_all f data items = Ok data'.
Proof.
  revert data. induction items as [|[key value] items IH]; intros data H.
  - cbn. eauto.
  - inversion H as [|? ? Hv Hitems]; subst. cbn [SensorOnly.standardize_all].
    assert (exists d, SensorOnly.standardize f data (key, value) = Ok d)
      as [d ->].
    { unfold SensorOnly.standardize.
      repeat match goal with
        | |- context [SensorOnly.float_or f value ?d] =>
            destruct (sensor_only_float_or f value d Hv) as [? ->]
        end.
      if_cases; cbn; eauto. }
    cbn. apply IH. exact Hitems.
Qed.

Lemma sensor_only_build_result (data : dict float) :
  exists result,
    SensorOnly.build_result (SensorOnly.fill_defaults data) = Ok result.
Proof.
  destruct (sensor_only_defaults data) as (H1 & H2 & H3 & H4 & H5).
  unfold SensorOnly.build_result, SensorOnly.assess_risk_from_sensor,
    SensorOnly.risk_score, getitem.
  cbn zeta in *. rewrite H1, H2, H3, H4, H5. cbn [mbind mret exn_bind exn_ret].
  match goal with |- context [(6 <=? ?e)%Z] => generalize e end. intros score.
  destruct (6 <=? score); [|destruct (3 <=? score)]; cbn; eauto.
Qed.

(** The sensor-only script does what C5 says: a table with a last row of
    numbers or blanks is always answered, whichever parameter columns it
    lacks, and a parameter with no column holds its documented default. *)
Lemma sensor_only_tolerates_absent_columns
      (f : string -> option float) (df : DataFrame) :
  rows df <> [] ->
  Forall numeric (List.last (rows df) []) ->
  exists data result,
    SensorOnly.standardize_all f [] (iloc_last_to_dict df) = Ok data /\
    SensorOnly.predict_from_sensor f (Ok df) = Success result /\
    field result "sensor_readings"
      = Some (JObj (map (fun kv => (fst kv, JFloat (snd kv)))
                        (SensorOnly.fill_defaults data))) /\
    get (SensorOnly.fill_defaults data) "pH"
      = Some (get_default data "pH" 7%Q) /\
    get (SensorOnly.fill_defaults data) "Temperature"
      = Some (get_default data "Temperature" 25%Q) /\
    get (SensorOnly.fill_defaults data) "TDS"
      = Some (get_default data "TDS" 300%Q) /\
    get (SensorOnly.fill_defaults data) "Turbidity"
      = Some (get_default data "Turbidity" 2%Q) /\
    get (SensorOnly.fill_defaults data) "DO"
      = Some (get_default data "DO" 6%Q).
Proof.
  intros Hrows Hnum.
  assert (Forall numeric (map snd (iloc_last_to_dict df))) as Hitems.
  { unfold iloc_last_to_dict. revert Hnum.
    generalize (List.last (rows df) []) as row.
    induction (columns df) as [|c cs IH]; intros row Hrow; [constructor|].
    destruct row as [|v row]; [constructor|].
    inversion Hrow; subst. cbn. constructor; auto. }
  destruct (sensor_only_standardize_all f _ [] Hitems) as [data Hd].
  destruct (sensor_only_build_result data) as [result Hr].
  exists data, result. split; [exact Hd|].
  split.
  - unfold SensorOnly.predict_from_sensor.
    assert ((0 <? len df) = true) as ->.
    { unfold len. destruct (rows df); [congruence|]. cbn [length].
      apply Z.ltb_lt. lia. }
    rewrite Hd. cbn [mbind exn_bind]. now rewrite Hr.
  - split; [|apply sensor_only_defaults].
    unfold SensorOnly.build_result in Hr. exn_inv. subst result. reflexivity.
Qed.

(** C5 fails in predict.py: with the recorded feature list and a table that
    lacks the Turbidity column, preprocessing raises whatever the scaler
    does, and the script prints an error; the sensor-only script answers
    the same table with Turbidity 2.0. *)
Theorem fusion_fails_on_absent_column
        (f : string -> option float) (tensor : Type)
        (model : tensor -> list (list float) -> exn (list float * list float))
        (scaler : list (list cell) -> exn (list (list float)))
        (image_input : tensor) :
  let a := {| Fusion.model_predict := model;
              Fusion.scaler_transform := scaler;
              Fusion.feature_config := recorded_config |} in
  (exists e,
     Fusion.preprocess_sensor_data f (Ok table_without_turbidity) scaler
       recorded_config = Raise e /\
     Fusion.make_prediction f tensor (Fusion.Loaded tensor a) (Ok image_input)
       (Ok table_without_turbidity)
     = Failure "Sensor data preprocessing error: " (Some e)) /\
  (exists result readings,
     SensorOnly.predict_from_sensor f (Ok table_without_turbidity)
       = Success result /\
     field result "sensor_readings" = Some readings /\
     field readings "Turbidity" = Some (JFloat 2%Q)).
Proof.
  intros a. split.
  - unfold Fusion.make_prediction, Fusion.preprocess_sensor_data.
    cbn [mbind exn_bind a Fusion.scaler_transform Fusion.feature_config].
    assert (Fusion.sensor_rows table_without_turbidity recorded_config
            = Ok (repeat [CFloat 7.1; CFloat 24; CFloat 280; CFloat 6.2] 10))
      as -> by (vm_compute; reflexivity).
    cbn [mbind exn_bind repeat].
    destruct (scaler _) as [scaled|e].
    + exists IndexError. split; reflexivity.
    + exists e. split; reflexivity.
  - do 2 eexists. repeat split.
Qed.

(** With none of the recorded columns in the table, predict.py answers
    from its own default row, in which DO is 5.0. *)
Lemma fusion_default_row (f : string -> option float)
      (scaler : list (list cell) -> exn (list (list float)))
      (scaled : list (list float)) :
  scaler (repeat [CFloat 7; CFloat 25; CFloat 300; CFloat 5; CFloat 2] 10)
    = Ok scaled ->
  Fusion.preprocess_sensor_data f (Ok table_without_features) scaler
    recorded_config
  = Ok (scaled, [("pH", CFloat 7); ("Temperature", CFloat 25);
                 ("TDS", CFloat 300); ("DO", CFloat 5);
                 ("Turbidity", CFloat 2)]).
Proof.
  intros Hs. unfold Fusion.preprocess_sensor_data. cbn [mbind exn_bind].
  assert (Fusion.sensor_rows table_without_features recorded_config
          = Ok (repeat [CFloat 7; CFloat 25; CFloat 300; CFloat 5; CFloat 2]
                       10))
    as -> by (vm_compute; reflexivity).
  cbn [mbind exn_bind]. rewrite Hs. reflexivity.
Qed.

(** ** C6 *)

Lemma rows_standardize_columns (df : DataFrame) :
  rows (Fusion.standardize_columns df) = rows df.
Proof.
  unfold Fusion.standardize_columns.
  generalize Fusion.column_mapping as l. intros l. revert df.
  induction l as [|m l IH]; intros df; cbn [fold_left]; [reflexivity|].
  rewrite IH. destruct (Fusion.mem _ _); reflexivity.
Qed.

Lemma all_available (cols features : list string) :
  Forall (fun name => In name cols) features ->
  List.filter (fun col => Fusion.mem col cols) features = features.
Proof.
  induction 1 as [|name features Hin _ IH]; [reflexivity|].
  cbn [List.filter].
  assert (Fusion.mem name cols = true) as ->; [|now rewrite IH].
  unfold Fusion.mem. apply existsb_exists. exists name.
  split; [exact Hin | apply String.eqb_refl].
Qed.

Lemma label_once (cols : list string) (name : string) :
  List.NoDup cols -> In name cols ->
  length (List.filter (fun c => String.eqb c name) cols) = 1%nat.
Proof.
  induction cols as [|c cols IH]; intros Hnd Hin; [destruct Hin|].
  apply List.NoDup_cons_iff in Hnd as [Hc Hnd]. cbn [List.filter].
  destruct (String.eqb_spec c name) as [->|Hne].
  - cbn [length]. f_equal.
    assert (List.filter (fun c => String.eqb c name) cols = []) as ->;
      [|reflexivity].
    clear IH Hnd Hin. induction cols as [|c cols IH]; [reflexivity|].
    cbn [List.filter].
    destruct (String.eqb_spec c name) as [->|_].
    + exfalso. apply Hc. now left.
    + apply IH. intros H. apply Hc. now right.
  - destruct Hin as [->|Hin]; [congruence|]. now apply IH.
Qed.

(** A table that holds every requested label once has as many selected
    columns as labels requested. *)
Lemma selected_width_all (cols features : list string) :
  List.NoDup cols -> Forall (fun name => In name cols) features ->
  Fusion.selected_width cols features = length features.
Proof.
  intros Hnd Hall. unfold Fusion.selected_width.
  induction Hall as [|name features Hin _ IH]; [reflexivity|].
  cbn [flat_map]. rewrite length_app, IH, label_once by assumption.
  reflexivity.
Qed.

Lemma vstack_repeat (row : list cell) (a : list (list cell)) (n : nat) :
  Fusion.vstack (length row) a (repeat row n) = Ok (a ++ repeat row n).
Proof.
  unfold Fusion.vstack.
  assert (forallb (fun r => (length r =? length row)%nat) (repeat row n)
          = true) as ->; [|reflexivity].
  induction n as [|n IH]; [reflexivity|].
  cbn [repeat forallb]. now rewrite Nat.eqb_refl, IH.
Qed.

Lemma vstack_zeros (x : cell) (n k : nat) :
  Fusion.vstack n [] (repeat (repeat x n) k) = Ok (repeat (repeat x n) k).
Proof.
  pose proof (vstack_repeat (repeat x n) [] k) as H.
  rewrite repeat_length in H. exact H.
Qed.

(** What [sensor_rows] computes when some recorded feature is a column of
    the table. *)
Lemma sensor_rows_available (df : DataFrame) (fc : dict (list string))
      (features : list string) :
  get fc "features" = Some features ->
  let cols := columns (Fusion.standardize_columns df) in
  let available := List.filter (fun col => Fusion.mem col cols) features in
  let readings := map (Fusion.select cols available) (rows df) in
  available <> [] ->
  Fusion.sensor_rows df fc =
  match firstn 10 readings with
  | [] =>
      Fusion.vstack (Fusion.selected_width cols available) []
        (repeat (repeat (CFloat 0) (length available)) 10)
  | _ =>
      Ok (firstn 10 readings
          ++ repeat (List.last (firstn 10 readings) [])
                    (10 - length (firstn 10 readings)))
  end.
Proof.
  intros Hget cols available readings Hav.
  unfold Fusion.sensor_rows, getitem. rewrite Hget. cbn [mbind exn_bind].
  rewrite rows_standardize_columns.
  fold cols. fold available. fold readings.
  unfold Fusion.SEQUENCE_LENGTH.
  destruct available as [|a0 available'] eqn:Eav; [congruence|].
  set (kept := firstn 10 readings).
  assert (length kept <= 10)%nat as Hle by apply firstn_le_length.
  destruct kept as [|r kept'] eqn:Ek; [reflexivity|].
  rewrite <- Ek in *.
  destruct (Nat.ltb_spec (length kept) 10) as [Hlt|Hge].
  - cbv zeta. apply vstack_repeat.
  - replace (10 - length kept)%nat with 0%nat by lia.
    cbn [repeat]. rewrite app_nil_r. unfold kept. now rewrite firstn_firstn.
Qed.

(** C6, amended.  For a table that holds every recorded feature column
    once, the sequence predict.py builds has 10 rows.  From a table of 1 to
    10 rows it is those rows, each as its values under the recorded names,
    followed by repetitions of the last one; 3 rows give the 3 rows and 7
    repetitions of the third.  A table without rows gives 10 rows of
    zeros. *)
Theorem sequence_of_ten_rows (df : DataFrame) (fc : dict (list string))
        (features : list string) :
  get fc "features" = Some features ->
  let cols := columns (Fusion.standardize_columns df) in
  List.NoDup cols ->
  Forall (fun name => In name cols) features ->
  features <> [] ->
  let readings := map (Fusion.select cols features) (rows df) in
  exists sequence,
    Fusion.sensor_rows df fc = Ok sequence /\
    length sequence = 10%nat /\
    (readings <> [] -> (length readings <= 10)%nat ->
     sequence = readings
                ++ repeat (List.last readings []) (10 - length readings)) /\
    (forall a b c, readings = [a; b; c] ->
     sequence = [a; b; c; c; c; c; c; c; c; c]) /\
    (readings = [] ->
     sequence = repeat (repeat (CFloat 0) (length features)) 10).
Proof.
  intros Hget cols Hnd Hall Hne readings.
  pose proof (all_available cols features Hall) as Hav.
  rewrite (sensor_rows_available df fc features Hget)
    by (fold cols; rewrite Hav; exact Hne).
  fold cols. rewrite Hav. fold readings.
  rewrite selected_width_all by assumption.
  assert (length (firstn 10 readings) = Nat.min 10 (length readings)) as Hlen
    by apply length_firstn.
  destruct (firstn 10 readings) as [|r kept] eqn:Ek.
  - assert (readings = []) as Hr
      by (destruct readings; [reflexivity | discriminate Ek]).
    rewrite vstack_zeros.
    eexists. split; [reflexivity|]. split; [apply repeat_length|].
    split; [congruence|]. split; [|reflexivity].
    intros a b c E. rewrite E in Hr. discriminate Hr.
  - rewrite <- Ek in *.
    eexists. split; [reflexivity|].
    split; [rewrite length_app, repeat_length; lia|].
    split; [|split].
    + intros _ Hle. now rewrite firstn_all2 by exact Hle.
    + intros a b c E. rewrite E. reflexivity.
    + intros E. rewrite E in Ek. discriminate Ek.
Qed.

Lemma sequence_of_ten_rows_witness :
  get recorded_config "features" = Some recorded_columns /\
  List.NoDup (columns (Fusion.standardize_columns table_three)) /\
  Forall (fun name =>
            In name (columns (Fusion.standardize_columns table_three)))
         recorded_columns /\
  recorded_columns <> [] /\
  Fusion.sensor_rows table_three recorded_config
  = Ok [numbered 1; numbered 2; numbered 3; numbered 3; numbered 3;
        numbered 3; numbered 3; numbered 3; numbered 3; numbered 3].
Proof.
  assert (List.NoDup (columns (Fusion.standardize_columns table_three)))
    as H2.
  { vm_compute. repeat constructor; cbn; intuition discriminate. }
  assert (Forall (fun name =>
                    In name (columns (Fusion.standardize_columns
                                        table_three)))
                 recorded_columns) as H3.
  { vm_compute. repeat (apply List.Forall_cons; [cbn; auto 10|]).
    apply List.Forall_nil. }
  assert (recorded_columns <> []) as H4 by discriminate.
  split; [reflexivity|]. repeat (split; [assumption|]).
  destruct (sequence_of_ten_rows table_three recorded_config recorded_columns
              eq_refl H2 H3 H4) as (sequence & -> & _ & _ & H & _).
  f_equal. apply H. reflexivity.
Defined.

(** C6 as stated fails at both ends: a table without rows is padded with
    zeros, not with the defaults, and a table of 11 rows keeps its first 10
    rows, not its most recent 10. *)
Lemma zero_rows_and_eleven_rows :
  (Fusion.sensor_rows table_empty recorded_config
   = Ok (repeat (repeat (CFloat 0) 5) 10) /\
   sequence_by_spec (rows table_empty) = repeat all_defaults 10 /\
   Fusion.sensor_rows table_empty recorded_config
   <> Ok (sequence_by_spec (rows table_empty))) /\
  (Fusion.sensor_rows table_eleven recorded_config
   = Ok (map numbered [1; 2; 3; 4; 5; 6; 7; 8; 9; 10]) /\
   sequence_by_spec (rows table_eleven)
   = map numbered [2; 3; 4; 5; 6; 7; 8; 9; 10; 11] /\
   Fusion.sensor_rows table_eleven recorded_config
   <> Ok (sequence_by_spec (rows table_eleven))).
Proof.
  split; (split; [vm_compute; reflexivity|]);
    (split; [vm_compute; reflexivity|]);
    intros H; vm_compute in H; discriminate H.
Qed.

(** Outside these tables the sequence need not exist: with two labels for
    pH and no row, the selection is two columns wide, the padding one, and
    stacking them raises. *)
Lemma two_labels_without_rows_raise :
  exists e,
    Fusion.sensor_rows table_two_pH_labels recorded_config = Raise e.
Proof. eexists. vm_compute. reflexivity. Qed.

(** ** C7 *)

Lemma filter_absent (cols : list string) (row : list cell) (name : string) :
  ~ In name cols ->
  List.filter (fun cv => String.eqb (fst cv) name) (combine cols row) = [].
Proof.
  revert row. induction cols as [|c cols IH]; intros row Hn; [reflexivity|].
  destruct row as [|v row]; [reflexivity|]. cbn.
  destruct (String.eqb_spec c name) as [->|_].
  - exfalso. apply Hn. left. reflexivity.
  - apply IH. intros Hin. apply Hn. right. exact Hin.
Qed.

Lemma select_one (cols : list string) (row : list cell) (name : string) :
  List.NoDup cols -> In name cols -> length row = length cols ->
  map snd (List.filter (fun cv => String.eqb (fst cv) name) (combine cols row))
  = [by_name cols row name].
Proof.
  unfold by_name, get_default.
  revert row. induction cols as [|c cols IH]; intros row Hnd Hin Hlen.
  - destruct Hin.
  - destruct row as [|v row]; [discriminate Hlen|].
    apply List.NoDup_cons_iff in Hnd as [Hc Hnd]. cbn.
    rewrite (String.eqb_sym name c).
    destruct (String.eqb_spec c name) as [->|Hne].
    + cbn. now rewrite filter_absent.
    + destruct Hin as [->|Hin]; [congruence|].
      apply IH; auto.
Qed.

Lemma select_by_name (cols features : list string) (row : list cell) :
  List.NoDup cols -> Forall (fun name => In name cols) features ->
  length row = length cols ->
  Fusion.select cols features row = map (by_name cols row) features.
Proof.
  intros Hnd Hall Hlen. unfold Fusion.select.
  induction Hall as [|name features Hin _ IH]; [reflexivity|].
  cbn [flat_map map]. rewrite IH, select_one by assumption. reflexivity.
Qed.

Lemma sensor_rows_prefix (df : DataFrame) (fc : dict (list string))
      (features : list string) :
  get fc "features" = Some features ->
  let cols := columns (Fusion.standardize_columns df) in
  let available := List.filter (fun col => Fusion.mem col cols) features in
  let readings := map (Fusion.select cols available) (rows df) in
  available <> [] ->
  Fusion.selected_width cols available = length available ->
  exists padding,
    Fusion.sensor_rows df fc = Ok (firstn 10 readings ++ padding).
Proof.
  intros Hget cols available readings Hav Hw.
  rewrite (sensor_rows_available df fc features Hget) by exact Hav.
  fold cols. fold available. fold readings. rewrite Hw.
  destruct (firstn 10 readings) as [|r kept].
  - rewrite vstack_zeros. eauto.
  - eauto.
Qed.

(** C7, amended.  predict.py compares no orders and rejects none: it looks
    the recorded feature names up in the table.  When the table holds every
    recorded name once, row [i] of the sequence lists the values of row [i]
    of the table under the recorded names, in recorded order, wherever the
    columns stand in the table. *)
Theorem sequence_ordered_by_recorded_names
        (df : DataFrame) (fc : dict (list string)) (features : list string) :
  get fc "features" = Some features ->
  let cols := columns (Fusion.standardize_columns df) in
  List.NoDup cols ->
  Forall (fun name => In name cols) features ->
  features <> [] ->
  Forall (fun row => length row = length cols) (rows df) ->
  exists sequence,
    Fusion.sensor_rows df fc = Ok sequence /\
    forall i row,
      (i < 10)%nat -> nth_error (rows df) i = Some row ->
      nth_error sequence i = Some (map (by_name cols row) features).
Proof.
  intros Hget cols Hnd Hall Hne Hrows.
  pose proof (all_available cols features Hall) as Hav.
  destruct (sensor_rows_prefix df fc features Hget) as [padding Hseq].
  { fold cols. rewrite Hav. exact Hne. }
  { fold cols. rewrite Hav. now apply selected_width_all. }
  fold cols in Hseq. rewrite Hav in Hseq.
  eexists. split; [exact Hseq|].
  intros i row Hi Hnth.
  assert (i < length (rows df))%nat as Hlt
    by (apply nth_error_Some; congruence).
  rewrite nth_error_app1
    by (rewrite length_firstn, length_map; lia).
  rewrite nth_error_firstn.
  destruct (Nat.ltb_spec i 10) as [_|]; [|lia].
  rewrite nth_error_map, Hnth. cbn [option_map]. f_equal.
  apply select_by_name; [exact Hnd | exact Hall |].
  apply nth_error_In in Hnth.
  rewrite List.Forall_forall in Hrows. apply Hrows. exact Hnth.
Qed.

Lemma sequence_ordered_by_recorded_names_witness :
  get recorded_config "features" = Some recorded_columns /\
  List.NoDup (columns (Fusion.standardize_columns (reading_csv reading_A))) /\
  Forall (fun name =>
            In name (columns (Fusion.standardize_columns
                                (reading_csv reading_A))))
         recorded_columns /\
  recorded_columns <> [] /\
  Forall (fun row =>
            length row
            = length (columns (Fusion.standardize_columns
                                 (reading_csv reading_A))))
         (rows (reading_csv reading_A)) /\
  exists sequence,
    Fusion.sensor_rows (reading_csv reading_A) recorded_config = Ok sequence /\
    nth_error sequence 0
    = Some [CFloat 7.1; CFloat 24; CFloat 280; CFloat 6.2; CFloat 1.5].
Proof.
  assert (get recorded_config "features" = Some recorded_columns) as H1
    by reflexivity.
  assert (List.NoDup
            (columns (Fusion.standardize_columns (reading_csv reading_A))))
    as H2.
  { vm_compute. repeat constructor; cbn; intuition discriminate. }
  assert (Forall (fun name =>
                    In name (columns (Fusion.standardize_columns
                                        (reading_csv reading_A))))
                 recorded_columns) as H3.
  { vm_compute. repeat (apply List.Forall_cons; [cbn; auto 10|]).
    apply List.Forall_nil. }
  assert (recorded_columns <> []) as H4 by discriminate.
  assert (Forall (fun row =>
                    length row
                    = length (columns (Fusion.standardize_columns
                                         (reading_csv reading_A))))
                 (rows (reading_csv reading_A))) as H5
    by (repeat constructor).
  repeat (split; [assumption|]).
  destruct (sequence_ordered_by_recorded_names (reading_csv reading_A)
              recorded_config recorded_columns H1 H2 H3 H4 H5)
    as (sequence & Hs & Hrow).
  exists sequence. split; [exact Hs|].
  apply (Hrow 0%nat
           [CFloat 7.1; CFloat 24; CFloat 280; CFloat 1.5; CFloat 6.2]);
    [lia | reflexivity].
Defined.

(** C7 as stated fails.  predict.py accepts a recorded order that is the
    reverse of the one it reads its positions in, raises nothing and
    reports the Turbidity value as pH. *)
Lemma mismatched_order_accepted :
  Fusion.preprocess_sensor_data no_str (Ok (reading_csv reading_A))
    plain_scaler reversed_config
  = Ok (repeat [1.5; 6.2; 280; 24; 7.1]%Q 10,
        [("pH", CFloat 1.5); ("Temperature", CFloat 6.2);
         ("TDS", CFloat 280); ("DO", CFloat 24); ("Turbidity", CFloat 7.1)]) /\
  ~ order_mismatch_rejected.
Proof.
  split; [vm_compute; reflexivity|].
  intros H.
  destruct (H no_str (Ok (reading_csv reading_A)) plain_scaler
              reversed_config
              ["Turbidity"; "DO"; "TDS"; "Temperature"; "pH"] eq_refl)
    as [e He]; [discriminate|].
  vm_compute in He. discriminate He.
Qed.

(** ** C8 *)


Lemma all_complete_insert (disk : gmap string S3.file) (path : string) :
  all_complete disk -> all_complete (<[path := S3.Complete]> disk).
Proof.
  intros H p c Hp. destruct (decide (path = p)) as [->|Hne].
  - rewrite lookup_insert_eq in Hp. congruence.
  - rewrite lookup_insert_ne in Hp by exact Hne. eapply H; eauto.
Qed.

Lemma working_download_atomic : atomic working_download.
Proof. intros bucket key dest disk H. now apply all_complete_insert. Qed.


Lemma download_each_warm bucket download (items : list (string * string))
      (w : S3.world) :
  (forall m, In m items -> is_Some (S3.files w !! S3.cache_path (snd m))) ->
  S3.download_each bucket download items w = (w, None).
Proof.
  induction items as [|[s3_file local_file] items IH]; intros H;
    [reflexivity|].
  cbn [S3.download_each]. unfold S3.exists_.
  destruct (H (s3_file, local_file)) as [content Hc]; [now left|].
  cbn [snd] in Hc. rewrite Hc.
  apply IH. intros m Hm. apply H. now right.
Qed.





(** * Further properties of the scripts *)

(** ** The rule-based scorers *)

Lemma getitem_ok {V} (d : dict V) (k : string) (v : V) :
  getitem d k = Ok v -> get d k = Some v.
Proof. unfold getitem. destruct (get d k); [congruence | discriminate]. Qed.

Lemma sensor_only_score_form (data : dict float) :
  SensorOnly.risk_score data =
  match get data "pH", get data "Temperature" with
  | None, _ => Raise (KeyError "pH")
  | Some _, None => Raise (KeyError "Temperature")
  | Some a, Some b =>
      Ok (pH_points a + temperature_points b
          + points_if_present tds_points (get data "TDS")
          + points_if_present turbidity_points (get data "Turbidity")
          + points_if_present do_points (get data "DO"))
  end.
Proof.
  unfold SensorOnly.risk_score, getitem, points_if_present, pH_points,
    temperature_points, tds_points, turbidity_points, do_points.
  destruct (get data "pH"), (get data "Temperature"), (get data "TDS"),
    (get data "Turbidity"), (get data "DO");
    cbn -[Z.add Qltb Qgtb orb]; try reflexivity;
    (if_cases; reflexivity).
Qed.

Lemma hybrid_score_form (data : dict float) (visual_risk : Z) :
  Hybrid.risk_score data visual_risk =
  match first_missing data canonical_names with
  | Some k => Raise (KeyError k)
  | None =>
      Ok (points_if_present pH_points (get data "pH")
          + points_if_present temperature_points (get data "Temperature")
          + points_if_present tds_points (get data "TDS")
          + points_if_present turbidity_points (get data "Turbidity")
          + points_if_present do_points (get data "DO") + visual_risk)
  end.
Proof.
  unfold Hybrid.risk_score, getitem, first_missing, has_key, canonical_names,
    points_if_present, pH_points,
    temperature_points, tds_points, turbidity_points, do_points.
  cbn [find].
  destruct (get data "pH"), (get data "Temperature"), (get data "TDS"),
    (get data "Turbidity"), (get data "DO");
    cbn -[Z.add Qltb Qgtb orb]; try reflexivity;
    (if_cases; reflexivity).
Qed.

Lemma image_only_score_form (params : dict float) :
  ImageOnly.assess_risk_from_params params =
  match first_missing params canonical_names with
  | Some k => Raise (KeyError k)
  | None =>
      let score :=
        points_if_present pH_points (get params "pH")
        + points_if_present temperature_points (get params "Temperature")
        + points_if_present tds_points (get params "TDS")
        + points_if_present turbidity_points (get params "Turbidity")
        + points_if_present do_points (get params "DO") in
      Ok (if 6 <=? score then ("Unsafe", "High", score)
          else if 3 <=? score then ("Unsafe", "Medium", score)
          else ("Safe", "Low", score))
  end.
Proof.
  unfold ImageOnly.assess_risk_from_params, getitem, first_missing, has_key,
    canonical_names, points_if_present, pH_points, temperature_points,
    tds_points, turbidity_points, do_points.
  cbn [find].
  destruct (get params "pH"), (get params "Temperature"), (get params "TDS"),
    (get params "Turbidity"), (get params "DO");
    cbn -[Z.add Z.leb Qltb Qgtb orb]; try reflexivity;
    repeat match goal with
      | |- context [if ?b then _ else _] =>
          lazymatch b with
          | (_ <=? _)%Z => fail
          | _ => destruct b
          end
      end; reflexivity.
Qed.

Lemma points_range (x : float) :
  0 <= pH_points x <= 3 /\ 0 <= temperature_points x <= 3 /\
  0 <= tds_points x <= 3 /\ 0 <= turbidity_points x <= 3 /\
  0 <= do_points x <= 3.
Proof.
  unfold pH_points, temperature_points, tds_points, turbidity_points,
    do_points.
  repeat split; if_cases; lia.
Qed.

Lemma points_if_present_range (o : option float) :
  0 <= points_if_present pH_points o <= 3 /\
  0 <= points_if_present temperature_points o <= 3 /\
  0 <= points_if_present tds_points o <= 3 /\
  0 <= points_if_present turbidity_points o <= 3 /\
  0 <= points_if_present do_points o <= 3.
Proof.
  destruct o as [x|]; cbn; [apply points_range | lia].
Qed.

Lemma first_missing_none {V} (data : dict V) (keys : list string) :
  first_missing data keys = None ->
  forall k, In k keys -> exists v, get data k = Some v.
Proof.
  unfold first_missing, has_key. intros H k Hk.
  pose proof (find_none _ _ H k Hk) as Hn. cbn in Hn.
  destruct (get data k); [eauto | discriminate].
Qed.

(** X1.  Whenever the hybrid scorer returns, its score is the score of the
    sensor-only scorer on the same dict plus the visual increment, and the
    sensor part lies between 0 and 15. *)
Theorem hybrid_score_adds_visual_risk
        (data : dict float) (visual_risk score : Z) :
  Hybrid.risk_score data visual_risk = Ok score ->
  SensorOnly.risk_score data = Ok (score - visual_risk) /\
  0 <= score - visual_risk <= 15.
Proof.
  rewrite hybrid_score_form, sensor_only_score_form.
  destruct (first_missing data canonical_names) eqn:Hm; [discriminate|].
  intros [= <-].
  destruct (first_missing_none _ _ Hm "pH") as [a ->]; [cbn; auto|].
  destruct (first_missing_none _ _ Hm "Temperature") as [b ->];
    [cbn; auto|].
  cbn [points_if_present].
  pose proof (points_range a) as (? & _).
  pose proof (points_range b) as (_ & ? & _).
  pose proof (points_if_present_range (get data "TDS")) as (_ & _ & ? & _).
  pose proof (points_if_present_range (get data "Turbidity"))
    as (_ & _ & _ & ? & _).
  pose proof (points_if_present_range (get data "DO"))
    as (_ & _ & _ & _ & ?).
  split; [f_equal; lia | lia].
Qed.

Lemma hybrid_score_adds_visual_risk_witness :
  Hybrid.risk_score (reading_dict reading_B) 4 = Ok 17 /\
  SensorOnly.risk_score (reading_dict reading_B) = Ok (17 - 4) /\
  0 <= 17 - 4 <= 15.
Proof.
  assert (Hybrid.risk_score (reading_dict reading_B) 4 = Ok 17) as H
    by (vm_compute; reflexivity).
  split; [exact H|].
  exact (hybrid_score_adds_visual_risk (reading_dict reading_B) 4 17 H).
Defined.

(** X2.  A scorer raises [KeyError] for the first key it needs and does not
    find: the sensor-only scorer needs pH and Temperature only, and scores
    the dict without TDS, Turbidity or DO; the hybrid and the image-only
    scorer need all five, in the order pH, Temperature, TDS, Turbidity,
    DO. *)
Theorem scorers_raise_on_first_missing_key
        (data : dict float) (visual_risk : Z) :
  match first_missing data ["pH"; "Temperature"] with
  | Some k => SensorOnly.assess_risk_from_sensor data = Raise (KeyError k)
  | None => exists out, SensorOnly.assess_risk_from_sensor data = Ok out
  end /\
  match first_missing data canonical_names with
  | Some k =>
      Hybrid.assess_risk data visual_risk = Raise (KeyError k) /\
      ImageOnly.assess_risk_from_params data = Raise (KeyError k)
  | None =>
      (exists out, Hybrid.assess_risk data visual_risk = Ok out) /\
      (exists out, ImageOnly.assess_risk_from_params data = Ok out)
  end.
Proof.
  unfold SensorOnly.assess_risk_from_sensor, Hybrid.assess_risk.
  rewrite sensor_only_score_form, hybrid_score_form, image_only_score_form.
  split.
  - unfold first_missing, has_key. cbn [find].
    destruct (get data "pH"); [|reflexivity].
    destruct (get data "Temperature"); [|reflexivity].
    cbn. if_cases; eauto.
  - destruct (first_missing data canonical_names); [split; reflexivity|].
    cbn. split; [if_cases; eauto | eauto].
Qed.

(** X5.  A larger visual increment never lowers the outcome of the hybrid
    scorer: the risk level stays or rises, and Unsafe stays Unsafe. *)
Theorem visual_risk_never_lowers_the_level
        (data : dict float) (v v' : Z) (q k : string) (c : Z) :
  v <= v' ->
  Hybrid.assess_risk data v = Ok (q, k, c) ->
  exists q' k' c',
    Hybrid.assess_risk data v' = Ok (q', k', c') /\
    severity k <= severity k' /\
    (q = "Unsafe" -> q' = "Unsafe").
Proof.
  unfold Hybrid.assess_risk. rewrite !hybrid_score_form.
  destruct (first_missing data canonical_names); [discriminate|].
  cbn [mbind exn_bind].
  match goal with |- context [(6 <=? ?s + v)] => generalize s end.
  intros s Hle.
  destruct (Z.leb_spec 6 (s + v)), (Z.leb_spec 3 (s + v)),
    (Z.leb_spec 6 (s + v')), (Z.leb_spec 3 (s + v'));
    try lia; intros [= <- <- <-]; do 3 eexists;
    (split; [reflexivity|]); split; cbn; try lia; try reflexivity;
    try discriminate.
Qed.

Lemma visual_risk_never_lowers_the_level_witness :
  0 <= 4 /\
  Hybrid.assess_risk (reading_dict reading_A) 0 = Ok ("Safe", "Low", 97) /\
  exists q' k' c',
    Hybrid.assess_risk (reading_dict reading_A) 4 = Ok (q', k', c') /\
    severity "Low" <= severity k' /\
    ("Safe" = "Unsafe" -> q' = "Unsafe").
Proof.
  assert (0 <= 4) as H1 by lia.
  assert (Hybrid.assess_risk (reading_dict reading_A) 0
          = Ok ("Safe", "Low", 97)) as H2 by (vm_compute; reflexivity).
  split; [exact H1|]. split; [exact H2|].
  exact (visual_risk_never_lowers_the_level (reading_dict reading_A) 0 4
           "Safe" "Low" 97 H1 H2).
Defined.

(** ** The documents of the rule-based scripts *)

Lemma sensor_only_outcomes (data : dict float) (q k : string) (c : Z) :
  SensorOnly.assess_risk_from_sensor data = Ok (q, k, c) ->
  In (q, k, c) [("Unsafe", "High", 92); ("Unsafe", "Medium", 88);
                ("Safe", "Low", 95)].
Proof.
  unfold SensorOnly.assess_risk_from_sensor. intros H. exn_inv;
    simplify_eq; cbn; auto.
Qed.

Lemma hybrid_outcomes (data : dict float) (v : Z) (q k : string) (c : Z) :
  Hybrid.assess_risk data v = Ok (q, k, c) ->
  In (q, k, c) [("Unsafe", "High", 95); ("Unsafe", "Medium", 92);
                ("Safe", "Low", 97)].
Proof.
  unfold Hybrid.assess_risk. intros H. exn_inv;
    simplify_eq; cbn; auto.
Qed.

Lemma image_only_outcomes (params : dict float) (q k : string) (s : Z) :
  ImageOnly.assess_risk_from_params params = Ok (q, k, s) ->
  In (q, k) label_pairs /\ 0 <= s <= 15 /\
  (q = "Unsafe" <-> 3 <= s) /\ (k = "High" <-> 6 <= s).
Proof.
  rewrite image_only_score_form.
  destruct (first_missing params canonical_names); [discriminate|].
  cbn zeta.
  pose proof (points_if_present_range (get params "pH")) as (? & _).
  pose proof (points_if_present_range (get params "Temperature"))
    as (_ & ? & _).
  pose proof (points_if_present_range (get params "TDS")) as (_ & _ & ? & _).
  pose proof (points_if_present_range (get params "Turbidity"))
    as (_ & _ & _ & ? & _).
  pose proof (points_if_present_range (get params "DO"))
    as (_ & _ & _ & _ & ?).
  match goal with |- context [(6 <=? ?e)%Z] => set (score := e) in * end.
  destruct (Z.leb_spec 6 score); [|destruct (Z.leb_spec 3 score)];
    intros [= <- <- <-]; cbn; unfold score;
    (split; [auto|]); (split; [lia|]);
    split; split; intros; try reflexivity; try lia; discriminate.
Qed.

Lemma sensor_only_document (data : dict float) (result : json) :
  SensorOnly.build_result data = Ok result ->
  exists q k c,
    SensorOnly.assess_risk_from_sensor data = Ok (q, k, c) /\
    field result "water_quality" = Some (JStr q) /\
    field result "risk_level" = Some (JStr k) /\
    confidence_of result "quality" = Some (JInt c) /\
    confidence_of result "risk" = Some (JInt (c - 3)) /\
    field result "sensor_readings"
    = Some (JObj (map (fun kv => (fst kv, JFloat (snd kv))) data)).
Proof.
  unfold SensorOnly.build_result. intros H. exn_inv. subst result.
  do 3 eexists. repeat split; eassumption.
Qed.

Lemma hybrid_document (data : dict float) (v : Z) (result : json) :
  Hybrid.build_result data v = Ok result ->
  exists q k c,
    Hybrid.assess_risk data v = Ok (q, k, c) /\
    field result "water_quality" = Some (JStr q) /\
    field result "risk_level" = Some (JStr k) /\
    confidence_of result "quality" = Some (JInt c) /\
    confidence_of result "risk" = Some (JInt (c - 2)) /\
    field result "sensor_readings"
    = Some (JObj (map (fun kv => (fst kv, JFloat (snd kv))) data)).
Proof.
  unfold Hybrid.build_result. intros H. exn_inv. subst result.
  do 3 eexists. repeat split; eassumption.
Qed.

Lemma image_only_document imread (image_path : string) (result : json) :
  ImageOnly.predict_from_image imread image_path = Success result ->
  exists params q k s,
    ImageOnly.analyze_image_features imread image_path = Some params /\
    ImageOnly.assess_risk_from_params params = Ok (q, k, s) /\
    field result "water_quality" = Some (JStr q) /\
    field result "risk_level" = Some (JStr k) /\
    confidence_of result "quality" = Some (JInt (Z.min 95 (70 + s * 3))) /\
    confidence_of result "risk" = Some (JInt (Z.min 95 (70 + s * 3) - 5)).
Proof.
  unfold ImageOnly.predict_from_image. intros H. exn_inv.
  injection H as <-. subst.
  do 4 eexists. repeat split; eassumption.
Qed.

Lemma sensor_only_success f csv result :
  SensorOnly.predict_from_sensor f csv = Success result ->
  exists df data,
    csv = Ok df /\ rows df <> [] /\
    SensorOnly.standardize_all f [] (iloc_last_to_dict df) = Ok data /\
    SensorOnly.build_result (SensorOnly.fill_defaults data) = Ok result.
Proof.
  unfold SensorOnly.predict_from_sensor. intros H.
  destruct csv as [df|e]; [|discriminate H].
  destruct (0 <? len df) eqn:Hl; [|discriminate H].
  destruct (SensorOnly.standardize_all f [] (iloc_last_to_dict df))
    as [data|e] eqn:Hd; [|discriminate H].
  cbn [mbind exn_bind] in H.
  destruct (SensorOnly.build_result (SensorOnly.fill_defaults data))
    as [r|e] eqn:Hb; [|discriminate H].
  injection H as <-. exists df, data. repeat split; try assumption.
  intros Hr. unfold len in Hl. rewrite Hr in Hl. discriminate Hl.
Qed.

Lemma hybrid_success f imread image_path csv result :
  Hybrid.predict f imread image_path csv = Success result ->
  exists df data,
    csv = Ok df /\ rows df <> [] /\
    Hybrid.standardize_all f [] (iloc_last_to_dict df) = Ok data /\
    Hybrid.build_result (Hybrid.fill_defaults data)
      (if String.eqb image_path "" then 0
       else Hybrid.analyze_image imread image_path) = Ok result.
Proof.
  unfold Hybrid.predict, Hybrid.read_sensor_data. intros H.
  destruct csv as [df|e]; [|discriminate H].
  destruct (len df =? 0) eqn:Hl; [discriminate H|].
  destruct (Hybrid.standardize_all f [] (iloc_last_to_dict df)) as [data|e]
    eqn:Hd; [|discriminate H].
  destruct (Hybrid.fill_defaults data) as [|kv rest] eqn:Hf;
    [discriminate H|].
  exn_inv. injection H as <-.
  exists df, data. repeat split; try assumption.
  - intros Hr. unfold len in Hl. rewrite Hr in Hl. discriminate Hl.
  - rewrite Hf. assumption.
Qed.

(** X3.  Every document a rule-based script prints carries one of the three
    label pairs Safe/Low, Unsafe/Medium, Unsafe/High, and two integer
    confidences: the risk confidence is strictly below the quality
    confidence, is at least 65, and the quality confidence is at most 97. *)
Theorem rule_based_document_is_well_formed (s : script) (result : json) :
  prediction s (Success result) ->
  rule_based s = true ->
  exists q k cq cr,
    field result "water_quality" = Some (JStr q) /\
    field result "risk_level" = Some (JStr k) /\
    In (q, k) label_pairs /\
    confidence_of result "quality" = Some (JInt cq) /\
    confidence_of result "risk" = Some (JInt cr) /\
    65 <= cr < cq /\ cq <= 97.
Proof.
  intros H Hs. remember (Success result) as o eqn:Ho.
  destruct H; try discriminate Hs.
  - apply sensor_only_success in Ho as (df & data & _ & _ & _ & Hb).
    apply sensor_only_document in Hb as (q & k & c & Ha & ? & ? & ? & ? & _).
    apply sensor_only_outcomes in Ha.
    exists q, k, c, (c - 3).
    cbn in Ha. destruct Ha as [Ha|[Ha|[Ha|[]]]]; simplify_eq;
      repeat split; cbn; auto; lia.
  - apply image_only_document in Ho
      as (params & q & k & sc & _ & Ha & ? & ? & ? & ?).
    apply image_only_outcomes in Ha as (Hin & Hsc & _).
    exists q, k, (Z.min 95 (70 + sc * 3)), (Z.min 95 (70 + sc * 3) - 5).
    repeat split; auto; lia.
  - apply hybrid_success in Ho as (df & data & _ & _ & _ & Hb).
    apply hybrid_document in Hb as (q & k & c & Ha & ? & ? & ? & ? & _).
    apply hybrid_outcomes in Ha.
    exists q, k, c, (c - 2).
    cbn in Ha. destruct Ha as [Ha|[Ha|[Ha|[]]]]; simplify_eq;
      repeat split; cbn; auto; lia.
Qed.

Lemma rule_based_document_is_well_formed_witness :
  exists result,
    Hybrid.predict no_str read_green_blurred "pond.jpg"
      (Ok (reading_csv reading_A)) = Success result /\
    rule_based Hybrid_rules = true /\
    exists q k cq cr,
      field result "water_quality" = Some (JStr q) /\
      field result "risk_level" = Some (JStr k) /\
      In (q, k) label_pairs /\
      confidence_of result "quality" = Some (JInt cq) /\
      confidence_of result "risk" = Some (JInt cr) /\
      65 <= cr < cq /\ cq <= 97.
Proof.
  eexists. split; [vm_compute; reflexivity|]. split; [reflexivity|].
  apply (rule_based_document_is_well_formed Hybrid_rules);
    [|reflexivity].
  exact (run_hybrid no_str read_green_blurred "pond.jpg"
           (Ok (reading_csv reading_A))).
Defined.

(** X6.  The visual increment of the hybrid script lies between 0 and 4.
    It is 0 for a picture that cannot be read; for a picture that can, it is
    4 exactly when the green ratio exceeds 0.3 and the Laplacian variance is
    below 50, and 0 exactly when the green ratio is at most 0.15 and the
    Laplacian variance at least 100. *)
Theorem visual_risk_range (imread : string -> option image)
        (image_path : string) :
  0 <= Hybrid.analyze_image imread image_path <= 4 /\
  match imread image_path with
  | None => Hybrid.analyze_image imread image_path = 0
  | Some img =>
      (Hybrid.analyze_image imread image_path = 4
       <-> (0.3 < green_ratio img)%Q /\ (laplacian_var img < 50)%Q) /\
      (Hybrid.analyze_image imread image_path = 0
       <-> (green_ratio img <= 0.15)%Q /\ (100 <= laplacian_var img)%Q)
  end.
Proof.
  unfold Hybrid.analyze_image. destruct (imread image_path) as [img|].
  - cmp_cases; cbn; repeat split; intros; try lia; try lra;
      try (destruct H; lra).
  - cbn. lia.
Qed.

Lemma hybrid_normalizer_is_sensor_only_normalizer f items data :
  Hybrid.standardize_all f data items = SensorOnly.standardize_all f data items
  /\ Hybrid.fill_defaults data = SensorOnly.fill_defaults data.
Proof. split; reflexivity. Qed.

Lemma hybrid_build_result (data : dict float) (v : Z) :
  exists result,
    Hybrid.build_result (Hybrid.fill_defaults data) v = Ok result.
Proof.
  destruct (sensor_only_defaults data) as (H1 & H2 & H3 & H4 & H5).
  change (SensorOnly.fill_defaults data) with (Hybrid.fill_defaults data)
    in *.
  unfold Hybrid.build_result, Hybrid.assess_risk, Hybrid.risk_score, getitem.
  cbn zeta in *. rewrite H1, H2, H3, H4, H5. cbn [mbind mret exn_bind exn_ret].
  match goal with |- context [(6 <=? ?e)%Z] => generalize e end. intros score.
  destruct (6 <=? score); [|destruct (3 <=? score)]; cbn; eauto.
Qed.

Lemma filled_is_not_empty (data : dict float) : Hybrid.fill_defaults data <> [].
Proof.
  destruct (sensor_only_defaults data) as (H1 & _).
  change (SensorOnly.fill_defaults data) with (Hybrid.fill_defaults data)
    in *.
  cbn zeta in H1. intros E. rewrite E in H1. discriminate H1.
Qed.

(** X9.  Without an image the hybrid script agrees with the sensor-only
    script on every table: both fail, or both succeed with the same
    water_quality, risk_level, sensor_readings and parameters entries. *)
Theorem hybrid_without_image_agrees_with_sensor_only
        (f : string -> option float) (imread : string -> option image)
        (csv : exn DataFrame) :
  match SensorOnly.predict_from_sensor f csv,
        Hybrid.predict f imread "" csv with
  | Success a, Success b =>
      Forall (fun key => field a key = field b key)
             ["water_quality"; "risk_level"; "sensor_readings"; "parameters"]
  | Failure _ _, Failure _ _ => True
  | _, _ => False
  end.
Proof.
  unfold SensorOnly.predict_from_sensor, Hybrid.predict,
    Hybrid.read_sensor_data.
  destruct csv as [df|e]; [|exact I].
  assert ((0 <? len df) = negb (len df =? 0)) as ->.
  { unfold len. destruct (rows df); [reflexivity|]. cbn [length].
    destruct (Z.ltb_spec 0 (Z.of_nat (S (length l)))),
      (Z.eqb_spec (Z.of_nat (S (length l))) 0); try reflexivity; lia. }
  destruct (len df =? 0); [exact I|]. cbn [negb].
  change (Hybrid.standardize_all f [] (iloc_last_to_dict df))
    with (SensorOnly.standardize_all f [] (iloc_last_to_dict df)).
  destruct (SensorOnly.standardize_all f [] (iloc_last_to_dict df))
    as [data|e]; [|exact I].
  cbn [mbind exn_bind String.eqb].
  pose proof (filled_is_not_empty data) as Hne.
  destruct (sensor_only_defaults data) as (H1 & H2 & H3 & H4 & H5).
  cbn zeta in H1, H2, H3, H4, H5.
  change (Hybrid.fill_defaults data) with (SensorOnly.fill_defaults data)
    in *.
  destruct (SensorOnly.fill_defaults data) as [|kv rest] eqn:Hf;
    [congruence|]. rewrite <- Hf in *. clear Hf kv rest Hne.
  set (d := SensorOnly.fill_defaults data) in *.
  unfold SensorOnly.build_result, Hybrid.build_result,
    SensorOnly.assess_risk_from_sensor, Hybrid.assess_risk.
  rewrite sensor_only_score_form, hybrid_score_form.
  unfold first_missing, has_key, canonical_names, getitem. cbn [find].
  rewrite H1, H2, H3, H4, H5. cbn [negb points_if_present mbind exn_bind].
  rewrite Z.add_0_r.
  match goal with |- context [(6 <=? ?e)%Z] => generalize e end. intros score.
  destruct (6 <=? score); [|destruct (3 <=? score)]; cbn;
    repeat constructor.
Qed.

(** X8.  A picture that cannot be read makes the image-only script fail
    with "Failed to process image", while the hybrid script answers as if no
    picture had been given. *)
Theorem unreadable_image_is_no_image
        (f : string -> option float) (imread : string -> option image)
        (image_path : string) (csv : exn DataFrame) :
  imread image_path = None ->
  ImageOnly.predict_from_image imread image_path
  = Failure "Failed to process image" None /\
  Hybrid.predict f imread image_path csv = Hybrid.predict f imread "" csv.
Proof.
  intros H. split.
  - unfold ImageOnly.predict_from_image, ImageOnly.analyze_image_features.
    now rewrite H.
  - unfold Hybrid.predict, Hybrid.analyze_image. rewrite H.
    destruct (String.eqb image_path ""); reflexivity.
Qed.

Lemma unreadable_image_is_no_image_witness :
  no_image "pond.jpg" = None /\
  ImageOnly.predict_from_image no_image "pond.jpg"
  = Failure "Failed to process image" None /\
  Hybrid.predict no_str no_image "pond.jpg" (Ok (reading_csv reading_B))
  = Hybrid.predict no_str no_image "" (Ok (reading_csv reading_B)).
Proof.
  assert (no_image "pond.jpg" = None) as H by reflexivity.
  split; [exact H|].
  exact (unreadable_image_is_no_image no_str no_image "pond.jpg"
           (Ok (reading_csv reading_B)) H).
Defined.



(** X11.  On a reading inside the five normal bands a picture alone never
    takes the hybrid script to High: the script succeeds, and the water is
    Unsafe exactly when the visual increment is 3 or 4. *)
Theorem image_on_a_normal_reading
        (f : string -> option float) (imread : string -> option image)
        (image_path : string) (r : SensorReading) :
  in_normal_bands r ->
  image_path <> "" ->
  exists result k,
    Hybrid.predict f imread image_path (Ok (reading_csv r)) = Success result /\
    field result "risk_level" = Some (JStr k) /\
    k <> "High" /\
    (field result "water_quality" = Some (JStr "Unsafe")
     <-> 3 <= Hybrid.analyze_image imread image_path).
Proof.
  intros Hn Hp. apply normal_bands_no_points in Hn.
  assert (0 <= Hybrid.analyze_image imread image_path <= 4) as Hv
    by (unfold Hybrid.analyze_image; destruct (imread image_path);
        [cmp_cases; cbn; lia | cbn; lia]).
  change (Hybrid.predict f imread image_path (Ok (reading_csv r)))
    with (match Hybrid.build_result (reading_dict r)
                  (if String.eqb image_path "" then 0
                   else Hybrid.analyze_image imread image_path) with
          | Ok result => Success result
          | Raise e => Failure "Prediction error: " (Some e)
          end).
  destruct (String.eqb_spec image_path ""); [contradiction|].
  set (v := Hybrid.analyze_image imread image_path) in *.
  unfold Hybrid.build_result, Hybrid.assess_risk.
  rewrite hybrid_score, Hn. cbn [mbind exn_bind]. rewrite Z.add_0_l.
  destruct (Z.leb_spec 6 v); [lia|].
  destruct (Z.leb_spec 3 v); cbn; do 2 eexists;
    (split; [reflexivity|]); (split; [reflexivity|]);
    (split; [discriminate|]); split; intros; try reflexivity; try lia;
    discriminate.
Qed.

Lemma image_on_a_normal_reading_witness :
  in_normal_bands reading_A /\ "pond.jpg" <> "" /\
  exists result k,
    Hybrid.predict no_str read_green_blurred "pond.jpg"
      (Ok (reading_csv reading_A)) = Success result /\
    field result "risk_level" = Some (JStr k) /\
    k <> "High" /\
    (field result "water_quality" = Some (JStr "Unsafe")
     <-> 3 <= Hybrid.analyze_image read_green_blurred "pond.jpg").
Proof.
  assert (in_normal_bands reading_A) as H1
    by (unfold in_normal_bands; cbn; repeat split; lra).
  assert ("pond.jpg" <> "") as H2 by discriminate.
  split; [exact H1|]. split; [exact H2|].
  exact (image_on_a_normal_reading no_str read_green_blurred "pond.jpg"
           reading_A H1 H2).
Defined.

(** X7.  The estimates of the image-only script from a readable picture:
    Turbidity lies in [0, 10], TDS in [300, 600], DO is at least 3; the
    scorer returns on them with a score of at most 9, and of at most 7 when
    the green ratio lies in [0, 1]. *)
Theorem image_estimates_stay_in_range
        (imread : string -> option image) (image_path : string) (img : image) :
  imread image_path = Some img ->
  exists params turbidity tds do q k s,
    ImageOnly.analyze_image_features imread image_path = Some params /\
    get params "Turbidity" = Some turbidity /\
    get params "TDS" = Some tds /\
    get params "DO" = Some do /\
    (0 <= turbidity <= 10)%Q /\ (300 <= tds <= 600)%Q /\ (3 <= do)%Q /\
    ImageOnly.assess_risk_from_params params = Ok (q, k, s) /\
    0 <= s <= 9 /\
    ((0 <= green_ratio img <= 1)%Q -> s <= 7).
Proof.
  intros Him.
  set (t := ImageOnly.py_max 0
              (ImageOnly.py_min 10 ((100 - laplacian_var img) / 10))%Q).
  set (r := {| pH := 7 + green_ratio img * 2;
               Temperature := 20 + brightness img / 10;
               TDS := 300 + t * 30;
               Turbidity := t;
               DO := ImageOnly.py_max 3 (8 - green_ratio img * 5) |}).
  assert (ImageOnly.analyze_image_features imread image_path
          = Some (reading_dict r)) as Ha
    by (unfold ImageOnly.analyze_image_features; now rewrite Him).
  assert (0 <= t <= 10)%Q as Ht.
  { unfold t, ImageOnly.py_max, ImageOnly.py_min.
    pose proof (tenth (100 - laplacian_var img)) as Hq.
    set (q := ((100 - laplacian_var img) / 10)%Q) in *. clearbody q.
    cmp_cases; split; lra. }
  assert (3 <= DO r)%Q as Hd
    by (cbn [DO r]; unfold ImageOnly.py_max; cmp_cases; lra).
  assert (turbidity_points (Turbidity r) <= 1) as H1.
  { cbn [Turbidity r]. unfold turbidity_points.
    cmp_cases; cbn; try lia; exfalso; lra. }
  assert (tds_points (TDS r) <= 1) as H2.
  { cbn [TDS r]. unfold tds_points. cmp_cases; cbn; try lia; exfalso; lra. }
  assert (do_points (DO r) <= 1) as H3.
  { unfold do_points. cmp_cases; cbn; try lia; exfalso; lra. }
  assert ((0 <= green_ratio img <= 1)%Q -> pH_points (pH r) <= 1) as H4.
  { intros Hg. cbn [pH r]. unfold pH_points.
    cmp_cases; cbn; try lia; exfalso; lra. }
  pose proof (points_range (pH r)) as (H5 & _).
  pose proof (points_range (Temperature r)) as (_ & H6 & _).
  pose proof (points_range (TDS r)) as (_ & _ & H7 & _).
  pose proof (points_range (Turbidity r)) as (_ & _ & _ & H8 & _).
  pose proof (points_range (DO r)) as (_ & _ & _ & _ & H9).
  exists (reading_dict r), (Turbidity r), (TDS r), (DO r).
  rewrite image_only_score. unfold points.
  set (s := pH_points (pH r) + _ + _ + _ + _) in *.
  assert (0 <= s <= 9 /\ ((0 <= green_ratio img <= 1)%Q -> s <= 7))
    as [Hs Hs'].
  { unfold s. split; [lia|]. intros Hg. specialize (H4 Hg). lia. }
  clearbody s.
  destruct (6 <=? s); [|destruct (3 <=? s)]; do 3 eexists;
    repeat (split; [first [reflexivity | assumption | cbn; lra]|]);
    assumption.
Qed.

Lemma image_estimates_stay_in_range_witness :
  read_green_blurred "pond.jpg" = Some green_blurred /\
  exists params turbidity tds do q k s,
    ImageOnly.analyze_image_features read_green_blurred "pond.jpg"
    = Some params /\
    get params "Turbidity" = Some turbidity /\
    get params "TDS" = Some tds /\
    get params "DO" = Some do /\
    (0 <= turbidity <= 10)%Q /\ (300 <= tds <= 600)%Q /\ (3 <= do)%Q /\
    ImageOnly.assess_risk_from_params params = Ok (q, k, s) /\
    0 <= s <= 9 /\
    ((0 <= green_ratio green_blurred <= 1)%Q -> s <= 7).
Proof.
  assert (read_green_blurred "pond.jpg" = Some green_blurred) as H
    by reflexivity.
  split; [exact H|].
  exact (image_estimates_stay_in_range read_green_blurred "pond.jpg"
           green_blurred H).
Defined.

(** ** The normalizer of the rule-based scripts *)

Lemma standardize_recognised (f : string -> option float) (data : dict float)
      (key : string) (value : cell) :
  SensorOnly.standardize f data (key, value) =
  match recognised key with
  | Some p =>
      v ← SensorOnly.float_or f value (default_of p);
      mret (setitem data (name_of p) v)
  | None => Ok data
  end.
Proof.
  unfold SensorOnly.standardize, recognised. cbv zeta.
  if_cases; reflexivity.
Qed.

Lemma standardize_all_app (f : string -> option float)
      (items items' : list (string * cell)) (data : dict float) :
  SensorOnly.standardize_all f data (items ++ items') =
  data' ← SensorOnly.standardize_all f data items;
  SensorOnly.standardize_all f data' items'.
Proof.
  revert data. induction items as [|item items IH]; intros data.
  - reflexivity.
  - cbn [app SensorOnly.standardize_all].
    destruct (SensorOnly.standardize f data item) as [d|e]; cbn; auto.
Qed.

Lemma name_of_inj (p q : parameter) : name_of p = name_of q -> p = q.
Proof. destruct p, q; cbn; intros H; try reflexivity; discriminate H. Qed.

Lemma standardize_all_last (f : string -> option float)
      (items : list (string * cell)) (d data : dict float) (p : parameter) :
  SensorOnly.standardize_all f d items = Ok data ->
  match find (taken_for p) (rev items) with
  | Some (_, value) =>
      SensorOnly.float_or f value (default_of p) = getitem data (name_of p)
  | None => get data (name_of p) = get d (name_of p)
  end.
Proof.
  revert data. induction items as [|[key value] items IH] using rev_ind;
    intros data H.
  - cbn in *. now injection H as <-.
  - rewrite standardize_all_app in H.
    destruct (SensorOnly.standardize_all f d items) as [d'|e] eqn:Hd;
      [|discriminate H].
    specialize (IH d' eq_refl).
    cbn [mbind exn_bind SensorOnly.standardize_all] in H.
    rewrite standardize_recognised in H.
    rewrite rev_app_distr. cbn [rev app find]. unfold taken_for at 1.
    cbn [fst].
    destruct (recognised key) as [q|].
    + destruct (SensorOnly.float_or f value (default_of q)) as [v|e] eqn:Hv;
        [|discriminate H].
      cbn in H. injection H as <-.
      destruct (String.eqb_spec (name_of q) (name_of p)) as [E|E].
      * apply name_of_inj in E. subst q. rewrite Hv.
        unfold getitem. rewrite get_setitem, String.eqb_refl. reflexivity.
      * assert (get (setitem d' (name_of q) v) (name_of p)
                = get d' (name_of p)) as Hg.
        { rewrite get_setitem.
          destruct (String.eqb_spec (name_of p) (name_of q)); [congruence|].
          reflexivity. }
        unfold getitem. rewrite Hg.
        destruct (find (taken_for p) (rev items)) as [[k c]|]; exact IH.
    + cbn in H. injection H as <-. exact IH.
Qed.

Lemma fill_defaults_get (data : dict float) (p : parameter) :
  get (SensorOnly.fill_defaults data) (name_of p)
  = Some (get_default data (name_of p) (default_of p)).
Proof.
  destruct (sensor_only_defaults data) as (H1 & H2 & H3 & H4 & H5).
  destruct p; assumption.
Qed.

(** X12.  The normalizer of the sensor-only and of the hybrid script: when
    it returns, each parameter holds the value of the last column, in table
    order, whose label is taken for that parameter (the documented default
    when that cell is blank), and the documented default when no label is
    taken for it. *)
Theorem last_recognised_column_wins
        (f : string -> option float) (items : list (string * cell))
        (data : dict float) (p : parameter) :
  SensorOnly.standardize_all f [] items = Ok data ->
  Hybrid.standardize_all f [] items = Ok data /\
  Hybrid.fill_defaults data = SensorOnly.fill_defaults data /\
  getitem (SensorOnly.fill_defaults data) (name_of p) =
  match find (taken_for p) (rev items) with
  | Some (_, value) => SensorOnly.float_or f value (default_of p)
  | None => Ok (default_of p)
  end.
Proof.
  intros H. split; [exact H|]. split; [reflexivity|].
  pose proof (standardize_all_last f items [] data p H) as Hl.
  unfold getitem at 1. rewrite fill_defaults_get. unfold get_default.
  destruct (find (taken_for p) (rev items)) as [[k c]|].
  - rewrite Hl. unfold getitem in *.
    destruct (get data (name_of p)); [reflexivity|].
    exfalso. destruct c; cbn in Hl; try discriminate Hl.
    destruct (f s); discriminate Hl.
  - rewrite Hl. reflexivity.
Qed.

Lemma last_recognised_column_wins_witness :
  SensorOnly.standardize_all no_str []
    [("Temp (C)", CInt 31); ("Water temperature", CNaN)]
  = Ok [("Temperature", 25%Q)] /\
  Hybrid.standardize_all no_str []
    [("Temp (C)", CInt 31); ("Water temperature", CNaN)]
  = Ok [("Temperature", 25%Q)] /\
  Hybrid.fill_defaults [("Temperature", 25%Q)]
  = SensorOnly.fill_defaults [("Temperature", 25%Q)] /\
  getitem (SensorOnly.fill_defaults [("Temperature", 25%Q)])
    (name_of P_Temperature) =
  match find (taken_for P_Temperature)
          (rev [("Temp (C)", CInt 31); ("Water temperature", CNaN)]) with
  | Some (_, value) =>
      SensorOnly.float_or no_str value (default_of P_Temperature)
  | None => Ok (default_of P_Temperature)
  end.
Proof.
  assert (SensorOnly.standardize_all no_str []
            [("Temp (C)", CInt 31); ("Water temperature", CNaN)]
          = Ok [("Temperature", 25%Q)]) as H by (vm_compute; reflexivity).
  split; [exact H|].
  exact (last_recognised_column_wins no_str
           [("Temp (C)", CInt 31); ("Water temperature", CNaN)]
           [("Temperature", 25%Q)] P_Temperature H).
Defined.

Lemma keys_setitem {V} (d : dict V) (k : string) (v : V) :
  map fst (setitem d k v)
  = if has_key d k then map fst d else map fst d ++ [k].
Proof.
  unfold has_key. induction d as [|[k0 v0] d IH]; cbn.
  - reflexivity.
  - destruct (String.eqb_spec k k0) as [->|Hk]; cbn; [reflexivity|].
    rewrite IH. destruct (get d k); reflexivity.
Qed.

Lemma has_key_in {V} (d : dict V) (k : string) :
  has_key d k = true <-> In k (map fst d).
Proof.
  unfold has_key. induction d as [|[k0 v0] d IH]; cbn.
  - split; [discriminate | tauto].
  - destruct (String.eqb_spec k k0) as [->|Hk].
    + split; auto.
    + rewrite IH. split; [auto | intros [E|E]; [congruence | exact E]].
Qed.

(** The keys of a dict stay distinct, and within [names], under an
    assignment to one of [names]. *)
Lemma keys_setitem_invariant {V} (d : dict V) (k : string) (v : V)
      (names : list string) :
  In k names ->
  List.NoDup (map fst d) /\ incl (map fst d) names ->
  List.NoDup (map fst (setitem d k v)) /\
  incl (map fst (setitem d k v)) names.
Proof.
  intros Hk [Hn Hi]. rewrite keys_setitem.
  destruct (has_key d k) eqn:E; [auto|]. split.
  - apply List.NoDup_app; [exact Hn | repeat constructor; auto |].
    intros x Hx [<-|[]]. apply has_key_in in Hx. congruence.
  - apply incl_app; [exact Hi|]. intros x [<-|[]]. exact Hk.
Qed.

Lemma standardize_keys (f : string -> option float)
      (items : list (string * cell)) (d data : dict float) :
  SensorOnly.standardize_all f d items = Ok data ->
  List.NoDup (map fst d) /\ incl (map fst d) canonical_names ->
  List.NoDup (map fst data) /\ incl (map fst data) canonical_names.
Proof.
  revert d. induction items as [|[key value] items IH]; intros d H Hd.
  - cbn in H. now injection H as <-.
  - cbn [SensorOnly.standardize_all] in H.
    rewrite standardize_recognised in H.
    destruct (recognised key) as [p|]; [|exact (IH _ H Hd)].
    destruct (SensorOnly.float_or f value (default_of p)) as [v|e];
      [|discriminate H].
    apply (IH _ H). apply keys_setitem_invariant; [|exact Hd].
    destruct p; cbn; auto 6.
Qed.

Lemma keys_fill_invariant {V} (d : dict V) (k : string) (v : V)
      (names : list string) :
  In k names ->
  List.NoDup (map fst d) /\ incl (map fst d) names ->
  List.NoDup (map fst (if has_key d k then d else setitem d k v)) /\
  incl (map fst (if has_key d k then d else setitem d k v)) names.
Proof.
  intros Hk Hd. destruct (has_key d k); [exact Hd|].
  now apply keys_setitem_invariant.
Qed.

Lemma fill_defaults_keys (data : dict float) :
  List.NoDup (map fst data) /\ incl (map fst data) canonical_names ->
  Permutation (map fst (SensorOnly.fill_defaults data)) canonical_names.
Proof.
  intros Hd.
  assert (List.NoDup (map fst (SensorOnly.fill_defaults data)) /\
          incl (map fst (SensorOnly.fill_defaults data)) canonical_names)
    as [Hn Hi].
  { unfold SensorOnly.fill_defaults. cbv zeta.
    do 5 (apply keys_fill_invariant; [cbn; auto 6|]). exact Hd. }
  apply Permutation.NoDup_Permutation; [exact Hn | |].
  - unfold canonical_names. repeat constructor; cbn; intuition discriminate.
  - intros k. split; [apply Hi|]. intros Hk.
    apply has_key_in. unfold has_key.
    destruct (sensor_only_defaults data) as (H1 & H2 & H3 & H4 & H5).
    cbn zeta in *.
    destruct Hk as [<-|[<-|[<-|[<-|[<-|[]]]]]];
      [rewrite H1 | rewrite H2 | rewrite H3 | rewrite H4 | rewrite H5];
      reflexivity.
Qed.

(** X4.  The sensor_readings entry of every sensor-only and hybrid result
    lists the five parameters pH, Temperature, TDS, Turbidity and DO, each
    once and nothing else, whatever columns the table has. *)
Theorem sensor_readings_lists_the_five_parameters
        (s : script) (result : json) :
  prediction s (Success result) ->
  s = Sensor_only \/ s = Hybrid_rules ->
  exists data : dict float,
    field result "sensor_readings"
    = Some (JObj (map (fun kv => (fst kv, JFloat (snd kv))) data)) /\
    Permutation (map fst data) canonical_names.
Proof.
  intros H Hs. remember (Success result) as o eqn:Ho.
  assert (List.NoDup (map fst (@nil (string * float))) /\
          incl (map fst (@nil (string * float))) canonical_names) as Hnil
    by (split; [constructor | intros x []]).
  destruct H; try (destruct Hs; discriminate).
  - apply sensor_only_success in Ho as (df & data & _ & _ & Hd & Hb).
    apply sensor_only_document in Hb as (q & k & c & _ & _ & _ & _ & _ & Hr).
    exists (SensorOnly.fill_defaults data). split; [exact Hr|].
    apply fill_defaults_keys. exact (standardize_keys _ _ _ _ Hd Hnil).
  - apply hybrid_success in Ho as (df & data & _ & _ & Hd & Hb).
    apply hybrid_document in Hb as (q & k & c & _ & _ & _ & _ & _ & Hr).
    exists (Hybrid.fill_defaults data). split; [exact Hr|].
    apply fill_defaults_keys. exact (standardize_keys _ _ _ _ Hd Hnil).
Qed.

Lemma sensor_readings_lists_the_five_parameters_witness :
  exists result,
    SensorOnly.predict_from_sensor no_str (Ok table_short) = Success result /\
    (Sensor_only = Sensor_only \/ Sensor_only = Hybrid_rules) /\
    exists data : dict float,
      field result "sensor_readings"
      = Some (JObj (map (fun kv => (fst kv, JFloat (snd kv))) data)) /\
      Permutation (map fst data) canonical_names.
Proof.
  eexists. split; [vm_compute; reflexivity|].
  split; [left; reflexivity|].
  apply (sensor_readings_lists_the_five_parameters Sensor_only);
    [|left; reflexivity].
  exact (run_sensor_only no_str (Ok table_short)).
Defined.

Lemma standardize_all_outcome (f : string -> option float)
      (items : list (string * cell)) (d : dict float) :
  match find (unparsable f) items with
  | Some (_, value) =>
      exists text, value = CStr text /\
                   SensorOnly.standardize_all f d items
                   = Raise (ValueError text)
  | None => exists data, SensorOnly.standardize_all f d items = Ok data
  end.
Proof.
  revert d. induction items as [|[key value] items IH]; intros d.
  - cbn. eauto.
  - cbn [find SensorOnly.standardize_all]. rewrite standardize_recognised.
    unfold unparsable at 1. cbn [fst snd].
    destruct (recognised key) as [p|]; [|destruct value; apply IH].
    destruct value as [z|x| |text]; cbn [SensorOnly.float_or mbind exn_bind];
      try apply IH.
    destruct (f text); [apply IH|]. eauto.
Qed.

(** X13.  On a table with at least one row the sensor-only and the hybrid
    script fail exactly when the last row holds, under a label taken for a
    parameter, text that is no number: the sensor-only script reports the
    ValueError of the first such cell, the hybrid script reports "Failed to
    read sensor data from CSV".  Text under any other label is ignored. *)
Theorem text_under_a_recognised_label_fails
        (f : string -> option float) (imread : string -> option image)
        (image_path : string) (df : DataFrame) :
  rows df <> [] ->
  match find (unparsable f) (iloc_last_to_dict df) with
  | Some (_, value) =>
      exists text,
        value = CStr text /\
        SensorOnly.predict_from_sensor f (Ok df)
        = Failure "Prediction error: " (Some (ValueError text)) /\
        Hybrid.predict f imread image_path (Ok df)
        = Failure "Failed to read sensor data from CSV" None
  | None =>
      exists a b,
        SensorOnly.predict_from_sensor f (Ok df) = Success a /\
        Hybrid.predict f imread image_path (Ok df) = Success b
  end.
Proof.
  intros Hr.
  assert ((0 <? len df) = true /\ (len df =? 0) = false) as [H1 H2].
  { unfold len. destruct (rows df); [congruence|]. cbn [length].
    split; [apply Z.ltb_lt | apply Z.eqb_neq]; lia. }
  unfold SensorOnly.predict_from_sensor, Hybrid.predict,
    Hybrid.read_sensor_data.
  rewrite H1, H2.
  change (Hybrid.standardize_all f [] (iloc_last_to_dict df))
    with (SensorOnly.standardize_all f [] (iloc_last_to_dict df)).
  pose proof (standardize_all_outcome f (iloc_last_to_dict df) []) as Ho.
  destruct (find (unparsable f) (iloc_last_to_dict df)) as [[key value]|].
  - destruct Ho as (text & -> & ->). exists text. repeat split.
  - destruct Ho as [data ->]. cbn [mbind exn_bind].
    destruct (sensor_only_build_result data) as [a ->].
    pose proof (filled_is_not_empty data) as Hne.
    destruct (hybrid_build_result data
                (if String.eqb image_path "" then 0
                 else Hybrid.analyze_image imread image_path)) as [b Hb].
    destruct (Hybrid.fill_defaults data) as [|kv rest] eqn:Hf;
      [congruence|].
    rewrite Hb. eauto.
Qed.

Lemma text_under_a_recognised_label_fails_witness :
  rows table_text <> [] /\
  exists text,
    CStr "n/a" = CStr text /\
    SensorOnly.predict_from_sensor no_str (Ok table_text)
    = Failure "Prediction error: " (Some (ValueError text)) /\
    Hybrid.predict no_str no_image "" (Ok table_text)
    = Failure "Failed to read sensor data from CSV" None.
Proof.
  assert (rows table_text <> []) as H by discriminate.
  split; [exact H|].
  exact (text_under_a_recognised_label_fails no_str no_image "" table_text H).
Defined.

(** ** predict.py *)

Lemma DataFrame_eq (a b : DataFrame) :
  columns a = columns b -> rows a = rows b -> a = b.
Proof. destruct a, b. cbn. congruence. Qed.

Lemma columns_rename_step (df : DataFrame) (old_col new_col : string) :
  columns (if Fusion.mem old_col (columns df)
           then Fusion.rename df old_col new_col else df)
  = map (fun c => if String.eqb c old_col then new_col else c) (columns df).
Proof.
  destruct (Fusion.mem old_col (columns df)) eqn:E; [reflexivity|].
  unfold Fusion.mem in E. symmetry.
  induction (columns df) as [|c cols IH]; [reflexivity|].
  cbn in E. apply orb_false_iff in E as [E1 E2].
  cbn [map]. rewrite String.eqb_sym, E1, IH by exact E2. reflexivity.
Qed.

Lemma columns_fold (mapping : list (string * string)) (df : DataFrame) :
  columns
    (fold_left
       (fun df m => if Fusion.mem (fst m) (columns df)
                    then Fusion.rename df (fst m) (snd m) else df)
       mapping df)
  = map (fun c =>
           fold_left (fun c m => if String.eqb c (fst m) then snd m else c)
                     mapping c)
        (columns df).
Proof.
  revert df. induction mapping as [|m mapping IH]; intros df.
  - cbn. now rewrite map_id.
  - cbn [fold_left]. rewrite IH, columns_rename_step, map_map. reflexivity.
Qed.

Lemma renamed_fold (c : string) :
  fold_left (fun c m => if String.eqb c (fst m) then snd m else c)
            Fusion.column_mapping c
  = renamed c.
Proof.
  unfold renamed, get_default, Fusion.column_mapping.
  cbn [fold_left get fst snd].
  repeat match goal with
    | |- context [String.eqb c ?s] =>
        destruct (String.eqb_spec c s) as [->|?]; [reflexivity|]
    end.
  reflexivity.
Qed.

Lemma renamed_idempotent (c : string) : renamed (renamed c) = renamed c.
Proof.
  unfold renamed at 2. unfold get_default, Fusion.column_mapping.
  cbn [get].
  repeat match goal with
    | |- context [String.eqb c ?s] =>
        destruct (String.eqb_spec c s) as [->|?]; [reflexivity|]
    end.
  reflexivity.
Qed.

(** X14.  predict.py renames a column exactly when its label is one of the
    ten aliases of its table, and then to the alias's canonical name; the
    rows are left as they are, renaming twice is renaming once, and every
    alias is taken for the same parameter by the rule-based scripts. *)
Theorem fusion_renames_exact_labels
        (df : DataFrame) :
  columns (Fusion.standardize_columns df) = map renamed (columns df) /\
  rows (Fusion.standardize_columns df) = rows df /\
  Fusion.standardize_columns (Fusion.standardize_columns df)
  = Fusion.standardize_columns df /\
  Forall (fun m => exists p, recognised (fst m) = Some p /\
                             name_of p = snd m)
         Fusion.column_mapping.
Proof.
  assert (forall df, columns (Fusion.standardize_columns df)
                     = map renamed (columns df)) as Hc.
  { intros d. unfold Fusion.standardize_columns. rewrite columns_fold.
    apply map_ext. exact renamed_fold. }
  split; [apply Hc|]. split; [apply rows_standardize_columns|]. split.
  - apply DataFrame_eq.
    + rewrite !Hc, map_map. apply map_ext. exact renamed_idempotent.
    + now rewrite !rows_standardize_columns.
  - unfold Fusion.column_mapping.
    repeat constructor; cbn [fst snd];
      [exists P_pH | exists P_pH | exists P_Temperature
       | exists P_Temperature | exists P_Temperature | exists P_TDS
       | exists P_Turbidity | exists P_DO | exists P_DO | exists P_DO];
      split; vm_compute; reflexivity.
Qed.

Lemma Ok_inj {A} (a b : A) : Ok a = Ok b -> a = b.
Proof. congruence. Qed.

Lemma vstack_ok (width : nat) (a b c : list (list cell)) :
  Fusion.vstack width a b = Ok c -> c = a ++ b.
Proof.
  unfold Fusion.vstack. destruct (forallb _ b); [|discriminate].
  intros H. apply Ok_inj in H. now subst c.
Qed.

Lemma sensor_rows_length (df : DataFrame) (fc : dict (list string))
      (sensor_data : list (list cell)) :
  Fusion.sensor_rows df fc = Ok sensor_data ->
  length sensor_data = 10%nat.
Proof.
  unfold Fusion.sensor_rows, getitem, Fusion.SEQUENCE_LENGTH.
  destruct (get fc "features") as [features|]; [|discriminate].
  cbn [mbind exn_bind].
  match goal with
  | |- context [if (length ?x <? 10)%nat then _ else _] => set (sd := x)
  end.
  clearbody sd. cbv zeta.
  destruct (length sd <? 10)%nat eqn:E; intros H.
  - apply vstack_ok in H. subst sensor_data.
    apply Nat.ltb_lt in E. rewrite length_app, repeat_length. lia.
  - apply Ok_inj in H. subst sensor_data.
    apply Nat.ltb_ge in E. rewrite length_firstn. lia.
Qed.

Lemma latest_at_length_ten (f : string -> option float)
      (sensor_data : list (list cell)) (i : nat) (default : float) :
  length sensor_data = 10%nat -> (i < 5)%nat ->
  Fusion.latest_at f sensor_data i default =
  match nth_error (List.last sensor_data []) i with
  | Some value => Fusion.py_float f value
  | None => Raise IndexError
  end.
Proof.
  intros Hl Hi. unfold Fusion.latest_at. rewrite Hl.
  destruct (Nat.ltb_spec i 10); [reflexivity | lia].
Qed.

(** X15.  When predict.py's preprocessing returns, the sequence has ten
    rows and the reading it reports is read by position from the last of
    them: cells 0 to 4 under the names pH, Temperature, TDS, DO, Turbidity,
    in this order, whatever columns these cells came from. *)
Theorem fusion_reading_is_positional
        (f : string -> option float) (csv : exn DataFrame)
        (scaler : list (list cell) -> exn (list (list float)))
        (fc : dict (list string))
        (scaled : list (list float)) (latest : dict cell) :
  Fusion.preprocess_sensor_data f csv scaler fc = Ok (scaled, latest) ->
  exists df sensor_data c0 c1 c2 c3 c4 rest v0 v1 v2 v3 v4,
    csv = Ok df /\
    Fusion.sensor_rows df fc = Ok sensor_data /\
    length sensor_data = 10%nat /\
    scaler sensor_data = Ok scaled /\
    List.last sensor_data [] = c0 :: c1 :: c2 :: c3 :: c4 :: rest /\
    Fusion.py_float f c0 = Ok v0 /\ Fusion.py_float f c1 = Ok v1 /\
    Fusion.py_float f c2 = Ok v2 /\ Fusion.py_float f c3 = Ok v3 /\
    Fusion.py_float f c4 = Ok v4 /\
    latest = [("pH", v0); ("Temperature", v1); ("TDS", v2); ("DO", v3);
              ("Turbidity", v4)].
Proof.
  unfold Fusion.preprocess_sensor_data. intros H.
  destruct csv as [df|e]; [|discriminate H]. cbn [mbind exn_bind] in H.
  destruct (Fusion.sensor_rows df fc) as [sensor_data|e] eqn:Hs;
    [|discriminate H].
  cbn [mbind exn_bind] in H.
  destruct (scaler sensor_data) as [scaled'|e] eqn:Hsc; [|discriminate H].
  cbn [mbind exn_bind] in H.
  pose proof (sensor_rows_length _ _ _ Hs) as Hl.
  apply bind_ok in H as (latest' & H & E). cbn in E. injection E as <- <-.
  unfold Fusion.latest_reading in H.
  apply bind_ok in H as (v0 & H0 & H). apply bind_ok in H as (v1 & H1 & H).
  apply bind_ok in H as (v2 & H2 & H). apply bind_ok in H as (v3 & H3 & H).
  apply bind_ok in H as (v4 & H4 & H). cbn in H. injection H as <-.
  rewrite latest_at_length_ten in H0, H1, H2, H3, H4 by (exact Hl || lia).
  destruct (List.last sensor_data []) as [|c0 [|c1 [|c2 [|c3 [|c4 rest]]]]]
    eqn:Hlast;
    cbn [nth_error] in H0, H1, H2, H3, H4;
    try discriminate H0; try discriminate H1; try discriminate H2;
    try discriminate H3; try discriminate H4.
  exists df, sensor_data, c0, c1, c2, c3, c4, rest, v0, v1, v2, v3, v4.
  repeat split; try assumption; reflexivity.
Qed.

Lemma fusion_reading_is_positional_witness :
  exists scaled,
    Fusion.preprocess_sensor_data no_str (Ok table_three) plain_scaler
      reversed_config
    = Ok (scaled,
          [("pH", CFloat 2); ("Temperature", CFloat 6); ("TDS", CFloat 300);
           ("DO", CFloat 25); ("Turbidity", CFloat 3)]) /\
    exists df sensor_data c0 c1 c2 c3 c4 rest v0 v1 v2 v3 v4,
      Ok table_three = Ok df /\
      Fusion.sensor_rows df reversed_config = Ok sensor_data /\
      length sensor_data = 10%nat /\
      plain_scaler sensor_data = Ok scaled /\
      List.last sensor_data [] = c0 :: c1 :: c2 :: c3 :: c4 :: rest /\
      Fusion.py_float no_str c0 = Ok v0 /\
      Fusion.py_float no_str c1 = Ok v1 /\
      Fusion.py_float no_str c2 = Ok v2 /\
      Fusion.py_float no_str c3 = Ok v3 /\
      Fusion.py_float no_str c4 = Ok v4 /\
      [("pH", CFloat 2); ("Temperature", CFloat 6); ("TDS", CFloat 300);
       ("DO", CFloat 25); ("Turbidity", CFloat 3)]
      = [("pH", v0); ("Temperature", v1); ("TDS", v2); ("DO", v3);
         ("Turbidity", v4)].
Proof.
  eexists. split; [vm_compute; reflexivity|].
  apply (fusion_reading_is_positional no_str (Ok table_three) plain_scaler
           reversed_config).
  vm_compute. reflexivity.
Defined.

(** ** The network's outputs *)

Lemma argmax_from_spec (v : list float) :
  forall (best : float) (best_i i : nat),
    let r := Np.argmax_from best best_i i v in
    let m := fold_left (fun m y => if (y >? m)%py then y else m) v best in
    (r = best_i /\ m = best /\ forall y, In y v -> (y <= best)%Q) \/
    (exists k, r = (i + k)%nat /\ nth_error v k = Some m /\
               (best < m)%Q /\
               (forall y, In y v -> (y <= m)%Q) /\
               (forall j y, (j < k)%nat -> nth_error v j = Some y ->
                            (y < m)%Q)).
Proof.
  induction v as [|x v IH]; intros best best_i i; cbn zeta.
  - left. cbn. repeat split. intros y [].
  - cbn [Np.argmax_from fold_left].
    destruct (Qgtb_spec x best) as [Hx|Hx].
    + right. destruct (IH x i (S i)) as [(Hr & Hm & Hall)
                                        |(k & Hr & Hn & Hlt & Hall & Hbefore)].
      * exists 0%nat. rewrite Hr, Hm, Nat.add_0_r. cbn.
        repeat split; auto.
        -- intros y [<-|Hy]; [lra | auto].
        -- intros j y Hj. lia.
      * exists (S k). rewrite Hr, Nat.add_succ_r. cbn [nth_error].
        repeat split; auto; [lra | |].
        -- intros y [<-|Hy]; [lra | auto].
        -- intros [|j] y Hj Hy; cbn in Hy.
           ++ injection Hy as <-. exact Hlt.
           ++ apply (Hbefore j); [lia | exact Hy].
    + destruct (IH best best_i (S i)) as [(Hr & Hm & Hall)
                                         |(k & Hr & Hn & Hlt & Hall & Hbefore)].
      * left. repeat split; auto. intros y [<-|Hy]; auto.
      * right. exists (S k). rewrite Hr, Nat.add_succ_r. cbn [nth_error].
        repeat split; auto.
        -- intros y [<-|Hy]; [lra | auto].
        -- intros [|j] y Hj Hy; cbn in Hy.
           ++ injection Hy as <-. lra.
           ++ apply (Hbefore j); [lia | exact Hy].
Qed.

Lemma argmax_first_largest (v : list float) (i : nat) :
  Np.argmax v = Ok i ->
  exists m, Np.max v = Ok m /\ first_largest v i m.
Proof.
  destruct v as [|x v]; [discriminate|]. cbn [Np.argmax Np.max].
  intros H. apply Ok_inj in H. subst i. eexists. split; [reflexivity|].
  unfold first_largest.
  destruct (argmax_from_spec v x 0%nat 1%nat)
    as [(Hr & Hm & Hall)|(k & Hr & Hn & Hlt & Hall & Hbefore)];
    cbv zeta in *.
  - rewrite Hr, Hm. cbn. repeat split.
    + intros y [<-|Hy]; [lra | auto].
    + intros j y Hj. lia.
  - rewrite Hr. cbn [Nat.add nth_error]. repeat split; auto.
    + intros y [<-|Hy]; [lra | auto].
    + intros [|j] y Hj Hy; cbn in Hy.
      * injection Hy as <-. exact Hlt.
      * apply (Hbefore j); [lia | exact Hy].
Qed.

(** X16.  The labels predict.py prints are those at the first index of a
    largest output of each head of the network (so a tie goes to the earlier
    label, Unsafe before Safe), "Unknown" standing for an index without a
    label, and each confidence is that largest output times 100, rounded to
    two places. *)
Theorem fusion_prints_the_first_largest_output
        (tensor : Type)
        (a : Fusion.artifacts tensor) (image_input : tensor)
        (sensor_input : list (list float)) (sensor_readings : dict cell)
        (result : json) :
  Fusion.infer tensor a image_input sensor_input sensor_readings
  = Ok result ->
  exists quality_pred risk_pred i j qc rc,
    Fusion.model_predict tensor a image_input sensor_input
    = Ok (quality_pred, risk_pred) /\
    first_largest quality_pred i qc /\
    first_largest risk_pred j rc /\
    field result "water_quality"
    = Some (JStr (nth i ["Unsafe"; "Safe"] "Unknown")) /\
    field result "risk_level"
    = Some (JStr (nth j ["Low"; "Medium"; "High"] "Unknown")) /\
    confidence_of result "quality" = Some (JFloat (round2 (qc * 100)%Q)) /\
    confidence_of result "risk" = Some (JFloat (round2 (rc * 100)%Q)).
Proof.
  unfold Fusion.infer. intros H.
  apply bind_ok in H as ([quality_pred risk_pred] & Hp & H).
  apply bind_ok in H as (i & Hi & H). apply bind_ok in H as (j & Hj & H).
  apply bind_ok in H as (qc & Hqc & H). apply bind_ok in H as (rc & Hrc & H).
  apply argmax_first_largest in Hi as (qc' & Hqc' & Hi).
  apply argmax_first_largest in Hj as (rc' & Hrc' & Hj).
  assert (qc' = qc) as -> by congruence.
  assert (rc' = rc) as -> by congruence.
  exn_inv. subst result.
  exists quality_pred, risk_pred, i, j, qc, rc.
  split; [exact Hp|]. split; [exact Hi|]. split; [exact Hj|].
  repeat split.
Qed.

Lemma fusion_prints_the_first_largest_output_witness :
  exists result,
    Fusion.infer unit undecided_model tt [] (reading_dict_cells reading_A)
    = Ok result /\
    exists quality_pred risk_pred i j qc rc,
      Fusion.model_predict unit undecided_model tt []
      = Ok (quality_pred, risk_pred) /\
      first_largest quality_pred i qc /\
      first_largest risk_pred j rc /\
      field result "water_quality"
      = Some (JStr (nth i ["Unsafe"; "Safe"] "Unknown")) /\
      field result "risk_level"
      = Some (JStr (nth j ["Low"; "Medium"; "High"] "Unknown")) /\
      confidence_of result "quality" = Some (JFloat (round2 (qc * 100)%Q)) /\
      confidence_of result "risk" = Some (JFloat (round2 (rc * 100)%Q)).
Proof.
  eexists. split; [vm_compute; reflexivity|].
  apply (fusion_prints_the_first_largest_output unit undecided_model tt []
           (reading_dict_cells reading_A)).
  vm_compute. reflexivity.
Defined.

(** ** predict_s3.py: the cache *)

Lemma working_download_stores : stores working_download.
Proof.
  intros bucket key dest disk _. cbn. split.
  - rewrite lookup_insert_eq. eauto.
  - intros path Hp. destruct (decide (dest = path)) as [->|Hne].
    + rewrite lookup_insert_eq. eauto.
    + rewrite lookup_insert_ne by exact Hne. exact Hp.
Qed.

Lemma download_each_present bucket download
      (items : list (string * string)) (w w1 : S3.world) :
  stores download ->
  S3.download_each bucket download items w = (w1, None) ->
  (forall path, is_Some (S3.files w !! path) ->
                is_Some (S3.files w1 !! path)) /\
  (forall m, In m items -> is_Some (S3.files w1 !! S3.cache_path (snd m))).
Proof.
  intros Hst. revert w.
  induction items as [|[s3_file local_file] items IH]; intros w H.
  - cbn in H. injection H as <-. split; [auto | intros m []].
  - cbn [S3.download_each] in H. unfold S3.exists_ in H.
    destruct (S3.files w !! S3.cache_path local_file) as [content|] eqn:Hc.
    + destruct (IH w H) as [Hkeep Hall]. split; [exact Hkeep|].
      intros m [<-|Hm]; [|auto]. apply Hkeep. cbn [snd]. rewrite Hc. eauto.
    + destruct (download bucket ("models/water-quality-v1/" +:+ s3_file)
                  (S3.cache_path local_file) (S3.files w))
        as [disk raised] eqn:Hd.
      destruct raised as [e|]; [discriminate H|].
      destruct (Hst bucket ("models/water-quality-v1/" +:+ s3_file)
                  (S3.cache_path local_file) (S3.files w)) as [Hdest Hkeep0];
        [now rewrite Hd|].
      rewrite Hd in Hdest, Hkeep0. cbn [fst] in Hdest, Hkeep0.
      destruct (IH _ H) as [Hkeep Hall]. cbn [S3.files] in Hkeep.
      split; [auto|].
      intros m [<-|Hm]; [|auto]. apply Hkeep. exact Hdest.
Qed.

(** X17.  With a storage client whose successful transfer leaves its
    destination on the disk and removes no file, one successful call of
    download_model_from_s3 leaves all four blobs in the cache, and the next
    call returns the same paths without a request and without touching the
    disk. *)
Theorem warm_cache_after_one_success
        (bucket : string)
        (download : string -> string -> string -> gmap string S3.file ->
                    gmap string S3.file * option exception)
        (w w1 : S3.world) (paths : dict string) :
  stores download ->
  S3.download_model_from_s3 bucket (Ok download) w = (w1, Ok paths) ->
  (forall m, In m S3.model_files ->
             is_Some (S3.files w1 !! S3.cache_path (snd m))) /\
  S3.download_model_from_s3 bucket (Ok download) w1 = (w1, Ok paths).
Proof.
  intros Hst H. unfold S3.download_model_from_s3 in *.
  destruct (S3.download_each bucket download S3.model_files w)
    as [w' [e|]] eqn:Hd; [discriminate H|].
  injection H as -> <-.
  destruct (download_each_present _ _ _ _ _ Hst Hd) as [_ Hall].
  split; [exact Hall|].
  rewrite download_each_warm by exact Hall. reflexivity.
Qed.

Lemma warm_cache_after_one_success_witness :
  stores working_download /\
  S3.download_model_from_s3 "water-quality-models" (Ok working_download)
    cold_cache
  = (warm_cache, Ok cache_paths) /\
  (forall m, In m S3.model_files ->
             is_Some (S3.files warm_cache !! S3.cache_path (snd m))) /\
  S3.download_model_from_s3 "water-quality-models" (Ok working_download)
    warm_cache
  = (warm_cache, Ok cache_paths).
Proof.
  assert (S3.download_model_from_s3 "water-quality-models"
            (Ok working_download) cold_cache
          = (warm_cache, Ok cache_paths)) as H by reflexivity.
  split; [exact working_download_stores|]. split; [exact H|].
  exact (warm_cache_after_one_success "water-quality-models" working_download
           cold_cache warm_cache cache_paths working_download_stores H).
Defined.




(** ** predict_s3.py: the reading *)

Lemma s3_standardize_recognised (df : DataFrame) (data : dict cell)
      (col : string) :
  S3.standardize df data col =
  match recognised col with
  | Some p => v ← S3.column_last df col; mret (setitem data (name_of p) v)
  | None => Ok data
  end.
Proof.
  unfold S3.standardize, recognised. cbv zeta. if_cases; reflexivity.
Qed.

(** What the normalizer of predict_s3.py leaves in the dict: a value under
    the name of a parameter only when a label was taken for it, and only
    under such names. *)
Lemma s3_standardize_all_keys (df : DataFrame) (cols : list string)
      (d data : dict cell) :
  S3.standardize_all df d cols = Ok data ->
  (forall p, (forall c, In c cols -> recognised c <> Some p) ->
             get data (name_of p) = get d (name_of p)) /\
  (incl (map fst d) canonical_names -> incl (map fst data) canonical_names).
Proof.
  revert d. induction cols as [|col cols IH]; intros d H.
  - cbn in H. apply Ok_inj in H. subst data. auto.
  - cbn [S3.standardize_all] in H. rewrite s3_standardize_recognised in H.
    destruct (recognised col) as [q|] eqn:Hq.
    + destruct (S3.column_last df col) as [v|e]; [|discriminate H].
      cbn [mbind exn_bind mret exn_ret] in H.
      destruct (IH _ H) as [Hget Hkeys]. split.
      * intros p Hp. rewrite Hget by (intros c Hc; apply Hp; now right).
        rewrite get_setitem.
        destruct (String.eqb_spec (name_of p) (name_of q)) as [E|E];
          [|reflexivity].
        apply name_of_inj in E. subst q. exfalso.
        apply (Hp col); [now left | exact Hq].
      * intros Hd. apply Hkeys. rewrite keys_setitem.
        destruct (has_key d (name_of q)); [exact Hd|].
        apply incl_app; [exact Hd|]. intros x [<-|[]].
        destruct q; cbn; auto 6.
    + cbn [mbind exn_bind] in H. destruct (IH _ H) as [Hget Hkeys].
      split; [|exact Hkeys].
      intros p Hp. apply Hget. intros c Hc. apply Hp. now right.
Qed.

Lemma s3_success tensor bucket client load now_id now_timestamp upload
      (w : S3.world) (image : exn tensor) (csv : exn DataFrame)
      (result : json) :
  snd (S3.make_prediction tensor bucket client load now_id now_timestamp
         upload w image csv) = Success result ->
  exists a image_input df data sensor_input,
    csv = Ok df /\
    S3.standardize_all df [] (columns df) = Ok data /\
    S3.infer tensor now_id now_timestamp upload a image_input sensor_input
      data = Ok result.
Proof.
  unfold S3.make_prediction.
  destruct (S3.load_model_from_s3 tensor bucket client load w)
    as [w' [a|e]]; [|discriminate].
  destruct image as [image_input|e]; [|discriminate].
  cbn [mbind exn_bind].
  unfold S3.preprocess_sensor_data.
  destruct csv as [df|e]; [|discriminate]. cbn [mbind exn_bind].
  destruct (S3.standardize_all df [] (columns df)) as [data|e] eqn:Hd;
    [|discriminate].
  cbn [mbind exn_bind].
  destruct (S3.scaler_transform tensor a _) as [scaled|e]; [|discriminate].
  cbn [mbind exn_bind mret exn_ret].
  destruct (S3.infer _ _ _ _ _ _ _ _) as [r|e] eqn:Hi; [|discriminate].
  cbn [snd]. intros [= <-].
  exists a, image_input, df, data. eexists.
  split; [reflexivity|]. split; [exact Hd | exact Hi].
Qed.

Lemma s3_infer_parameters tensor now_id now_timestamp upload
      (a : S3.artifacts tensor) (image_input : tensor)
      (sensor_input : list (list float)) (data : dict cell) (result : json) :
  S3.infer tensor now_id now_timestamp upload a image_input sensor_input data
  = Ok result ->
  exists readings,
    S3.dumps_readings data = Ok readings /\
    field result "sensor_readings" = Some (JObj readings) /\
    (forall p, exists value,
        S3.rounded data (name_of p) = Ok value /\
        parameter_value result (name_of p) = Some value) /\
    (exists normal,
        between 6.5%Q (get_default data "pH" (CInt 7)) 8.5%Q = Ok normal /\
        parameter_status result "pH" = Some (S3.status normal)) /\
    (exists normal,
        between 15%Q (get_default data "Temperature" (CInt 25)) 30%Q
        = Ok normal /\
        parameter_status result "Temperature" = Some (S3.status normal)) /\
    (exists normal,
        below (get_default data "TDS" (CInt 0)) 500%Q = Ok normal /\
        parameter_status result "TDS" = Some (S3.status normal)) /\
    (exists normal,
        below (get_default data "Turbidity" (CInt 0)) 5%Q = Ok normal /\
        parameter_status result "Turbidity" = Some (S3.status normal)) /\
    (exists normal,
        above (get_default data "DO" (CInt 0)) 5%Q = Ok normal /\
        parameter_status result "DO" = Some (S3.status normal)).
Proof.
  unfold S3.infer. intros H.
  apply bind_ok in H as ([quality_pred risk_pred] & _ & H).
  apply bind_ok in H as (? & _ & H). apply bind_ok in H as (? & _ & H).
  apply bind_ok in H as (? & _ & H). apply bind_ok in H as (? & _ & H).
  apply bind_ok in H as (? & _ & H). apply bind_ok in H as (? & _ & H).
  apply bind_ok in H as (v1 & Hv1 & H). apply bind_ok in H as (n1 & Hn1 & H).
  apply bind_ok in H as (v2 & Hv2 & H). apply bind_ok in H as (n2 & Hn2 & H).
  apply bind_ok in H as (v3 & Hv3 & H). apply bind_ok in H as (n3 & Hn3 & H).
  apply bind_ok in H as (v4 & Hv4 & H). apply bind_ok in H as (n4 & Hn4 & H).
  apply bind_ok in H as (v5 & Hv5 & H). apply bind_ok in H as (n5 & Hn5 & H).
  apply bind_ok in H as (readings & Hr & H).
  exists readings. split; [exact Hr|].
  destruct (upload _) as [s3_key|]; apply Ok_inj in H; subst result;
    (split; [reflexivity|]);
    (split; [intros [| | | |]; eexists; (split; [eassumption | reflexivity])|]);
    repeat split; eexists; (split; [eassumption | reflexivity]).
Qed.

Lemma dumps_readings_get (data : dict cell) (readings : list (string * json))
      (k : string) :
  S3.dumps_readings data = Ok readings ->
  get data k = None -> get readings k = None.
Proof.
  revert readings. induction data as [|[k0 v0] data IH]; intros readings H.
  - cbn in H. apply Ok_inj in H. now subst readings.
  - cbn [S3.dumps_readings] in H.
    apply bind_ok in H as (j & _ & H). apply bind_ok in H as (js & Hjs & H).
    apply Ok_inj in H. subst readings. cbn [get].
    destruct (String.eqb k k0); [discriminate|]. now apply IH.
Qed.

(** X19.  In a result of predict_s3.py, a parameter for which the table has
    no column is reported with the value 0 and the status Normal (Abnormal
    for DO), and is missing from sensor_readings; no documented default is
    used. *)
Theorem s3_reports_zero_for_an_absent_parameter
        (tensor : Type) (bucket : string)
        (client : exn S3.s3_client)
        (load : gmap string S3.file -> dict string ->
                exn (S3.artifacts tensor))
        (now_id now_timestamp : string) (upload : json -> option string)
        (w : S3.world) (image : exn tensor) (df : DataFrame)
        (result : json) (p : parameter) :
  snd (S3.make_prediction tensor bucket client load now_id now_timestamp
         upload w image (Ok df)) = Success result ->
  (forall c, In c (columns df) -> recognised c <> Some p) ->
  parameter_value result (name_of p) = Some (JInt 0) /\
  parameter_status result (name_of p)
  = Some (JStr (match p with P_DO => "Abnormal" | _ => "Normal" end)) /\
  exists readings,
    field result "sensor_readings" = Some (JObj readings) /\
    get readings (name_of p) = None.
Proof.
  intros H Hp.
  apply s3_success in H
    as (a & image_input & df' & data & sensor_input & E & Hd & Hi).
  apply Ok_inj in E. subst df'.
  destruct (s3_standardize_all_keys _ _ _ _ Hd) as [Hget _].
  specialize (Hget p Hp). cbn [get] in Hget.
  apply s3_infer_parameters in Hi
    as (readings & Hr & Hs & Hv & H1 & H2 & H3 & H4 & H5).
  destruct (Hv p) as (value & Hvalue & ->).
  unfold S3.rounded in Hvalue. rewrite Hget in Hvalue.
  apply Ok_inj in Hvalue. subst value. split; [reflexivity|].
  split.
  - unfold get_default in *.
    destruct p; cbn [name_of] in *; rewrite Hget in *;
      [destruct H1 as (n & Hn & ->) | destruct H2 as (n & Hn & ->)
       | destruct H3 as (n & Hn & ->) | destruct H4 as (n & Hn & ->)
       | destruct H5 as (n & Hn & ->)];
      vm_compute in Hn; apply Ok_inj in Hn; subst n; reflexivity.
  - exists readings. split; [exact Hs|].
    exact (dumps_readings_get _ _ _ Hr Hget).
Qed.

Lemma s3_reports_zero_for_an_absent_parameter_witness :
  exists result,
    snd (S3.make_prediction unit "water-quality-models"
           (Ok working_download)
           s3_load "20240101120000" "2024-01-01T12:00:00" no_upload
           cold_cache (Ok tt) (Ok table_without_turbidity))
    = Success result /\
    (forall c, In c (columns table_without_turbidity) ->
               recognised c <> Some P_Turbidity) /\
    parameter_value result "Turbidity" = Some (JInt 0) /\
    parameter_status result "Turbidity" = Some (JStr "Normal") /\
    exists readings,
      field result "sensor_readings" = Some (JObj readings) /\
      get readings "Turbidity" = None.
Proof.
  assert (forall c, In c (columns table_without_turbidity) ->
                    recognised c <> Some P_Turbidity) as Hp
    by (intros c [<-|[<-|[<-|[<-|[]]]]]; vm_compute; discriminate).
  eexists. split; [vm_compute; reflexivity|]. split; [exact Hp|].
  apply (s3_reports_zero_for_an_absent_parameter unit "water-quality-models"
           (Ok working_download) s3_load "20240101120000" "2024-01-01T12:00:00"
           no_upload cold_cache (Ok tt) table_without_turbidity _
           P_Turbidity); [vm_compute; reflexivity | exact Hp].
Defined.

(** X20.  predict_s3.py answers only when every value its normalizer kept
    is a float or a blank: the names it keeps are among the five canonical
    names, and an integer or a text under one of them makes the run fail. *)
Theorem s3_answers_float_readings_only
        (tensor : Type) (bucket : string)
        (client : exn S3.s3_client)
        (load : gmap string S3.file -> dict string ->
                exn (S3.artifacts tensor))
        (now_id now_timestamp : string) (upload : json -> option string)
        (w : S3.world) (image : exn tensor) (df : DataFrame)
        (result : json) :
  snd (S3.make_prediction tensor bucket client load now_id now_timestamp
         upload w image (Ok df)) = Success result ->
  exists data readings,
    S3.standardize_all df [] (columns df) = Ok data /\
    S3.dumps_readings data = Ok readings /\
    field result "sensor_readings" = Some (JObj readings) /\
    forall name value,
      get data name = Some value ->
      In name canonical_names /\
      match value with
      | CFloat _ | CNaN => True
      | CInt _ | CStr _ => False
      end.
Proof.
  intros H.
  apply s3_success in H
    as (a & image_input & df' & data & sensor_input & E & Hd & Hi).
  apply Ok_inj in E. subst df'.
  destruct (s3_standardize_all_keys _ _ _ _ Hd) as [_ Hkeys].
  specialize (Hkeys (fun x (Hx : In x []) => match Hx with end)).
  apply s3_infer_parameters in Hi as (readings & Hr & Hs & Hv & _).
  exists data, readings. repeat split; try assumption.
  - apply Hkeys. apply has_key_in. unfold has_key. now rewrite H.
  - assert (In name canonical_names) as Hin
      by (apply Hkeys; apply has_key_in; unfold has_key; now rewrite H).
    assert (exists p, name = name_of p) as [p ->].
    { cbn in Hin.
      destruct Hin as [<-|[<-|[<-|[<-|[<-|[]]]]]];
        [exists P_pH | exists P_Temperature | exists P_TDS
         | exists P_Turbidity | exists P_DO]; reflexivity. }
    destruct (Hv p) as (v & Hvalue & _).
    unfold S3.rounded in Hvalue. rewrite H in Hvalue.
    destruct value; try exact I; discriminate Hvalue.
Qed.

Lemma s3_answers_float_readings_only_witness :
  exists result,
    snd (S3.make_prediction unit "water-quality-models"
           (Ok working_download)
           s3_load "20240101120000" "2024-01-01T12:00:00" no_upload
           cold_cache (Ok tt) (Ok (reading_csv reading_A)))
    = Success result /\
    exists data readings,
      S3.standardize_all (reading_csv reading_A) []
        (columns (reading_csv reading_A)) = Ok data /\
      S3.dumps_readings data = Ok readings /\
      field result "sensor_readings" = Some (JObj readings) /\
      forall name value,
        get data name = Some value ->
        In name canonical_names /\
        match value with
        | CFloat _ | CNaN => True
        | CInt _ | CStr _ => False
        end.
Proof.
  eexists. split; [vm_compute; reflexivity|].
  apply (s3_answers_float_readings_only unit "water-quality-models"
           (Ok working_download) s3_load "20240101120000" "2024-01-01T12:00:00"
           no_upload cold_cache (Ok tt) (reading_csv reading_A)).
  vm_compute. reflexivity.
Defined.

Lemma s3_standardize_all_empty (df : DataFrame) (cols : list string)
      (d : dict cell) :
  rows df = [] ->
  S3.standardize_all df d cols =
  match find (fun c => bool_decide (is_Some (recognised c))) cols with
  | Some _ => Raise IndexError
  | None => Ok d
  end.
Proof.
  intros Hr. revert d. induction cols as [|col cols IH]; intros d.
  - reflexivity.
  - cbn [S3.standardize_all find]. rewrite s3_standardize_recognised.
    unfold S3.column_last. rewrite Hr.
    destruct (recognised col) as [p|]; cbn; [reflexivity | apply IH].
Qed.

(** X21.  A table without rows: the sensor-only script reports "No data in
    CSV file", the hybrid script "Failed to read sensor data from CSV";
    the preprocessing of predict_s3.py raises IndexError when some label is
    taken for a parameter, and otherwise feeds the scaler one row of
    zeros. *)
Theorem table_without_rows
        (f : string -> option float) (imread : string -> option image)
        (image_path : string) (df : DataFrame)
        (scaler : list (list cell) -> exn (list (list float)))
        (config : dict (list string)) :
  rows df = [] ->
  SensorOnly.predict_from_sensor f (Ok df)
  = Failure "No data in CSV file" None /\
  Hybrid.predict f imread image_path (Ok df)
  = Failure "Failed to read sensor data from CSV" None /\
  S3.preprocess_sensor_data (Ok df) scaler config =
  match find (fun c => bool_decide (is_Some (recognised c))) (columns df) with
  | Some _ => Raise IndexError
  | None =>
      sensor_scaled ←
        scaler [map (fun _ => CInt 0)
                    (get_default config "columns"
                       ["pH"; "Temperature"; "TDS"; "Turbidity"; "DO"])];
      mret (flat_map (fun row => repeat row 10) sensor_scaled, [])
  end.
Proof.
  intros Hr. split; [|split].
  - unfold SensorOnly.predict_from_sensor, len. now rewrite Hr.
  - unfold Hybrid.predict, Hybrid.read_sensor_data, len. now rewrite Hr.
  - unfold S3.preprocess_sensor_data. cbn [mbind exn_bind].
    rewrite s3_standardize_all_empty by exact Hr.
    destruct (find _ (columns df)); reflexivity.
Qed.

Lemma table_without_rows_witness :
  rows table_empty = [] /\
  SensorOnly.predict_from_sensor no_str (Ok table_empty)
  = Failure "No data in CSV file" None /\
  Hybrid.predict no_str no_image "" (Ok table_empty)
  = Failure "Failed to read sensor data from CSV" None /\
  S3.preprocess_sensor_data (Ok table_empty) plain_scaler recorded_config
  = Raise IndexError.
Proof.
  assert (rows table_empty = []) as H by reflexivity.
  split; [exact H|].
  exact (table_without_rows no_str no_image "" table_empty plain_scaler
           recorded_config H).
Defined.
